(** * The fusion-and-scoring core of the DDR report generator

    A shallow embedding of [src/merger.py], [src/temperature_analysis.py],
    [src/clustering.py], [src/urgency.py] and [src/confidence.py].

    Conventions of the embedding.
    - A Python [str] is a [string] of the Standard Library.  The text
      operations below ([strip], [lower], [split], slicing, [in]) are the
      Python ones on ASCII text; a byte above 127 is a letter without case
      that is neither a blank nor a digit, so UTF-8 text passes through
      unchanged.
    - A Python [float] is a binary64 number: the kernel's [float], with
      its IEEE operations.  [round(x, 2)] and [float(text)] are written
      out over exact integers in [PyFloat].
    - An observation is a Python dict read with [.get]; it is a record of
      optional fields, [None] standing for an absent key.
    - A Python list of dicts that is updated in place is a list of records
      updated by position ([alter], [<[i:=x]>]); where a claim is about
      sharing, the objects live in a store and lists hold addresses. *)

From Stdlib Require Import ZArith Lia Bool List String Ascii DecimalString Sorted.
From Stdlib Require Import DecimalNat.
From Stdlib Require Import Uint63 Floats.
From stdpp Require Import base list strings gmap sets.

#[local] Set Warnings "-inexact-float,-clear-no-such-hyp".

Local Open Scope string_scope.
Local Open Scope list_scope.

(** ** Python text operations *)

Module PyStr.

(** [c.isspace()] on ASCII: TAB..CR, FS..US and the blank. *)
Definition isspace (c : ascii) : bool :=
  let n := N_of_ascii c in
  ((9 <=? n) && (n <=? 13) || (28 <=? n) && (n <=? 32))%N.

(** [\d] on ASCII. *)
Definition isdigit (c : ascii) : bool :=
  let n := N_of_ascii c in ((48 <=? n) && (n <=? 57))%N.

Definition lower_char (c : ascii) : ascii :=
  let n := N_of_ascii c in
  if ((65 <=? n) && (n <=? 90))%N then ascii_of_N (n + 32) else c.

Definition upper_char (c : ascii) : ascii :=
  let n := N_of_ascii c in
  if ((97 <=? n) && (n <=? 122))%N then ascii_of_N (n - 32) else c.

Fixpoint map_chars (f : ascii -> ascii) (s : string) : string :=
  match s with
  | EmptyString => EmptyString
  | String c s' => String (f c) (map_chars f s')
  end.

(** [s.lower()], [s.upper()] *)
Definition lower : string -> string := map_chars lower_char.
Definition upper : string -> string := map_chars upper_char.

(** Python truth value of a string: [bool(s)]. *)
Definition truthy (s : string) : bool :=
  match s with EmptyString => false | String _ _ => true end.

Fixpoint lstrip (s : string) : string :=
  match s with
  | EmptyString => EmptyString
  | String c s' => if isspace c then lstrip s' else s
  end.

Fixpoint rstrip (s : string) : string :=
  match s with
  | EmptyString => EmptyString
  | String c s' =>
      let r := rstrip s' in
      if isspace c && negb (truthy r) then EmptyString else String c r
  end.

(** [s.strip()] *)
Definition strip (s : string) : string := rstrip (lstrip s).

(** [s[:n]] *)
Fixpoint take (n : nat) (s : string) : string :=
  match n, s with
  | S n', String c s' => String c (take n' s')
  | _, _ => EmptyString
  end.

(** [s.split()]: the maximal runs of non-blank characters, in order.
    [cur] is the run being read. *)
Fixpoint split_from (cur : string) (s : string) : list string :=
  match s with
  | EmptyString => if truthy cur then [cur] else []
  | String c s' =>
      if isspace c
      then (if truthy cur then cur :: split_from EmptyString s'
            else split_from EmptyString s')
      else split_from (cur ++ String c EmptyString) s'
  end.

Definition split (s : string) : list string := split_from EmptyString s.

(** [s.split(sep)] for a one-character separator: always at least one
    piece, empty pieces kept. *)
Fixpoint split_on_from (sep : ascii) (cur : string) (s : string) : list string :=
  match s with
  | EmptyString => [cur]
  | String c s' =>
      if Ascii.eqb c sep
      then cur :: split_on_from sep EmptyString s'
      else split_on_from sep (cur ++ String c EmptyString) s'
  end.

Definition split_on (sep : ascii) (s : string) : list string :=
  split_on_from sep EmptyString s.

(** [sub in s]: [sub] occurs in [s] as a contiguous substring. *)
Fixpoint contains (sub s : string) : bool :=
  String.prefix sub s ||
  match s with
  | EmptyString => false
  | String _ s' => contains sub s'
  end.

(** [set(words)] *)
Definition to_set (ws : list string) : gset string := list_to_set ws.

End PyStr.

(** ** Python floats *)

Module PyFloat.

(** [float(n)] for an integer [0 <= n < 2^63]; exact below [2^53]. *)
Definition of_Z (n : Z) : float := PrimFloat.of_uint63 (Uint63.of_Z n).

Definition of_nat (n : nat) : float := of_Z (Z.of_nat n).

(** [a / b] on two small non-negative integers: true division, which
    rounds the exact quotient once, as the division of the two floats
    does. *)
Definition int_div (a b : nat) : float := PrimFloat.div (of_nat a) (of_nat b).

(** [x > y] *)
Definition gt (x y : float) : bool := PrimFloat.ltb y x.

(** The literal [0.3]: the binary64 number nearest to 3/10. *)
Definition lit_0_3 : float := 0x1.3333333333333p-2%float.

(** The exact value of a finite float: its sign and the ratio [p / q]
    of its magnitude, [q] a power of two.  [None] for nan and the
    infinities. *)
Definition exact (x : float) : option (bool * Z * Z) :=
  match Prim2SF x with
  | S754_zero s => Some (s, 0, 1)%Z
  | S754_finite s m e =>
      if (0 <=? e)%Z then Some (s, Z.pos m * 2 ^ e, 1)%Z
      else Some (s, Z.pos m, 2 ^ (- e))%Z
  | _ => None
  end.

(** [p / q] rounded to the nearest integer, a tie going to the even one. *)
Definition round_half_even (p q : Z) : Z :=
  let m := (p / q)%Z in
  let r := (p mod q)%Z in
  if (q <? 2 * r)%Z then (m + 1)%Z
  else if (2 * r =? q)%Z && Z.odd m then (m + 1)%Z
  else m.

(** The binary64 number nearest to [p / q], for [0 <= p] and [0 < q]:
    a 53-bit significand (fewer below the normal range) chosen by
    [round_half_even], infinity on overflow. *)
Definition nearest (p q : Z) : float :=
  if (p =? 0)%Z then 0%float
  else
    let scaled e := if (0 <=? e)%Z then (p / (q * 2 ^ e))%Z
                    else (p * 2 ^ (- e) / q)%Z in
    let e0 := (Z.log2 p - Z.log2 q - 53)%Z in
    let e1 := if (scaled e0 <? 2 ^ 53)%Z then e0 else (e0 + 1)%Z in
    let e := Z.max e1 (-1074) in
    let m := if (0 <=? e)%Z then round_half_even p (q * 2 ^ e)
             else round_half_even (p * 2 ^ (- e)) q in
    Z.ldexp (of_Z m) e.

(** [round(x, 2)]: the exact value of [x] is rounded half-even to two
    decimals, and that decimal is read back as the nearest float; nan
    and the infinities round to themselves. *)
Definition round2 (x : float) : float :=
  match exact x with
  | None => x
  | Some (s, p, q) =>
      let r := nearest (round_half_even (100 * p) q) 100 in
      if s then PrimFloat.opp r else r
  end.

(** The number a string of decimal digits writes. *)
Definition digits_value (ds : string) : Z :=
  fold_left (fun acc c => (10 * acc + (Z.of_N (N_of_ascii c) - 48))%Z)
            (list_ascii_of_string ds) 0%Z.

(** [float(text)] for [text] = optional [-], digits [ip], and, after a
    point, digits [fp]: the nearest float to the decimal. *)
Definition of_decimal (neg : bool) (ip fp : string) : float :=
  let r := nearest (digits_value (ip ++ fp)) (10 ^ Z.of_nat (String.length fp)) in
  if neg then PrimFloat.opp r else r.

End PyFloat.

(** ** Observations *)

(** The keys of an observation dict that the core reads or writes, each
    absent ([None]) or present with its value; a text key holds a text.
    The keys of the root-cause stage ([root_cause], [evidence]) are
    copied along by [dict(obs)] and never read by the core; they are left
    out. *)
Record Obs : Type := mkObs {
  area : option string;
  description : option string;
  issue_type : option string;
  source : option string;
  cluster_id : option string;
  cluster_label : option string;
  urgency_score : option Z;
  urgency_reason : option string;
  confidence : option float;
  confidence_reason : option string
}.

(** [obs.get(key, "")] and [(obs.get(key) or "")] on a text field. *)
Definition get (field : Obs -> option string) (o : Obs) : string :=
  default EmptyString (field o).

(** [obs.get("issue_type") or obs.get("description", "")] *)
Definition issue_type_or_description (o : Obs) : string :=
  if PyStr.truthy (get issue_type o) then get issue_type o else get description o.

(** [obs["source"] = label] *)
Definition set_source (label : string) (o : Obs) : Obs :=
  mkObs (area o) (description o) (issue_type o) (Some label)
        (cluster_id o) (cluster_label o) (urgency_score o) (urgency_reason o)
        (confidence o) (confidence_reason o).

(** [obs["description"] = d], and so on for the other keys. *)
Definition set_description (d : string) (o : Obs) : Obs :=
  mkObs (area o) (Some d) (issue_type o) (source o)
        (cluster_id o) (cluster_label o) (urgency_score o) (urgency_reason o)
        (confidence o) (confidence_reason o).

Definition set_issue_type (t : string) (o : Obs) : Obs :=
  mkObs (area o) (description o) (Some t) (source o)
        (cluster_id o) (cluster_label o) (urgency_score o) (urgency_reason o)
        (confidence o) (confidence_reason o).

(** A temperature reading of the input, with its keys [location],
    [value] and [unit].  A value that is a number in the input is given
    by its text, [str(value)]. *)
Record Reading : Type := mkReading {
  r_location : option string;
  r_value : option string;
  r_unit : option string
}.

Definition set_cluster (cid label : string) (o : Obs) : Obs :=
  mkObs (area o) (description o) (issue_type o) (source o)
        (Some cid) (Some label) (urgency_score o) (urgency_reason o)
        (confidence o) (confidence_reason o).

Definition set_urgency (score : Z) (reason : string) (o : Obs) : Obs :=
  mkObs (area o) (description o) (issue_type o) (source o)
        (cluster_id o) (cluster_label o) (Some score) (Some reason)
        (confidence o) (confidence_reason o).

Definition set_confidence (c : float) (reason : string) (o : Obs) : Obs :=
  mkObs (area o) (description o) (issue_type o) (source o)
        (cluster_id o) (cluster_label o) (urgency_score o) (urgency_reason o)
        (Some c) (Some reason).

(** An observation as an extractor gives it: area and description. *)
Definition finding (a d : string) : Obs :=
  mkObs (Some a) (Some d) None None None None None None None None.

(** ** src/merger.py *)

Module Merger.

Definition normalize_area (a : string) : string :=
  if negb (PyStr.truthy a) || negb (PyStr.truthy (PyStr.strip a))
  then "Area not specified"
  else PyStr.lower (PyStr.strip a).

(** [(obs.get("issue_type") or obs.get("description", ""))[:50].lower()] *)
Definition prefix_text (o : Obs) : string :=
  PyStr.lower (PyStr.take 50 (issue_type_or_description o)).

(** [len(words1 & words2) / max(len(words1), len(words2))
     if words1 and words2 else 0], then [overlap > 0.3]. *)
Definition overlap_gt_03 (words1 words2 : gset string) : bool :=
  if negb (Nat.eqb (size words1) 0) && negb (Nat.eqb (size words2) 0)
  then PyFloat.gt
         (PyFloat.int_div (size (words1 ∩ words2))
                          (Nat.max (size words1) (size words2)))
         PyFloat.lit_0_3
  else false.

Definition observations_similar (obs1 obs2 : Obs) : bool :=
  let a1 := normalize_area (get area obs1) in
  let a2 := normalize_area (get area obs2) in
  if negb (String.eqb a1 a2) then false
  else
    let t1 := prefix_text obs1 in
    let t2 := prefix_text obs2 in
    if negb (PyStr.truthy t1) || negb (PyStr.truthy t2)
    then String.eqb a1 a2
    else
      let words1 := PyStr.to_set (PyStr.split t1) in
      let words2 := PyStr.to_set (PyStr.split t2) in
      overlap_gt_03 words1 words2
      || PyStr.contains t1 t2 || PyStr.contains t2 t1.

(** [_merge_observations(seen, new)], the three field updates it makes
    on [seen], in the order of the source. *)
Definition merge_description (seen new : Obs) : Obs :=
  let desc_seen := PyStr.strip (get description seen) in
  let desc_new := PyStr.strip (get description new) in
  if PyStr.truthy desc_new && negb (String.eqb desc_new desc_seen)
  then (if PyStr.truthy desc_seen
        then set_description (desc_seen ++ ". Thermal/Inspection: " ++ desc_new) seen
        else set_description desc_new seen)
  else seen.

Definition merge_issue_type (seen new : Obs) : Obs :=
  let it_seen := PyStr.strip (get issue_type seen) in
  let it_new := PyStr.strip (get issue_type new) in
  if PyStr.truthy it_new
  then (if PyStr.truthy it_seen
           && negb (String.eqb (PyStr.lower it_new) (PyStr.lower it_seen))
        then set_issue_type (it_seen ++ "; " ++ it_new) seen
        else if negb (PyStr.truthy it_seen)
             then set_issue_type it_new seen
             else seen)
  else seen.

Definition merge_source (seen new : Obs) : Obs :=
  let src_seen := PyStr.strip (get source seen) in
  let src_new := PyStr.strip (get source new) in
  if PyStr.truthy src_new && negb (PyStr.contains src_new src_seen)
  then set_source (if PyStr.truthy src_seen
                   then src_seen ++ "; " ++ src_new
                   else src_new) seen
  else seen.

Definition _merge_observations (seen new : Obs) : Obs :=
  merge_source (merge_issue_type (merge_description seen new) new) new.

(** [_has_conflict(a, b)] *)
Definition _has_conflict (a b : Obs) : bool :=
  let desc_a := PyStr.strip (get description a) in
  let desc_b := PyStr.strip (get description b) in
  if negb (PyStr.truthy desc_a) || negb (PyStr.truthy desc_b) then false
  else negb (String.eqb desc_a desc_b)
       && Nat.ltb (size (PyStr.to_set (PyStr.split desc_a)
                         ∩ PyStr.to_set (PyStr.split desc_b))) 3.

(** A conflict record.  [observation_1] is [dict(seen)], a snapshot;
    [observation_2] is the incoming copy, which no list keeps and which
    is never written again. *)
Record Conflict : Type := mkConflict {
  conflict_type : string;
  observation_1 : Obs;
  observation_2 : Obs;
  message : string
}.

Definition conflict_message : string :=
  "Conflicting descriptions for same area — both recorded.".

(** The five lists of an extraction; [merged] has the same shape. *)
Record Extraction : Type := mkExtraction {
  observations : list Obs;
  temperatures : list Reading;
  severity_mentions : list string;
  ambiguous : list string;
  missing : list string
}.

(** The state [add_observations] works on.  [dict(obs)] creates an
    object; [store] holds the created objects that were appended, an
    object's address being its position.  [seen_observations] and
    [merged["observations"]] are two Python lists that hold the same
    objects, so a write through one is read through the other. *)
Record MergeState : Type := mkMergeState {
  store : list Obs;
  seen_observations : list nat;
  merged_observations : list nat;
  conflicts : list Conflict
}.

Definition initial_state : MergeState := mkMergeState [] [] [] [].

(** The inner loop [for seen in seen_observations]: the first seen
    object that is similar to [obs], with its address. *)
Fixpoint first_similar (st : list Obs) (obs : Obs) (seen : list nat)
  : option (nat * Obs) :=
  match seen with
  | [] => None
  | a :: rest =>
      match st !! a with
      | Some s => if observations_similar obs s then Some (a, s)
                  else first_similar st obs rest
      | None => first_similar st obs rest
      end
  end.

(** One iteration of [for obs in data.get("observations", [])]. *)
Definition add_observation (source_label : string) (ms : MergeState) (obs0 : Obs)
  : MergeState :=
  let obs := set_source source_label obs0 in
  match first_similar (store ms) obs (seen_observations ms) with
  | Some (a, seen) =>
      if _has_conflict obs seen
      then mkMergeState (store ms) (seen_observations ms) (merged_observations ms)
             (conflicts ms ++ [mkConflict "observation" seen obs conflict_message])
      else mkMergeState (<[a := _merge_observations seen obs]> (store ms))
             (seen_observations ms) (merged_observations ms) (conflicts ms)
  | None =>
      let a := length (store ms) in
      mkMergeState (store ms ++ [obs]) (seen_observations ms ++ [a])
        (merged_observations ms ++ [a]) (conflicts ms)
  end.

Definition add_observations (data : option Extraction) (source_label : string)
    (ms : MergeState) : MergeState :=
  match data with
  | None => ms
  | Some d => fold_left (add_observation source_label) (observations d) ms
  end.

(** Severity mentions: stripped, non-empty, first occurrence kept. *)
Definition add_severity (severities : list string) (s0 : string) : list string :=
  let s := PyStr.strip s0 in
  if PyStr.truthy s && negb (bool_decide (s ∈ severities))
  then severities ++ [s] else severities.

(** [list(dict.fromkeys(str(x) for x in l if x))] *)
Definition dedup_truthy (l : list string) : list string :=
  fold_left (fun acc x => if bool_decide (x ∈ acc) then acc else acc ++ [x])
            (filter (fun x => PyStr.truthy x = true) l) [].

(** [for data in (inspection_data, thermal_data): if data: ...] *)
Definition both {A} (f : Extraction -> list A) (i t : option Extraction) : list A :=
  from_option f [] i ++ from_option f [] t.

Definition merge_extractions (inspection_data thermal_data : option Extraction)
  : Extraction * list Conflict * list string :=
  let ms := add_observations thermal_data "Thermal Report"
              (add_observations inspection_data "Inspection Report" initial_state) in
  let amb := dedup_truthy (both ambiguous inspection_data thermal_data) in
  let mis := dedup_truthy (both missing inspection_data thermal_data) in
  let merged :=
    mkExtraction
      (omap (fun a => store ms !! a) (merged_observations ms))
      (both temperatures inspection_data thermal_data)
      (fold_left add_severity (both severity_mentions inspection_data thermal_data) [])
      amb mis in
  (merged, conflicts ms, amb ++ mis).

End Merger.

(** ** src/temperature_analysis.py *)

Module Temperature.

Definition DEFAULT_ANOMALY_THRESHOLD_C : float := 5%float.

(** The degree sign and the en dash, as their UTF-8 bytes. *)
Definition degree : string := "°".
Definition en_dash : string := "–".

(** [s] with the prefix [p] removed, when [s] starts with [p]. *)
Fixpoint strip_prefix (p s : string) : option string :=
  match p, s with
  | EmptyString, _ => Some s
  | String a p', String b s' => if Ascii.eqb a b then strip_prefix p' s' else None
  | String _ _, EmptyString => None
  end.

Fixpoint all_space (s : string) : bool :=
  match s with
  | EmptyString => true
  | String c s' => PyStr.isspace c && all_space s'
  end.

Definition is_CFcf (c : ascii) : bool :=
  Ascii.eqb c "C" || Ascii.eqb c "F" || Ascii.eqb c "c" || Ascii.eqb c "f".

(** The pattern [°[CFcf]?\s*$] matches at the head of [s]: the degree
    sign, an optional unit letter, and blanks up to the end. *)
Definition degree_tail (s : string) : bool :=
  match strip_prefix degree s with
  | Some rest =>
      match rest with
      | String c r => (is_CFcf c && all_space r) || all_space rest
      | EmptyString => true
      end
  | None => false
  end.

(** [re.sub(r"°[CFcf]?\s*$", "", s)]: the leftmost match runs to the
    end of [s] and is cut off. *)
Fixpoint sub_degree_tail (s : string) : string :=
  if degree_tail s then EmptyString
  else match s with
       | EmptyString => EmptyString
       | String c s' => String c (sub_degree_tail s')
       end.

(** The longest run of digits at the head of [s], and what follows. *)
Fixpoint digits (s : string) : string * string :=
  match s with
  | String c s' =>
      if PyStr.isdigit c then let '(d, r) := digits s' in (String c d, r)
      else (EmptyString, s)
  | EmptyString => (EmptyString, EmptyString)
  end.

(** A number read from a text: sign, digits before and after the point. *)
Definition Numeral : Type := (bool * string * string)%type.

Definition numeral_value (n : Numeral) : float :=
  let '(neg, ip, fp) := n in PyFloat.of_decimal neg ip fp.

(** The group [(-?\d*\.?\d+)] at the head of [s]: the match the regex
    engine can continue from is the longest one, which ends in a digit. *)
Definition range_number (s : string) : option (Numeral * string) :=
  let '(neg, s1) := match strip_prefix "-" s with
                    | Some r => (true, r)
                    | None => (false, s)
                    end in
  let '(ip, s2) := digits s1 in
  match strip_prefix "." s2 with
  | Some s3 =>
      let '(fp, s4) := digits s3 in
      if PyStr.truthy fp then Some ((neg, ip, fp), s4)
      else if PyStr.truthy ip then Some ((neg, ip, EmptyString), s2)
      else None
  | None => if PyStr.truthy ip then Some ((neg, ip, EmptyString), s2) else None
  end.

(** [[–\-]]: one hyphen or one en dash. *)
Definition range_separator (s : string) : option string :=
  match strip_prefix "-" s with
  | Some r => Some r
  | None => strip_prefix en_dash s
  end.

(** [$]: the end of the text, or just before a final line feed. *)
Definition at_end (s : string) : bool :=
  match s with
  | EmptyString => true
  | String c EmptyString => Ascii.eqb c "010"
  | _ => false
  end.

(** [re.search(r"^(-?\d*\.?\d+)\s*[–\-]\s*(-?\d*\.?\d+)$", s)] *)
Definition range_match (s : string) : option (Numeral * Numeral) :=
  match range_number s with
  | Some (lo, r1) =>
      match range_separator (PyStr.lstrip r1) with
      | Some r2 =>
          match range_number (PyStr.lstrip r2) with
          | Some (hi, r3) => if at_end r3 then Some (lo, hi) else None
          | None => None
          end
      | None => None
      end
  | None => None
  end.

(** The pattern [-?\d+\.?\d*] at the head of [s]. *)
Definition number_at (s : string) : option Numeral :=
  let '(neg, s1) := match strip_prefix "-" s with
                    | Some r => (true, r)
                    | None => (false, s)
                    end in
  let '(ip, s2) := digits s1 in
  if PyStr.truthy ip
  then match strip_prefix "." s2 with
       | Some s3 => Some (neg, ip, fst (digits s3))
       | None => Some (neg, ip, EmptyString)
       end
  else None.

(** [re.search(r"-?\d+\.?\d*", s)]: the leftmost match. *)
Fixpoint num_match (s : string) : option Numeral :=
  match number_at s with
  | Some n => Some n
  | None => match s with
            | EmptyString => None
            | String _ s' => num_match s'
            end
  end.

Definition _parse_value (raw : option string) : option float :=
  match raw with
  | None => None
  | Some raw =>
      let s := PyStr.strip raw in
      if negb (PyStr.truthy s) then None
      else
        let s := PyStr.strip (sub_degree_tail s) in
        match range_match s with
        | Some (lo, hi) =>
            Some (PrimFloat.div
                    (PrimFloat.add (numeral_value lo) (numeral_value hi)) 2)
        | None => option_map numeral_value (num_match s)
        end
  end.

(** [s.replace("°", "")]: every occurrence of the two bytes of the
    degree sign is dropped. *)
Fixpoint remove_degree (s : string) : string :=
  match s with
  | String a (String b s' as t) =>
      if Ascii.eqb a "194" && Ascii.eqb b "176" then remove_degree s'
      else String a (remove_degree t)
  | _ => s
  end.

(** ["F" in u or "FAHRENHEIT" in u] for
    [u = (unit or "").strip().upper().replace("°", "")] *)
Definition is_fahrenheit (unit : string) : bool :=
  let u := remove_degree (PyStr.upper (PyStr.strip unit)) in
  PyStr.contains "F" u || PyStr.contains "FAHRENHEIT" u.

Definition _normalize_to_celsius (value : float) (unit : string) : float :=
  if is_fahrenheit unit
  then PrimFloat.div (PrimFloat.mul (PrimFloat.sub value 32) 5) 9
  else value.

Definition _celsius_to_original (value_c : float) (unit : string) : float :=
  if is_fahrenheit unit
  then PrimFloat.add (PrimFloat.div (PrimFloat.mul value_c 9) 5) 32
  else value_c.

(** A reading that parsed, as the dict the first loop appends. *)
Record Parsed : Type := mkParsed {
  p_location : string;
  p_value : float;
  p_unit : string;
  p_value_c : float
}.

(** A reading of the result: [location], [value], [unit], [delta],
    [delta_c], [anomaly]. *)
Record ReadingOut : Type := mkReadingOut {
  location : string;
  value : float;
  out_unit : string;
  delta : float;
  delta_c : float;
  anomaly : bool
}.

Record TemperatureAnalysis : Type := mkAnalysis {
  reference_value : option float;
  reference_unit : option string;
  readings : list ReadingOut
}.

Definition no_analysis : TemperatureAnalysis := mkAnalysis None None [].

(** [(t.get("unit") or "°C").strip() or "°C"] *)
Definition unit_of (t : Reading) : string :=
  let u := default EmptyString (r_unit t) in
  let u := PyStr.strip (if PyStr.truthy u then u else "°C") in
  if PyStr.truthy u then u else "°C".

(** One iteration of the parsing loop; [None] is [continue]. *)
Definition parse_reading (t : Reading) : option Parsed :=
  let loc := default EmptyString (r_location t) in
  let unit := unit_of t in
  match _parse_value (r_value t) with
  | None => None
  | Some val => Some (mkParsed loc val unit (_normalize_to_celsius val unit))
  end.

(** [sorted(values)]: the stable sort by [<].  On values without nan
    the order [<] is a strict weak order and every stable sort gives
    this list. *)
Fixpoint insert_sorted (x : float) (l : list float) : list float :=
  match l with
  | [] => [x]
  | y :: l' => if PrimFloat.ltb x y then x :: y :: l' else y :: insert_sorted x l'
  end.

Definition sorted (l : list float) : list float :=
  fold_left (fun acc x => insert_sorted x acc) l [].

(** The reference of the sorted values: the middle one, or the mean of
    the two middle ones. *)
Definition median_of_sorted (values_sorted : list float) : float :=
  let n := length values_sorted in
  if Nat.eqb (n mod 2) 1
  then nth (n / 2) values_sorted 0%float
  else PrimFloat.div
         (PrimFloat.add (nth (n / 2 - 1) values_sorted 0%float)
                        (nth (n / 2) values_sorted 0%float)) 2.

(** The body of the second loop. *)
Definition reading_out (reference_c anomaly_threshold_c : float) (p : Parsed)
  : ReadingOut :=
  let d_c := PrimFloat.sub (p_value_c p) reference_c in
  let unit := p_unit p in
  let delta_display :=
    PrimFloat.sub (_celsius_to_original (PrimFloat.add reference_c d_c) unit)
                  (_celsius_to_original reference_c unit) in
  mkReadingOut (p_location p) (p_value p) unit
    (PyFloat.round2 delta_display) (PyFloat.round2 d_c)
    (PyFloat.gt (PrimFloat.abs d_c) anomaly_threshold_c).

(** The local [reference_c] and [reference_value] of the source, for
    the readings that parsed. *)
Definition reference_c (parsed : list Parsed) : float :=
  median_of_sorted (sorted (map p_value_c parsed)).

Definition first_unit (parsed : list Parsed) : string :=
  match parsed with
  | p :: _ => p_unit p
  | [] => "°C"
  end.

Definition reference_display (parsed : list Parsed) : float :=
  _celsius_to_original (reference_c parsed) (first_unit parsed).

Definition compute_temperature_analysis (temperatures : list Reading)
    (anomaly_threshold_c : float) : TemperatureAnalysis :=
  match temperatures with
  | [] => no_analysis
  | _ =>
      let parsed := omap parse_reading temperatures in
      match parsed with
      | [] => no_analysis
      | _ =>
          mkAnalysis (Some (PyFloat.round2 (reference_display parsed)))
                     (Some (first_unit parsed))
                     (map (reading_out (reference_c parsed) anomaly_threshold_c)
                          parsed)
      end
  end.

End Temperature.

(** ** src/clustering.py *)

Module Clustering.

Definition _normalize (s : string) : string :=
  if negb (PyStr.truthy s) || negb (PyStr.truthy (PyStr.strip s))
  then "unspecified"
  else PyStr.lower (PyStr.strip s).

(** The grouping key [f"{area}|{issue_type}"] of an observation. *)
Definition key_of (obs : Obs) : string :=
  let area := _normalize (get area obs) in
  let issue_type :=
    _normalize (if PyStr.truthy (get issue_type obs) then get issue_type obs
                else PyStr.take 50 (get description obs)) in
  area ++ "|" ++ issue_type.

(** [key_to_indices] is a dict, which keeps its keys in the order they
    were first inserted: a list of entries.
    [if key not in d: d[key] = []] and then [d[key].append(i)]. *)
Fixpoint add_index (key : string) (i : nat) (d : list (string * list nat))
  : list (string * list nat) :=
  match d with
  | [] => [(key, [i])]
  | (k, indices) :: d' =>
      if String.eqb k key then (k, indices ++ [i]) :: d'
      else (k, indices) :: add_index key i d'
  end.

(** [for i, obs in enumerate(observations)], from index [i] on. *)
Fixpoint index_keys (i : nat) (observations : list Obs)
    (d : list (string * list nat)) : list (string * list nat) :=
  match observations with
  | [] => d
  | obs :: rest => index_keys (S i) rest (add_index (key_of obs) i d)
  end.

Record Cluster : Type := mkCluster {
  cl_cluster_id : string;
  cl_label : string;
  observation_indices : list nat
}.

(** [f"cluster_{n}"] *)
Definition cluster_name (n : nat) : string :=
  "cluster_" ++ NilEmpty.string_of_uint (Nat.to_uint n).

Definition empty_obs : Obs :=
  mkObs None None None None None None None None None None.

(** [f"{area_raw} – {issue_raw}"] for the first member of a group.  The
    indices of a group are positions of [observations], and a group has
    a member, so the subscripts of the source are in range. *)
Definition label_of (observations : list Obs) (indices : list nat) : string :=
  let first := nth (hd 0 indices) observations empty_obs in
  let area_raw := match indices with
                  | [] => "Unknown"
                  | _ => default "Unknown" (area first)
                  end in
  let issue_raw := if PyStr.truthy (get issue_type first)
                   then get issue_type first else "finding" in
  area_raw ++ " – " ++ issue_raw.

(** The state of the second loop: [cluster_counter], [clusters] and
    [key_to_cluster_id]. *)
Definition Numbering : Type := (nat * list Cluster * gmap string string)%type.

Definition number_group (observations : list Obs) (st : Numbering)
    (item : string * list nat) : Numbering :=
  let '(cluster_counter, clusters, key_to_cluster_id) := st in
  let '(key, indices) := item in
  let cluster_counter := S cluster_counter in
  let cid := cluster_name cluster_counter in
  (cluster_counter,
   clusters ++ [mkCluster cid (label_of observations indices) indices],
   <[key := cid]> key_to_cluster_id).

(** [next((c["label"] for c in clusters if c["cluster_id"] == cid), cid)] *)
Definition label_for (clusters : list Cluster) (cid : string) : string :=
  match List.find (fun c => String.eqb (cl_cluster_id c) cid) clusters with
  | Some c => cl_label c
  | None => cid
  end.

(** The third loop, for one group: [result[i]["cluster_id"] = cid] and
    [result[i]["cluster_label"] = label] for each index of the group. *)
Definition attach_group (clusters : list Cluster)
    (key_to_cluster_id : gmap string string)
    (result : list Obs) (item : string * list nat) : list Obs :=
  let cid := key_to_cluster_id !!! fst item in
  let label := label_for clusters cid in
  fold_left (fun res i => alter (set_cluster cid label) i res) (snd item) result.

Definition cluster_observations (observations : list Obs)
  : list Obs * list Cluster :=
  match observations with
  | [] => ([], [])
  | _ =>
      let key_to_indices := index_keys 0 observations [] in
      let '(_, clusters, key_to_cluster_id) :=
        fold_left (number_group observations) key_to_indices (0, [], ∅) in
      let result := observations in
      (fold_left (attach_group clusters key_to_cluster_id) key_to_indices result,
       clusters)
  end.

End Clustering.

(** ** src/urgency.py *)

Module Urgency.

Definition SEVERITY_KEYWORDS : list (string * Z) :=
  [("critical", 2); ("severe", 2); ("immediate", 2);
   ("urgent", 1); ("high", 1); ("significant", 1);
   ("moderate", 0);
   ("low", -1); ("minor", -1); ("cosmetic", -1)]%Z.

Definition ISSUE_TYPE_SCORE : list (string * Z) :=
  [("moisture", 4); ("water", 4); ("mold", 4); ("plumbing", 4);
   ("electrical", 4); ("structural", 4); ("safety", 5);
   ("heat loss", 3); ("insulation", 3); ("anomaly", 3); ("thermal", 3);
   ("damage", 3); ("crack", 2); ("leak", 4); ("defect", 2);
   ("cosmetic", 1); ("staining", 2); ("wear", 2)]%Z.

Definition _normalize (s : string) : string := PyStr.lower (PyStr.strip s).

(** [for kw, boost in SEVERITY_KEYWORDS.items():
       if kw in text: score = max(score, boost)] *)
Definition scan_severity (text : string) (score : Z) : Z :=
  fold_left (fun sc '(kw, boost) =>
               if PyStr.contains kw text then Z.max sc boost else sc)
            SEVERITY_KEYWORDS score.

Definition _observation_urgency_from_severity (obs : Obs)
    (severity_mentions : list string) : Z :=
  let desc := _normalize (get description obs) in
  let score := scan_severity desc 0%Z in
  let score := fold_left (fun sc s => scan_severity (_normalize s) sc)
                         severity_mentions score in
  Z.min 2 (Z.max 0 score).

Definition _observation_urgency_from_issue_type (obs : Obs) : Z :=
  let it := _normalize (get issue_type obs) in
  let desc := PyStr.take 100 (_normalize (get description obs)) in
  let text := (it ++ " " ++ desc)%string in
  match List.find (fun '(keyword, _) => PyStr.contains keyword text)
                  ISSUE_TYPE_SCORE with
  | Some (_, base) => base
  | None => 2%Z
  end.

Definition _location_matches_reading (location area : string) : bool :=
  let loc := _normalize location in
  let a := _normalize area in
  if negb (PyStr.truthy loc) || negb (PyStr.truthy a) then false
  else PyStr.contains a loc || PyStr.contains loc a.

Definition _thermal_anomaly_boost (obs : Obs)
    (temperature_analysis : option Temperature.TemperatureAnalysis) : Z :=
  match temperature_analysis with
  | None => 0%Z
  | Some ta =>
      let area := _normalize (get area obs) in
      if existsb (fun r => Temperature.anomaly r
                           && _location_matches_reading (Temperature.location r) area)
                 (Temperature.readings ta)
      then 1%Z else 0%Z
  end.

(** [sep.join(parts)] *)
Fixpoint join (sep : string) (parts : list string) : string :=
  match parts with
  | [] => EmptyString
  | [x] => x
  | x :: rest => (x ++ sep ++ join sep rest)%string
  end.

(** The body of the loop of [score_urgency]. *)
Definition scored (severity_mentions : list string)
    (temperature_analysis : option Temperature.TemperatureAnalysis) (obs : Obs)
  : Obs :=
  let base := _observation_urgency_from_issue_type obs in
  let sev := _observation_urgency_from_severity obs severity_mentions in
  let thermal := _thermal_anomaly_boost obs temperature_analysis in
  let score := Z.min 5 (Z.max 1 (base + sev + thermal)) in
  let reasons :=
    (if (0 <? sev)%Z then ["severity keywords in report"] else [])
    ++ (if (0 <? thermal)%Z then ["thermal anomaly in area"] else [])
    ++ (if (4 <=? base)%Z then ["high-impact issue type"] else []) in
  set_urgency score
    (match reasons with [] => "routine finding" | _ => join "; " reasons end)
    obs.

Definition score_urgency (observations : list Obs)
    (severity_mentions : list string)
    (temperature_analysis : option Temperature.TemperatureAnalysis)
  : list Obs :=
  map (scored severity_mentions temperature_analysis) observations.

End Urgency.

(** ** src/confidence.py *)

Module Confidence.

(** [_sources(obs)]: the set of the non-empty trimmed pieces of the
    [source] text between semicolons. *)
Definition _sources (obs : Obs) : gset string :=
  let src := PyStr.strip (get source obs) in
  if negb (PyStr.truthy src) then ∅
  else list_to_set
         (filter (fun x => PyStr.truthy x = true)
                 (map PyStr.strip (PyStr.split_on ";" src))).

(** The seven content rules, in the order of the source. *)
Definition _content_based_confidence (obs : Obs) : option (float * string) :=
  let area := PyStr.lower (PyStr.strip (get area obs)) in
  let desc := PyStr.lower (PyStr.strip (get description obs)) in
  let it := PyStr.lower (PyStr.strip (get issue_type obs)) in
  let text := (area ++ " " ++ desc ++ " " ++ it)%string in
  let has kw := PyStr.contains kw text in
  if (has "visible" || has "repeated")
     && (has "damp" || has "moisture" || has "leak" || has "damage")
  then Some (0.85%float, "Clear visible or repeated finding")
  else if has "skirting" && (has "damp" || has "dampness" || has "moisture")
  then Some (0.85%float, "Skirting-level dampness clearly reported")
  else if has "parking" && has "ceiling"
          && (has "leak" || has "leakage" || has "water")
  then Some (0.85%float, "Parking ceiling leakage clearly reported")
  else if has "moderate" && (has "evidence" || has "sign" || has "damage")
  then Some (0.65%float, "Moderate evidence")
  else if has "tile" && (has "hollow" || has "hollowness")
  then Some (0.65%float, "Tile hollowness noted")
  else if has "unclear" || has "vague"
  then Some (0.45%float, "Unclear or vague finding")
  else if (has "damage"
           && negb (existsb has ["moisture"; "leak"; "crack"; "structural"; "water"]))
          && (has "bedroom" || has "bathroom" || has "room" || has "ceiling"
              || has "wall")
  then Some (0.45%float, "Insufficient diagnostic detail for generic damage")
  else None.

(** The pair an observation is looked up by in the conflict set. *)
Definition conflict_key (o : Obs) : string * string :=
  (PyStr.strip (get area o),
   PyStr.take 80 (PyStr.strip (get description o))).

(** [conflict_obs], the set built from the snapshots of the conflicts. *)
Definition conflict_obs (conflicts : option (list Merger.Conflict))
  : gset (string * string) :=
  match conflicts with
  | None => ∅
  | Some cs =>
      fold_left (fun acc c =>
                   acc ∪ {[ conflict_key (Merger.observation_1 c) ]}
                       ∪ {[ conflict_key (Merger.observation_2 c) ]})
                cs ∅
  end.

(** The confidence and its reason, before rounding. *)
Definition rate (conflict_set : gset (string * string)) (obs : Obs)
  : float * string :=
  let in_conflict := bool_decide (conflict_key obs ∈ conflict_set) in
  match _content_based_confidence obs with
  | Some content_override => content_override
  | None =>
      if in_conflict then (0.5%float, "Conflicting reports for this finding")
      else if Nat.leb 2 (size (_sources obs))
           then (0.9%float, "Multiple sources agree (inspection and thermal)")
           else (0.7%float, "Single source")
  end.

(** The body of the loop of [score_confidence]. *)
Definition scored (conflict_set : gset (string * string)) (obs : Obs) : Obs :=
  let '(confidence, reason) := rate conflict_set obs in
  set_confidence (PyFloat.round2 confidence) reason obs.

Definition score_confidence (observations : list Obs)
    (conflicts : option (list Merger.Conflict)) : list Obs :=
  map (scored (conflict_obs conflicts)) observations.

End Confidence.

(** ** The three annotating stages over a store of objects

    The stages receive a Python list of dicts and return a list of dicts.
    Here a dict is an object of a store, at an address (its position),
    and a list of dicts is a list of addresses, so that "a new record" and
    "the input is not written" can be said.  [None] is the read of an
    address that holds no object, which a Python list cannot contain. *)

Module Stored.

Abbreviation Store := (list Obs) (only parsing).

(** [dict(obs)]: a new object with the fields of the one at [a]. *)
Definition copy (h : Store) (a : nat) : option (nat * Store) :=
  match h !! a with
  | Some o => Some (length h, h ++ [o])
  | None => None
  end.

(** The loop shared by [score_urgency] and [score_confidence]:
    [for obs in observations: obs = dict(obs); ...; result.append(obs)],
    the assignments to the keys of the copy being [body]. *)
Fixpoint annotate_copies (body : Obs -> Obs) (h : Store)
    (observations result : list nat) : option (list nat * Store) :=
  match observations with
  | [] => Some (result, h)
  | a :: rest =>
      match copy h a with
      | Some (a', h1) =>
          annotate_copies body (alter body a' h1) rest (result ++ [a'])
      | None => None
      end
  end.

Definition score_urgency (h : Store) (observations : list nat)
    (severity_mentions : list string)
    (temperature_analysis : option Temperature.TemperatureAnalysis)
  : option (list nat * Store) :=
  annotate_copies (Urgency.scored severity_mentions temperature_analysis)
                  h observations [].

Definition score_confidence (h : Store) (observations : list nat)
    (conflicts : option (list Merger.Conflict)) : option (list nat * Store) :=
  annotate_copies (Confidence.scored (Confidence.conflict_obs conflicts))
                  h observations [].

(** [[dict(obs) for obs in observations]] *)
Fixpoint copy_all (h : Store) (observations : list nat)
  : option (list nat * Store) :=
  match observations with
  | [] => Some ([], h)
  | a :: rest =>
      match copy h a with
      | Some (a', h1) =>
          match copy_all h1 rest with
          | Some (result, h2) => Some (a' :: result, h2)
          | None => None
          end
      | None => None
      end
  end.

(** The third loop of [cluster_observations] for one group, writing
    through [result[i]]. *)
Definition attach_group (clusters : list Clustering.Cluster)
    (key_to_cluster_id : gmap string string) (result : list nat)
    (h : Store) (item : string * list nat) : Store :=
  let cid := key_to_cluster_id !!! fst item in
  let label := Clustering.label_for clusters cid in
  fold_left (fun h i => match result !! i with
                        | Some a => alter (set_cluster cid label) a h
                        | None => h
                        end)
            (snd item) h.

Definition cluster_observations (h : Store) (observations : list nat)
  : option (list nat * list Clustering.Cluster * Store) :=
  match mapM (fun a => h !! a) observations with
  | None => None
  | Some objs =>
      match observations with
      | [] => Some ([], [], h)
      | _ =>
          let key_to_indices := Clustering.index_keys 0 objs [] in
          let '(_, clusters, key_to_cluster_id) :=
            fold_left (Clustering.number_group objs) key_to_indices (0, [], ∅) in
          match copy_all h observations with
          | Some (result, h1) =>
              Some (result, clusters,
                    fold_left (attach_group clusters key_to_cluster_id result)
                              key_to_indices h1)
          | None => None
          end
      end
  end.

End Stored.

(** * The vocabulary of the properties

    What the statements below are written with: the notions of the
    specification, and the inputs of its scenarios. *)

(** ** For urgency *)

Module UrgencySpec.
Import Urgency.

(** [min(hi, max(lo, x))] *)
Definition clamp (lo hi x : Z) : Z := Z.min hi (Z.max lo x).

End UrgencySpec.

(** ** For confidence *)

Module ConfidenceSpec.
Import Confidence.



(** A finding that no content rule matches, reported by both documents. *)
Definition hall_crack : Obs :=
  mkObs (Some "Hall") (Some "hairline crack") None
        (Some "Inspection Report; Thermal Report")
        None None None None None None.

End ConfidenceSpec.

(** ** For the merger *)

Module MergerSpec.
Import Merger.

(** An extraction with observations only. *)
Definition only (obs : list Obs) : option Extraction :=
  Some (mkExtraction obs [] [] [] []).

(** [merged["observations"]] and [conflicts] of what
    [merge_extractions] returns. *)
Definition merged_of (r : Extraction * list Conflict * list string) : list Obs :=
  observations (fst (fst r)).

Definition conflicts_of (r : Extraction * list Conflict * list string)
  : list Conflict := snd (fst r).

(** Two findings of one area that are similar (one description contains
    the other) and conflict (they share one word). *)
Definition leak_seen : Obs := finding "Kitchen" "water leak".
Definition leak_new : Obs := finding "kitchen" "leak".

(** The two findings of the bathroom ceiling scenario. *)
Definition bathroom_inspection : Obs :=
  finding "Bathroom ceiling" "Visible damp staining on ceiling".
Definition bathroom_thermal : Obs :=
  finding "bathroom ceiling" "moderate moisture evidence".

Definition bathroom_merge : Extraction * list Conflict * list string :=
  merge_extractions (only [bathroom_inspection]) (only [bathroom_thermal]).






(** The two labels [merge_extractions] passes to [add_observations], and
    their combination by [_merge_observations]. *)
Definition inspection_label : string := "Inspection Report".
Definition thermal_label : string := "Thermal Report".
Definition both_labels : string := "Inspection Report; Thermal Report".

(** The observation without what the extractor gave as its source. *)
Definition forget_source (o : Obs) : Obs :=
  mkObs (area o) (description o) (issue_type o) None
        (cluster_id o) (cluster_label o) (urgency_score o) (urgency_reason o)
        (confidence o) (confidence_reason o).

(** The extraction with the source of every observation removed. *)
Definition forget_sources (data : option Extraction) : option Extraction :=
  option_map (fun d => mkExtraction (map forget_source (observations d))
                         (temperatures d) (severity_mentions d)
                         (ambiguous d) (missing d))
             data.

(** The source of [o] is one of [labels]. *)
Definition has_source (labels : list string) (o : Obs) : Prop :=
  exists l, l ∈ labels /\ source o = Some l.

(** One finding, reported by both documents in the same words. *)
Definition sink_inspection : Obs := finding "Kitchen" "water leak at sink".
Definition sink_thermal : Obs := finding "kitchen" "water leak at sink".

End MergerSpec.

(** ** For the temperature analysis *)

Module TemperatureSpec.
Import Temperature.





(** A reading in degrees Celsius, and what it parses to. *)
Definition celsius (loc val : string) : Reading :=
  mkReading (Some loc) (Some val) (Some "°C").


(** The analysis of Kitchen "22" and Bedroom [bedroom], both in °C. *)
Definition kitchen_bedroom (bedroom : string) : TemperatureAnalysis :=
  compute_temperature_analysis
    [celsius "Kitchen" "22"; celsius "Bedroom" bedroom]
    DEFAULT_ANOMALY_THRESHOLD_C.

End TemperatureSpec.

(** ** For the stages over a store *)

Module StoredSpec.
Import Stored.

(** The four fields of a finding as the merger leaves it. *)
Definition same_finding (o o' : Obs) : Prop :=
  area o' = area o /\ description o' = description o
  /\ issue_type o' = issue_type o /\ source o' = source o.

(** The finding and its cluster. *)
Definition same_clustered (o o' : Obs) : Prop :=
  same_finding o o'
  /\ cluster_id o' = cluster_id o /\ cluster_label o' = cluster_label o.

(** The finding, its cluster and its urgency. *)
Definition same_scored (o o' : Obs) : Prop :=
  same_clustered o o'
  /\ urgency_score o' = urgency_score o /\ urgency_reason o' = urgency_reason o.

(** The list [observations] of addresses holds the objects [objs]. *)
Definition holds (h : Store) (observations : list nat) (objs : list Obs) : Prop :=
  Forall2 (fun a o => h !! a = Some o) observations objs.

(** What a stage leaves, from the store [h] and the list [observations]
    to the store [h'] and the list [result]: no object of [h] is written;
    the addresses of [result] are new and distinct; and, position by
    position, the object of [result] is related by [R] to the object of
    [observations]. *)
Definition new_records (R : Obs -> Obs -> Prop) (h : Store)
    (observations result : list nat) (h' : Store) : Prop :=
  (forall a o, h !! a = Some o -> h' !! a = Some o)
  /\ Forall (fun a' => length h <= a') result
  /\ NoDup result
  /\ Forall2 (fun a a' => exists o o', h !! a = Some o /\ h' !! a' = Some o'
                                       /\ R o o')
             observations result.

End StoredSpec.

(** ** For clustering *)

Module ClusteringSpec.
Import Clustering.

(** The keys in the order in which they are first met, after [seen]. *)
Fixpoint first_seen (seen keys : list string) : list string :=
  match keys with
  | [] => seen
  | k :: rest =>
      first_seen (if bool_decide (k ∈ seen) then seen else seen ++ [k]) rest
  end.

(** The position of the first [k] in [l], from 0. *)
Fixpoint position (k : string) (l : list string) : option nat :=
  match l with
  | [] => None
  | x :: l' => if String.eqb x k then Some 0 else S <$> position k l'
  end.

(** The entries of [d] cover the positions below [i] of [all], each
    entry under the key of the observations at its positions. *)
Definition indexes (all : list Obs) (i : nat) (d : list (string * list nat))
  : Prop :=
  (forall k indices j, (k, indices) ∈ d -> j ∈ indices ->
                       key_of <$> all !! j = Some k)
  /\ (forall j o, j < i -> all !! j = Some o ->
                  exists indices, (key_of o, indices) ∈ d /\ j ∈ indices).


End ClusteringSpec.

(** ** For the further properties of the merger *)

Module MergerMoreSpec.
Import Merger.

(** The two lists of addresses hold every object of the store, once, in
    the order of creation. *)
Definition lists_the_store (ms : MergeState) : Prop :=
  seen_observations ms = seq 0 (length (store ms))
  /\ merged_observations ms = seq 0 (length (store ms)).

(** The observations of an extraction, none for an absent one. *)
Definition observations_of (data : option Extraction) : list Obs :=
  from_option observations [] data.

(** What a conflict record says of its two observations. *)
Definition well_formed_conflict (c : Conflict) : Prop :=
  conflict_type c = "observation"
  /\ message c = conflict_message
  /\ normalize_area (get area (observation_1 c))
     = normalize_area (get area (observation_2 c))
  /\ PyStr.strip (get description (observation_1 c)) <> EmptyString
  /\ PyStr.strip (get description (observation_2 c)) <> EmptyString
  /\ PyStr.strip (get description (observation_1 c))
     <> PyStr.strip (get description (observation_2 c))
  /\ size (PyStr.to_set (PyStr.split (PyStr.strip (get description (observation_1 c))))
           ∩ PyStr.to_set (PyStr.split (PyStr.strip (get description (observation_2 c)))))
     < 3.

End MergerMoreSpec.

(** ** Readings that parse, and the characters of a text *)

Module TemperatureMoreSpec.
Import Temperature.

(** Some character of [s] satisfies [p]. *)
Fixpoint any_char (p : ascii -> bool) (s : string) : bool :=
  match s with
  | EmptyString => false
  | String c s' => p c || any_char p s'
  end.



(** The readings whose value parses. *)
Definition parses (t : Reading) : bool :=
  match _parse_value (r_value t) with Some _ => true | None => false end.

Definition kept (temperatures : list Reading) : list Reading :=
  List.filter parses temperatures.

End TemperatureMoreSpec.

(** ** Clusters and the observations that carry them *)

Module ClusteringMoreSpec.
Import Clustering.

(** The observation at position [j] of [result] carries the id and the
    label of the cluster [c]. *)
Definition carries (c : Cluster) (result : list Obs) (j : nat) : Prop :=
  exists r, result !! j = Some r /\ cluster_id r = Some (cl_cluster_id c)
            /\ cluster_label r = Some (cl_label c).

(** The grouping key of the first member of a cluster. *)
Definition group_key (observations : list Obs) (c : Cluster) : option string :=
  key_of <$> observations !! hd 0 (observation_indices c).

(** The cluster the second loop builds for the [n]-th entry. *)
Definition cluster_at (observations : list Obs) (c : nat) (n : nat)
    (item : string * list nat) : Cluster :=
  mkCluster (cluster_name (S (c + n))) (label_of observations (snd item))
            (snd item).

(** Each entry is a non-empty increasing list of positions below [i]. *)
Definition entries_below (i : nat) (d : list (string * list nat)) : Prop :=
  Forall (fun item => snd item <> [] /\ StronglySorted lt (snd item)
                      /\ Forall (fun j => j < i) (snd item)) d.

(** The text the issue part of the key is made from:
    [obs.get("issue_type") or obs.get("description", "")[:50]]. *)
Definition issue_text (obs : Obs) : string :=
  if PyStr.truthy (get issue_type obs) then get issue_type obs
  else PyStr.take 50 (get description obs).

(** The text has no vertical bar, the separator of the key. *)
Definition no_bar (s : string) : Prop :=
  TemperatureMoreSpec.any_char (Ascii.eqb "|") s = false.

End ClusteringMoreSpec.

(** ** The severity keywords that count *)

Module UrgencyMoreSpec.
Import Urgency.

(** Some text of [texts] contains some keyword of [kws]. *)
Definition mentions (kws texts : list string) : bool :=
  existsb (fun t => existsb (fun kw => PyStr.contains kw t) kws) texts.

(** The texts [_observation_urgency_from_severity] scans. *)
Definition texts_of (obs : Obs) (severity_mentions : list string) : list string :=
  map _normalize (get description obs :: severity_mentions).

Definition severity_level (texts : list string) : Z :=
  if mentions ["critical"; "severe"; "immediate"] texts then 2%Z
  else if mentions ["urgent"; "high"; "significant"] texts then 1%Z
  else 0%Z.

(** The reading [r] is an anomaly at a place that matches the area of
    [obs]: both texts are non-blank and one contains the other, case and
    outer blanks apart. *)
Definition anomaly_in_area (obs : Obs) (r : Temperature.ReadingOut) : Prop :=
  Temperature.anomaly r = true
  /\ PyStr.strip (Temperature.location r) <> EmptyString
  /\ PyStr.strip (get area obs) <> EmptyString
  /\ (PyStr.contains (_normalize (get area obs))
                     (_normalize (Temperature.location r)) = true
      \/ PyStr.contains (_normalize (Temperature.location r))
                        (_normalize (get area obs)) = true).

End UrgencyMoreSpec.

(** ** Stages that work beside each other *)

Module PipelineMoreSpec.

(** A stage body that leaves the finding as it is and neither reads nor
    writes the cluster fields. *)
Definition beside_clustering (f : Obs -> Obs) : Prop :=
  (forall o, area (f o) = area o /\ description (f o) = description o
             /\ issue_type (f o) = issue_type o)
  /\ (forall cid label o, f (set_cluster cid label o) = set_cluster cid label (f o)).

End PipelineMoreSpec.

(** ** src/root_cause.py *)

Module RootCause.

(** The text used when no root cause is given. *)
Definition DEFAULT_ROOT_CAUSE : string :=
  "Insufficient diagnostic detail available to determine root cause. Further inspection recommended.".

(** One entry of the parsed [inferences]: the keys [index],
    [root_cause] and [evidence], each of which may be missing.  An
    index is an integer. *)
Record Inference : Type := mkInference {
  inf_index : option Z;
  inf_root_cause : option string;
  inf_evidence : option (list string)
}.

(** [{}], what [by_index.get(i, {})] gives for a missing index. *)
Definition no_inference : Inference := mkInference None None None.

(** [{inf.get("index", i): inf for i, inf in enumerate(inferences)}],
    from position [i] on: a later entry replaces an earlier one with
    the same key. *)
Fixpoint index_inferences (i : nat) (inferences : list Inference)
    (by_index : gmap Z Inference) : gmap Z Inference :=
  match inferences with
  | [] => by_index
  | inf :: rest =>
      index_inferences (S i) rest
        (<[default (Z.of_nat i) (inf_index inf) := inf]> by_index)
  end.

(** An observation with the two keys the loop adds. *)
Record Diagnosed : Type := mkDiagnosed {
  d_obs : Obs;
  root_cause : string;
  evidence : list string
}.

(** The body of the loop [for i, obs in enumerate(observations)]. *)
Definition attach (by_index : gmap Z Inference) (i : nat) (obs : Obs)
  : Diagnosed :=
  let inf := default no_inference (by_index !! Z.of_nat i) in
  let rc := default EmptyString (inf_root_cause inf) in
  let rc := if PyStr.truthy rc then rc else DEFAULT_ROOT_CAUSE in
  let rc := if PyStr.contains "not determinable" (PyStr.lower rc)
               || String.eqb rc "Not determinable from data"
            then DEFAULT_ROOT_CAUSE else rc in
  mkDiagnosed obs rc (default [] (inf_evidence inf)).

(** [infer_root_causes], from the reply of the model on: [inferences]
    is what [_parse_inferences] returned, or [None] when it raised. *)
Definition infer_root_causes (observations : list Obs)
    (inferences : option (list Inference)) : list Diagnosed :=
  match observations with
  | [] => []
  | _ =>
      let by_index := index_inferences 0 (default [] inferences) ∅ in
      imap (attach by_index) observations
  end.

End RootCause.

(** ** The inference an observation is given *)

Module RootCauseSpec.
Import RootCause.

(** The key an inference at position [j] is stored under. *)
Definition key_at (j : nat) (inf : Inference) : Z :=
  default (Z.of_nat j) (inf_index inf).

(** The last inference of the list stored under the key [k], the list
    starting at position [i]. *)
Fixpoint inference_for (k : Z) (i : nat) (inferences : list Inference)
  : option Inference :=
  match inferences with
  | [] => None
  | inf :: rest =>
      match inference_for k (S i) rest with
      | Some later => Some later
      | None => if bool_decide (key_at i inf = k) then Some inf else None
      end
  end.

(** The root cause read from an inference, before the check for a
    cause that is not determinable. *)
Definition stated (inf : option Inference) : string :=
  match inf with
  | Some inf =>
      match inf_root_cause inf with
      | Some rc => if PyStr.truthy rc then rc else DEFAULT_ROOT_CAUSE
      | None => DEFAULT_ROOT_CAUSE
      end
  | None => DEFAULT_ROOT_CAUSE
  end.

End RootCauseSpec.

(** ** src/parser.py *)

Module Parser.

(** [re.sub(pat, repl, s)] for a pattern [c{n,}], [pat] being [n]
    times the character [c]: the scan goes from left to right; where
    [pat] starts, the match takes the whole run of [c] and [repl] is
    written for it; elsewhere the character is kept.  [in_match] says
    that the scan is inside a run that has been matched. *)
Fixpoint sub_run (c : ascii) (pat repl : string) (in_match : bool) (s : string)
  : string :=
  match s with
  | EmptyString => EmptyString
  | String a s' =>
      if in_match && Ascii.eqb a c then sub_run c pat repl true s'
      else if String.prefix pat s
           then (repl ++ sub_run c pat repl true s')%string
           else String a (sub_run c pat repl false s')
  end.

Definition newline : ascii := "010".

Definition three_newlines : string :=
  String newline (String newline (String newline EmptyString)).

Definition two_newlines : string := String newline (String newline EmptyString).

(** [_normalize_text(text)] *)
Definition _normalize_text (text : string) : string :=
  if negb (PyStr.truthy text) || negb (PyStr.truthy (PyStr.strip text))
  then EmptyString
  else
    let text := sub_run newline three_newlines two_newlines false text in
    let text := sub_run " " "  " " " false text in
    PyStr.strip text.

End Parser.

(** ** Runs of a character *)

Module ParserSpec.
Import Parser.

(** [n] times the character [c]. *)
Fixpoint rep (c : ascii) (n : nat) : string :=
  match n with
  | O => EmptyString
  | S n' => String c (rep c n')
  end.

(** The length of the run of [c] at the head of [s]. *)
Fixpoint lead (c : ascii) (s : string) : nat :=
  match s with
  | String a s' => if Ascii.eqb a c then S (lead c s') else 0
  | EmptyString => 0
  end.

(** A text that [_normalize_text] has nothing to do on. *)
Definition normal (text : string) : Prop :=
  PyStr.contains three_newlines text = false
  /\ PyStr.contains "  " text = false
  /\ PyStr.strip text = text.

End ParserSpec.

(** * Properties *)

(** ** Text and floats *)

Module PyStrFacts.

Lemma append_String (c : ascii) (s t : string) :
  (String c s ++ t)%string = String c (s ++ t).
Proof. reflexivity. Qed.

Lemma append_empty (t : string) : (EmptyString ++ t)%string = t.
Proof. reflexivity. Qed.

(** [String.prefix p s] holds when [s] starts with [p]. *)
Lemma prefix_spec (p s : string) :
  String.prefix p s = true <-> exists post, s = (p ++ post)%string.
Proof.
  revert s. induction p as [|a p IH]; intros s.
  - split; [intros _; exists s; reflexivity|intros _; by destruct s].
  - destruct s as [|b s]; simpl.
    + split; [discriminate|]. intros [post H]. discriminate.
    + destruct (ascii_dec a b) as [->|Hne].
      * rewrite IH. split; intros [post H]; exists post;
          rewrite append_String in *; congruence.
      * split; [discriminate|]. intros [post H].
        rewrite append_String in H. congruence.
Qed.

(** [sub in s] holds when [s] is some text, [sub], and some text. *)
Lemma contains_spec (sub s : string) :
  PyStr.contains sub s = true
  <-> exists pre post, s = (pre ++ sub ++ post)%string.
Proof.
  induction s as [|c s IH].
  - change (PyStr.contains sub EmptyString)
      with (String.prefix sub EmptyString || false).
    rewrite orb_false_r, prefix_spec. split.
    + intros [post H]. by exists EmptyString, post.
    + intros (pre & post & H). destruct pre; [by exists post|discriminate].
  - change (PyStr.contains sub (String c s))
      with (String.prefix sub (String c s) || PyStr.contains sub s).
    rewrite orb_true_iff, prefix_spec, IH. split.
    + intros [[post H]|(pre & post & H)].
      * by exists EmptyString, post.
      * exists (String c pre), post. by rewrite append_String, H.
    + intros (pre & post & H). destruct pre as [|c' pre].
      * left. by exists post.
      * right. exists pre, post. rewrite append_String in H. congruence.
Qed.

(** The text operations on some texts. *)
Example text_examples :
  PyStr.strip "  Bathroom  ceiling  " = "Bathroom  ceiling"
  /\ PyStr.lower "Inspection Report; 2" = "inspection report; 2"
  /\ PyStr.split "  damp   staining on	ceiling " = ["damp"; "staining"; "on"; "ceiling"]
  /\ PyStr.split_on ";" "a; b;;" = ["a"; " b"; ""; ""]
  /\ PyStr.take 3 "ceiling" = "cei" /\ PyStr.take 9 "ceiling" = "ceiling"
  /\ PyStr.contains "leak" "water leakage" = true
  /\ PyStr.contains "water leak" "leak" = false.
Proof. vm_compute. repeat split; reflexivity. Qed.

End PyStrFacts.

Module PyFloatFacts.

(** [round(x, 2)] and [float(text)] on values whose Python results are
    well known: 2.675 is stored below its decimal and rounds down, 0.125
    and 0.375 are exact ties and round to the even digit, the sign of a
    zero is kept. *)
Example round2_examples :
  PyFloat.round2 2.675 = 2.67%float
  /\ PyFloat.round2 0.125 = 0.12%float
  /\ PyFloat.round2 0.375 = 0.38%float
  /\ PyFloat.round2 0.85 = 0.85%float
  /\ PyFloat.round2 (-4) = (-4)%float
  /\ PyFloat.round2 21.11111111111111 = 21.11%float
  /\ PyFloat.round2 (-0.001) = (-0)%float
  /\ PyFloat.round2 infinity = infinity.
Proof. vm_compute. repeat split; reflexivity. Qed.

Example of_decimal_examples :
  PyFloat.of_decimal false "22" "" = 22%float
  /\ PyFloat.of_decimal false "23" "5" = 23.5%float
  /\ PyFloat.of_decimal true "" "5" = (-0.5)%float
  /\ PyFloat.of_decimal false "0" "1" = 0.1%float
  /\ PyFloat.of_decimal false "9007199254740993" "" = 9007199254740992%float.
Proof. vm_compute. repeat split; reflexivity. Qed.

(** [nearest] against the division of the kernel: for two integers that
    are floats, the float nearest to their quotient is the quotient of
    the floats. *)
Lemma nearest_is_division :
  forallb (fun p =>
             forallb (fun q => PrimFloat.eqb (PyFloat.nearest (Z.of_nat p) (Z.of_nat q))
                                             (PyFloat.int_div p q))
                     (seq 1 200))
          (seq 0 200)
  = true.
Proof. vm_compute. reflexivity. Qed.

End PyFloatFacts.

(** ** Urgency *)

Module UrgencyFacts.
Import Urgency.
Import UrgencySpec.

Local Open Scope Z_scope.

Lemma clamp_bounds lo hi x : lo <= hi -> lo <= clamp lo hi x <= hi.
Proof. unfold clamp. lia. Qed.

Lemma severity_boost_bounds obs mentions :
  0 <= _observation_urgency_from_severity obs mentions <= 2.
Proof. unfold _observation_urgency_from_severity. lia. Qed.

Lemma thermal_boost_bounds obs ta :
  0 <= _thermal_anomaly_boost obs ta <= 1.
Proof.
  unfold _thermal_anomaly_boost. destruct ta as [ta|]; [|lia].
  destruct (existsb _ _); lia.
Qed.

Lemma issue_type_base_bounds obs :
  1 <= _observation_urgency_from_issue_type obs <= 5.
Proof.
  unfold _observation_urgency_from_issue_type.
  set (text := (_ ++ " " ++ _)%string). clearbody text.
  destruct (List.find _ ISSUE_TYPE_SCORE) as [[kw base]|] eqn:Hfind; [|lia].
  apply find_some in Hfind as [Hin _].
  unfold ISSUE_TYPE_SCORE in Hin. simpl in Hin.
  repeat (destruct Hin as [Hin|Hin]; [injection Hin as _ <-; lia|]).
  destruct Hin.
Qed.

Lemma urgency_score_scored mentions ta obs :
  urgency_score (scored mentions ta obs)
  = Some (clamp 1 5 (_observation_urgency_from_issue_type obs
                     + _observation_urgency_from_severity obs mentions
                     + _thermal_anomaly_boost obs ta)).
Proof. reflexivity. Qed.

(** C6.  For every list of observations, every list of severity
    mentions and every temperature analysis (or none), [score_urgency]
    returns one observation per input observation, whose
    [urgency_score] is [clamp(base + severity + thermal, 1, 5)] for the
    three components of that observation, and so an integer from 1
    to 5; the components are themselves within 1..5, 0..2 and 0..1. *)
Theorem score_urgency_clamped
    (observations : list Obs) (severity_mentions : list string)
    (temperature_analysis : option Temperature.TemperatureAnalysis) :
  Forall2
    (fun obs r =>
       let base := _observation_urgency_from_issue_type obs in
       let sev := _observation_urgency_from_severity obs severity_mentions in
       let thermal := _thermal_anomaly_boost obs temperature_analysis in
       exists score,
         urgency_score r = Some score
         /\ score = clamp 1 5 (base + sev + thermal)
         /\ 1 <= score <= 5
         /\ 1 <= base <= 5 /\ 0 <= sev <= 2 /\ 0 <= thermal <= 1)
    observations
    (score_urgency observations severity_mentions temperature_analysis).
Proof.
  unfold score_urgency.
  induction observations as [|obs rest IH]; simpl; constructor; [|exact IH].
  eexists. split; [apply urgency_score_scored|].
  split; [reflexivity|].
  split; [apply clamp_bounds; lia|].
  split; [apply issue_type_base_bounds|].
  split; [apply severity_boost_bounds|apply thermal_boost_bounds].
Qed.

End UrgencyFacts.

(** ** Confidence *)

Module ConfidenceFacts.
Import Confidence.
Import ConfidenceSpec.








(** The three levels without a content rule, and a source text with an
    empty piece and a repeated label, which counts one label. *)
Example source_levels :
  map confidence
      (score_confidence
         [hall_crack;
          set_source "Inspection Report" hall_crack;
          set_source "Thermal Report; ;Thermal Report" hall_crack]
         (Some [Merger.mkConflict "observation"
                  (set_source "Inspection Report" hall_crack)
                  (finding "Hall" "stain") Merger.conflict_message]))
  = [Some 0.5%float; Some 0.5%float; Some 0.5%float]
  /\ map confidence
         (score_confidence
            [hall_crack;
             set_source "Inspection Report" hall_crack;
             set_source "Thermal Report; ;Thermal Report" hall_crack]
            None)
     = [Some 0.9%float; Some 0.7%float; Some 0.7%float].
Proof. vm_compute. split; reflexivity. Qed.

End ConfidenceFacts.

(** ** Merger *)

Module MergerFacts.
Import Merger.
Import MergerSpec.

Lemma first_similar_sound st obs seen a s :
  first_similar st obs seen = Some (a, s) ->
  st !! a = Some s /\ observations_similar obs s = true /\ a ∈ seen.
Proof.
  induction seen as [|a' rest IH]; simpl; [discriminate|].
  destruct (st !! a') as [s'|] eqn:Hs'.
  - destruct (observations_similar obs s') eqn:Hsim.
    + intros [= <- <-]. split; [done|]. split; [done|left].
    + intros H. destruct (IH H) as (? & ? & ?). split; [done|].
      split; [done|by right].
  - intros H. destruct (IH H) as (? & ? & ?). split; [done|].
    split; [done|by right].
Qed.

(** *** The scenario of a conflicting pair *)

(** C1, as stated, fails.  The thermal finding is similar to the
    inspection one and conflicts with it; the conflict is recorded, and
    the entry that was seen comes out as it went in, which is not what
    the field combination would have made of it. *)
Lemma conflict_leaves_seen_entry :
  let r := merge_extractions (only [leak_seen]) (only [leak_new]) in
  let seen := set_source "Inspection Report" leak_seen in
  let obs := set_source "Thermal Report" leak_new in
  observations_similar obs seen = true
  /\ _has_conflict obs seen = true
  /\ conflicts_of r = [mkConflict "observation" seen obs conflict_message]
  /\ merged_of r = [seen]
  /\ merged_of r <> [_merge_observations seen obs].
Proof.
  vm_compute. repeat (split; [reflexivity|]). discriminate.
Qed.

(** C1, amended.  When the incoming observation, its source set to the
    label, is similar to a seen object, the first such object [seen] at
    address [a] is the only one looked at, and the two lists of
    addresses stay as they are.  If the two conflict, a Conflict with
    the snapshot of [seen] and the incoming observation is appended and
    no object is written: the fields are not combined.  If they do not
    conflict, no Conflict is appended and the object at [a] becomes the
    combination of [seen] and the incoming observation. *)
Theorem add_observation_conflict_or_merge
    (source_label : string) (ms : MergeState) (obs0 : Obs) (a : nat) (seen : Obs) :
  first_similar (store ms) (set_source source_label obs0) (seen_observations ms)
  = Some (a, seen) ->
  let obs := set_source source_label obs0 in
  let ms' := add_observation source_label ms obs0 in
  store ms !! a = Some seen
  /\ observations_similar obs seen = true
  /\ seen_observations ms' = seen_observations ms
  /\ merged_observations ms' = merged_observations ms
  /\ (_has_conflict obs seen = true ->
      store ms' = store ms
      /\ conflicts ms'
         = conflicts ms ++ [mkConflict "observation" seen obs conflict_message])
  /\ (_has_conflict obs seen = false ->
      store ms' = <[a := _merge_observations seen obs]> (store ms)
      /\ conflicts ms' = conflicts ms).
Proof.
  intros Hfirst obs ms'.
  destruct (first_similar_sound _ _ _ _ _ Hfirst) as (Hlook & Hsim & _).
  subst obs ms'. unfold add_observation. rewrite Hfirst.
  split; [done|]. split; [done|].
  destruct (_has_conflict (set_source source_label obs0) seen); simpl;
    repeat split; try done; intros; discriminate.
Qed.

Lemma add_observation_conflict_or_merge_witness :
  let ms := add_observations (only [leak_seen]) "Inspection Report" initial_state in
  let seen := set_source "Inspection Report" leak_seen in
  let obs := set_source "Thermal Report" leak_new in
  let ms' := add_observation "Thermal Report" ms leak_new in
  store ms !! 0 = Some seen
  /\ observations_similar obs seen = true
  /\ seen_observations ms' = seen_observations ms
  /\ merged_observations ms' = merged_observations ms
  /\ (_has_conflict obs seen = true ->
      store ms' = store ms
      /\ conflicts ms'
         = conflicts ms ++ [mkConflict "observation" seen obs conflict_message])
  /\ (_has_conflict obs seen = false ->
      store ms' = <[0 := _merge_observations seen obs]> (store ms)
      /\ conflicts ms' = conflicts ms).
Proof.
  apply (add_observation_conflict_or_merge "Thermal Report"
           (add_observations (only [leak_seen]) "Inspection Report" initial_state)
           leak_new 0 (set_source "Inspection Report" leak_seen)).
  vm_compute. reflexivity.
Defined.

(** *** The bathroom ceiling scenario *)

(** C3, as stated, fails: the merge does not yield exactly one
    observation. *)
Lemma bathroom_not_one_observation :
  ~ (exists o, merged_of bathroom_merge = [o]).
Proof. intros [o H]. vm_compute in H. discriminate. Qed.

(** C3, amended.  The two findings have the same normalized area, but
    their prefixes share no word and neither contains the other, so they
    are not similar: the merge yields two observations, the inspection
    one and the thermal one, and no conflict.  Confidence scoring gives
    the inspection one 0.85 by the rule on "visible", and the thermal
    one 0.65 by the rule on "moderate". *)
Theorem bathroom_two_observations :
  observations_similar (set_source "Thermal Report" bathroom_thermal)
                       (set_source "Inspection Report" bathroom_inspection)
  = false
  /\ merged_of bathroom_merge
     = [set_source "Inspection Report" bathroom_inspection;
        set_source "Thermal Report" bathroom_thermal]
  /\ conflicts_of bathroom_merge = []
  /\ map (fun o => (confidence o, confidence_reason o))
         (Confidence.score_confidence (merged_of bathroom_merge)
                                      (Some (conflicts_of bathroom_merge)))
     = [(Some 0.85%float, Some "Clear visible or repeated finding");
        (Some 0.65%float, Some "Moderate evidence")].
Proof. vm_compute. repeat split; reflexivity. Qed.

(** *** The similarity test *)










Lemma contains_empty (s : string) : PyStr.contains EmptyString s = true.
Proof. by destruct s. Qed.



(** *** The source of an output observation *)

Lemma add_observation_forget label ms o :
  add_observation label ms (forget_source o) = add_observation label ms o.
Proof. reflexivity. Qed.

Lemma add_observations_forget data label ms :
  add_observations (forget_sources data) label ms = add_observations data label ms.
Proof.
  destruct data as [d|]; [|reflexivity]. simpl.
  generalize (observations d). intros l. revert ms.
  induction l as [|o l IH]; intros ms; simpl; [reflexivity|].
  by rewrite IH, add_observation_forget.
Qed.

Lemma both_forget {A} (f : Extraction -> list A) (i t : option Extraction) :
  (forall d, f (mkExtraction (map forget_source (observations d))
                  (temperatures d) (severity_mentions d) (ambiguous d) (missing d))
             = f d) ->
  both f (forget_sources i) (forget_sources t) = both f i t.
Proof.
  intros Hf. unfold both. destruct i, t; simpl; by rewrite ?Hf.
Qed.

Lemma merge_extractions_forget (i t : option Extraction) :
  merge_extractions (forget_sources i) (forget_sources t) = merge_extractions i t.
Proof.
  unfold merge_extractions.
  rewrite !add_observations_forget.
  by rewrite !both_forget.
Qed.

Lemma source_merge_fields (seen new : Obs) :
  source (merge_issue_type (merge_description seen new) new) = source seen.
Proof.
  unfold merge_issue_type, merge_description.
  repeat match goal with
         | |- context [if ?b then _ else _] => destruct b
         end; reflexivity.
Qed.

(** What [merge_source] does, by the source of the seen object. *)
Lemma source_merged (seen new : Obs) (src_seen src_new : string) :
  source seen = Some src_seen -> source new = Some src_new ->
  source (_merge_observations seen new)
  = if PyStr.truthy (PyStr.strip src_new)
       && negb (PyStr.contains (PyStr.strip src_new) (PyStr.strip src_seen))
    then Some (if PyStr.truthy (PyStr.strip src_seen)
               then (PyStr.strip src_seen ++ "; " ++ PyStr.strip src_new)%string
               else PyStr.strip src_new)
    else Some src_seen.
Proof.
  intros Hseen Hnew. unfold _merge_observations, merge_source, get.
  rewrite source_merge_fields, Hseen, Hnew. simpl default.
  destruct (_ && _); [reflexivity|].
  by rewrite source_merge_fields.
Qed.

(** A property of the objects of the store that [add_observation] keeps. *)
Lemma add_observation_keeps (P : Obs -> Prop) label ms obs0 :
  P (set_source label obs0) ->
  (forall seen, P seen -> P (_merge_observations seen (set_source label obs0))) ->
  Forall P (store ms) -> Forall P (store (add_observation label ms obs0)).
Proof.
  intros Hnew Hmerge Hstore. unfold add_observation.
  destruct (first_similar _ _ _) as [[a seen]|] eqn:Hfirst.
  - apply first_similar_sound in Hfirst as (Hlook & _ & _).
    destruct (_has_conflict _ _); simpl; [done|].
    apply Forall_insert; [done|]. apply Hmerge.
    rewrite Forall_forall in Hstore. apply Hstore.
    by eapply list_elem_of_lookup_2.
  - simpl. apply Forall_app. split; [done|by constructor].
Qed.

Lemma add_observations_keeps (P : Obs -> Prop) label data ms :
  (forall obs0, P (set_source label obs0)) ->
  (forall obs0 seen, P seen -> P (_merge_observations seen (set_source label obs0))) ->
  Forall P (store ms) -> Forall P (store (add_observations data label ms)).
Proof.
  intros Hnew Hmerge. destruct data as [d|]; [|done]. simpl.
  generalize (observations d). intros l. revert ms.
  induction l as [|o l IH]; intros ms Hstore; simpl; [done|].
  apply IH. apply add_observation_keeps; [apply Hnew|apply Hmerge|done].
Qed.

Lemma merge_keeps_label (label : string) (obs0 seen : Obs) :
  label = inspection_label \/ label = thermal_label ->
  has_source [label] seen ->
  has_source [label] (_merge_observations seen (set_source label obs0)).
Proof.
  intros Hlabel (l & Hl%list_elem_of_singleton & Hseen). subst l.
  exists label. split; [left|].
  rewrite (source_merged seen (set_source label obs0) label label Hseen eq_refl).
  destruct Hlabel as [-> | ->]; reflexivity.
Qed.

Lemma merge_thermal_keeps_labels (obs0 seen : Obs) :
  has_source [inspection_label; thermal_label; both_labels] seen ->
  has_source [inspection_label; thermal_label; both_labels]
             (_merge_observations seen (set_source thermal_label obs0)).
Proof.
  intros (l & Hl & Hseen). unfold has_source.
  rewrite (source_merged seen (set_source thermal_label obs0) l thermal_label
             Hseen eq_refl).
  repeat (apply elem_of_cons in Hl as [-> | Hl]);
    [| | |by apply elem_of_nil in Hl];
    vm_compute; eexists; (split; [|reflexivity]); set_solver.
Qed.

Lemma merged_in_store (ms : MergeState) :
  forall o, o ∈ omap (fun a => store ms !! a) (merged_observations ms) ->
            o ∈ store ms.
Proof.
  intros o (a & _ & Ha)%list_elem_of_omap. by eapply list_elem_of_lookup_2.
Qed.

Lemma merged_sources (P : Obs -> Prop) (i t : option Extraction) :
  Forall P (store (add_observations t thermal_label
                     (add_observations i inspection_label initial_state))) ->
  Forall P (merged_of (merge_extractions i t)).
Proof.
  intros Hstore. unfold merged_of, merge_extractions. simpl.
  rewrite Forall_forall in Hstore. apply Forall_forall.
  intros o Ho. apply Hstore. by apply merged_in_store in Ho.
Qed.

(** C10, as stated, fails.  The inspection finding is the first one, so
    it is not folded into an earlier one; the thermal finding is folded
    into it, and its source in the output is not its label. *)
Lemma first_observation_gains_a_label :
  exists o,
    merged_of (merge_extractions (only [sink_inspection]) (only [sink_thermal]))
    = [o]
    /\ source o = Some "Inspection Report; Thermal Report"
    /\ source o <> Some "Inspection Report".
Proof.
  exists (set_source both_labels sink_inspection).
  vm_compute. repeat (split; [reflexivity|]). discriminate.
Qed.

(** C10, amended.  The source given by the extractor never reaches the
    output: the merge of the extractions with every source removed is
    the merge of the extractions.  The source of every output observation
    is "Inspection Report", "Thermal Report" or
    "Inspection Report; Thermal Report"; with inspection data alone it is
    "Inspection Report" for every one, with thermal data alone
    "Thermal Report". *)
Theorem merged_sources_are_labels (inspection_data thermal_data : option Extraction) :
  merge_extractions (forget_sources inspection_data) (forget_sources thermal_data)
  = merge_extractions inspection_data thermal_data
  /\ Forall (has_source [inspection_label; thermal_label; both_labels])
            (merged_of (merge_extractions inspection_data thermal_data))
  /\ Forall (has_source [inspection_label])
            (merged_of (merge_extractions inspection_data None))
  /\ Forall (has_source [thermal_label])
            (merged_of (merge_extractions None thermal_data)).
Proof.
  split; [apply merge_extractions_forget|].
  assert (forall label data,
             label = inspection_label \/ label = thermal_label ->
             Forall (has_source [label])
                    (store (add_observations data label initial_state)))
    as Hone.
  { intros label data Hlabel. apply add_observations_keeps; [| |constructor].
    - intros obs0. exists label. split; [left|reflexivity].
    - intros obs0 seen. by apply merge_keeps_label. }
  split; [|split].
  - apply merged_sources. apply add_observations_keeps.
    + intros obs0. exists thermal_label. split; [set_solver|reflexivity].
    + intros obs0 seen. apply merge_thermal_keeps_labels.
    + eapply Forall_impl; [apply (Hone inspection_label); by left|].
      intros o (l & Hl%list_elem_of_singleton & Ho). subst l.
      exists inspection_label. split; [set_solver|done].
  - apply merged_sources. simpl. apply Hone. by left.
  - apply merged_sources. simpl. apply Hone. by right.
Qed.

End MergerFacts.

(** ** Temperature analysis *)

Module TemperatureFacts.
Import Temperature.
Import TemperatureSpec.

(** *** Reading a value *)

(** What [_parse_value] makes of some texts: a unit suffix is cut, a
    range gives its midpoint, otherwise the first number is taken. *)
Example parse_value_examples :
  map _parse_value
      [Some "22"; Some " 23.5°C "; Some "22–24"; Some "22 - 24°c";
       Some "-5--3"; Some "about 70 °F"; Some "12."; Some ".5";
       Some "n/a"; Some "°"; Some ""; None]
  = [Some 22; Some 23.5; Some 23; Some 23; Some (-4); Some 70; Some 12;
     Some 5; None; None; None; None]%float.
Proof. vm_compute. reflexivity. Qed.

(** *** The order of floats *)






(** *** Sorting *)









(** *** The reference is the median *)






(** The readings 10, 20 have reference 15, and a Fahrenheit reading that
    parses first gives the unit of the reference: 50 °F and 20 °C are
    10 and 20 in Celsius, with median 15, reported as 59 °F. *)
Lemma reference_examples :
  reference_value
    (compute_temperature_analysis [celsius "a" "10"; celsius "b" "20"] 5)
  = Some 15%float
  /\ compute_temperature_analysis
       [mkReading (Some "x") (Some "n/a") (Some "°C");
        mkReading (Some "a") (Some "50") (Some "°F"); celsius "b" "20"] 5
     = mkAnalysis (Some 59%float) (Some "°F")
         [mkReadingOut "a" 50 "°F" (-9) (-5) false;
          mkReadingOut "b" 20 "°C" 5 5 false].
Proof. vm_compute. split; reflexivity. Qed.

(** *** The kitchen and bedroom scenario *)

Lemma float_neq (x y : float) :
  PrimFloat.eqb x y = false -> PrimFloat.eqb x x = true -> x <> y.
Proof. intros Hxy Hxx ->. congruence. Qed.

(** C5, as stated, fails in its last part: with Bedroom "33" the delta
    of the Bedroom reading is not 6. *)
Lemma bedroom_33_delta_is_not_6 :
  ~ (exists r, readings (kitchen_bedroom "33") !! 1 = Some r
               /\ delta r = 6%float).
Proof.
  intros [r [Hr Hdelta]]. vm_compute in Hr. injection Hr as <-.
  simpl in Hdelta. revert Hdelta. apply float_neq; reflexivity.
Qed.

(** C5, amended.  Kitchen "22" and Bedroom "30" give reference 26 and
    deltas -4 and +4, neither an anomaly.  Bedroom "32" gives reference
    27 and deltas -5 and +5, neither an anomaly: the bound is strict.
    Bedroom "33" gives reference 27.5 and deltas -5.5 and +5.5, both
    anomalies. *)
Theorem kitchen_bedroom_scenario :
  kitchen_bedroom "30"
  = mkAnalysis (Some 26%float) (Some "°C")
      [mkReadingOut "Kitchen" 22 "°C" (-4) (-4) false;
       mkReadingOut "Bedroom" 30 "°C" 4 4 false]
  /\ kitchen_bedroom "32"
     = mkAnalysis (Some 27%float) (Some "°C")
         [mkReadingOut "Kitchen" 22 "°C" (-5) (-5) false;
          mkReadingOut "Bedroom" 32 "°C" 5 5 false]
  /\ kitchen_bedroom "33"
     = mkAnalysis (Some 27.5%float) (Some "°C")
         [mkReadingOut "Kitchen" 22 "°C" (-5.5) (-5.5) true;
          mkReadingOut "Bedroom" 33 "°C" 5.5 5.5 true].
Proof. vm_compute. repeat split; reflexivity. Qed.

End TemperatureFacts.

(** ** The stages return new records *)

Module StoredFacts.
Import Stored.
Import StoredSpec.

Lemma new_records_intro (R : Obs -> Obs -> Prop) (h : Store)
    (observations : list nat) (objs vals : list Obs) :
  holds h observations objs -> Forall2 R objs vals ->
  new_records R h observations (seq (length h) (length observations)) (h ++ vals).
Proof.
  intros Hholds HR. unfold new_records.
  split; [intros a o; apply lookup_app_l_Some|].
  split; [apply Forall_forall; intros a' Ha'%list_elem_of_In%in_seq; lia|].
  split; [apply NoDup_seq|].
  apply Forall2_same_length_lookup_2; [by rewrite length_seq|].
  intros i a a' Ha Ha'. apply lookup_seq in Ha' as [-> Hi].
  destruct (Forall2_lookup_l _ _ _ _ _ Hholds Ha) as (o & Ho & Hlook).
  destruct (Forall2_lookup_l _ _ _ _ _ HR Ho) as (o' & Ho' & Hrel).
  exists o, o'. split; [done|]. split; [|done].
  by rewrite lookup_app_r, Nat.add_comm, Nat.add_sub by lia.
Qed.

Lemma holds_app (h extra : Store) (observations : list nat) (objs : list Obs) :
  holds h observations objs -> holds (h ++ extra) observations objs.
Proof.
  unfold holds. intros H. eapply Forall2_impl; [exact H|].
  intros a o. apply lookup_app_l_Some.
Qed.

(** The result of a stage holds the new objects. *)
Lemma holds_new (h : Store) (vals : list Obs) :
  holds (h ++ vals) (seq (length h) (length vals)) vals.
Proof.
  apply Forall2_same_length_lookup_2; [by rewrite length_seq|].
  intros i a o Ha Ho. apply lookup_seq in Ha as [-> Hi].
  by rewrite lookup_app_r, Nat.add_comm, Nat.add_sub by lia.
Qed.

Lemma alter_last (f : Obs -> Obs) (h : Store) (o : Obs) :
  alter f (length h) (h ++ [o]) = h ++ [f o].
Proof.
  rewrite <- (Nat.add_0_r (length h)) at 1. by rewrite alter_app_r.
Qed.

Lemma annotate_copies_spec (body : Obs -> Obs) (observations : list nat) :
  forall (h : Store) (result : list nat) (objs : list Obs),
    holds h observations objs ->
    annotate_copies body h observations result
    = Some (result ++ seq (length h) (length observations), h ++ map body objs).
Proof.
  induction observations as [|a rest IH]; intros h result objs Hholds.
  - apply Forall2_nil_inv_l in Hholds as ->. simpl.
    by rewrite !app_nil_r.
  - apply Forall2_cons_inv_l in Hholds as (o & objs' & Ho & Hrest & ->).
    simpl. unfold copy. rewrite Ho, alter_last.
    rewrite (IH (h ++ [body o]) (result ++ [length h]) objs')
      by (by apply holds_app).
    rewrite length_app, Nat.add_1_r. simpl.
    by rewrite <- !app_assoc.
Qed.

Lemma copy_all_spec (observations : list nat) :
  forall (h : Store) (objs : list Obs),
    holds h observations objs ->
    copy_all h observations
    = Some (seq (length h) (length observations), h ++ objs).
Proof.
  induction observations as [|a rest IH]; intros h objs Hholds.
  - apply Forall2_nil_inv_l in Hholds as ->. simpl. by rewrite app_nil_r.
  - apply Forall2_cons_inv_l in Hholds as (o & objs' & Ho & Hrest & ->).
    simpl. unfold copy. rewrite Ho.
    rewrite (IH (h ++ [o]) objs') by (by apply holds_app).
    rewrite length_app, Nat.add_1_r. simpl. by rewrite <- app_assoc.
Qed.

Lemma alter_out_of_range (f : Obs -> Obs) (l : list Obs) (i : nat) :
  length l <= i -> alter f i l = l.
Proof.
  revert i. induction l as [|x l IH]; intros [|i] Hi; simpl in *;
    try done; try lia.
  f_equal. apply IH. lia.
Qed.

(** Writing through the new addresses is writing into the new objects. *)
Lemma attach_group_new clusters key_to_cluster_id (h res : Store) (n : nat)
    (item : string * list nat) :
  length res = n ->
  attach_group clusters key_to_cluster_id (seq (length h) n) (h ++ res) item
  = h ++ Clustering.attach_group clusters key_to_cluster_id res item.
Proof.
  unfold attach_group, Clustering.attach_group.
  generalize (snd item). intros indices. revert res.
  induction indices as [|i indices IH]; intros res Hn; simpl; [done|].
  destruct (decide (i < n)) as [Hi|Hi].
  - rewrite (lookup_seq_lt _ _ _ Hi), alter_app_r.
    apply IH. by rewrite length_alter.
  - rewrite lookup_seq_ge by lia. rewrite alter_out_of_range by lia.
    by apply IH.
Qed.

Lemma length_attach_group clusters key_to_cluster_id (res : list Obs)
    (item : string * list nat) :
  length (Clustering.attach_group clusters key_to_cluster_id res item)
  = length res.
Proof.
  unfold Clustering.attach_group. generalize (snd item). intros indices.
  revert res. induction indices as [|i indices IH]; intros res; simpl; [done|].
  by rewrite IH, length_alter.
Qed.

Lemma fold_attach_group_new clusters key_to_cluster_id (h : Store) (n : nat)
    (items : list (string * list nat)) :
  forall res : Store,
    length res = n ->
    fold_left (attach_group clusters key_to_cluster_id (seq (length h) n))
              items (h ++ res)
    = h ++ fold_left (Clustering.attach_group clusters key_to_cluster_id) items res.
Proof.
  induction items as [|item items IH]; intros res Hn; simpl; [done|].
  rewrite (attach_group_new _ _ _ _ n) by done.
  apply IH. by rewrite length_attach_group.
Qed.

(** The store reading of [cluster_observations] is the list reading on
    new objects. *)
Lemma cluster_observations_spec (h : Store) (observations : list nat)
    (objs : list Obs) :
  holds h observations objs ->
  cluster_observations h observations
  = Some (seq (length h) (length observations),
          snd (Clustering.cluster_observations objs),
          h ++ fst (Clustering.cluster_observations objs)).
Proof.
  intros Hholds. unfold cluster_observations.
  rewrite (mapM_Some_2 _ _ _ Hholds).
  pose proof (Forall2_length _ _ _ Hholds) as Hlen.
  destruct observations as [|a rest].
  - apply Forall2_nil_inv_l in Hholds as ->. simpl. by rewrite app_nil_r.
  - destruct objs as [|o objs']; [discriminate|].
    unfold Clustering.cluster_observations.
    destruct (fold_left (Clustering.number_group (o :: objs')) _ _)
      as [[counter clusters] key_to_cluster_id].
    rewrite (copy_all_spec _ _ _ Hholds).
    by rewrite (fold_attach_group_new _ _ _ (length (a :: rest))).
Qed.

(** *** What each stage keeps of an observation *)

Lemma urgency_keeps severity_mentions temperature_analysis (o : Obs) :
  same_clustered o (Urgency.scored severity_mentions temperature_analysis o).
Proof. repeat split. Qed.

Lemma confidence_keeps conflict_set (o : Obs) :
  same_scored o (Confidence.scored conflict_set o).
Proof. unfold Confidence.scored. destruct (Confidence.rate _ _). repeat split. Qed.

Lemma set_cluster_keeps (cid label : string) (o o' : Obs) :
  same_finding o o' -> same_finding o (set_cluster cid label o').
Proof. intros H. exact H. Qed.

Lemma attach_group_keeps clusters key_to_cluster_id (objs res : list Obs)
    (item : string * list nat) :
  Forall2 same_finding objs res ->
  Forall2 same_finding objs
          (Clustering.attach_group clusters key_to_cluster_id res item).
Proof.
  unfold Clustering.attach_group. generalize (snd item). intros indices.
  revert res. induction indices as [|i indices IH]; intros res Hres; simpl;
    [done|].
  apply IH. apply Forall2_alter_r; [done|].
  intros o o' _ _. apply set_cluster_keeps.
Qed.

Lemma same_finding_refl (o : Obs) : same_finding o o.
Proof. repeat split. Qed.

Lemma fold_attach_group_keeps clusters key_to_cluster_id (objs : list Obs)
    (items : list (string * list nat)) :
  forall res : list Obs,
    Forall2 same_finding objs res ->
    Forall2 same_finding objs
            (fold_left (Clustering.attach_group clusters key_to_cluster_id)
                       items res).
Proof.
  induction items as [|item items IH]; intros res Hres; simpl; [done|].
  apply IH. by apply attach_group_keeps.
Qed.

Lemma cluster_keeps (objs : list Obs) :
  Forall2 same_finding objs (fst (Clustering.cluster_observations objs)).
Proof.
  unfold Clustering.cluster_observations.
  destruct objs as [|o objs']; [constructor|].
  destruct (fold_left (Clustering.number_group (o :: objs')) _ _)
    as [[counter clusters] key_to_cluster_id]. simpl fst.
  apply fold_attach_group_keeps.
  apply Forall_Forall2_diag, Forall_forall. intros; apply same_finding_refl.
Qed.

(** *** Two stages in a row *)

Lemma new_records_length (R : Obs -> Obs -> Prop) (h h' : Store)
    (observations result : list nat) :
  new_records R h observations result h' ->
  length result = length observations /\ length h <= length h'.
Proof.
  intros (Hframe & _ & _ & Hpos). split.
  - symmetry. by eapply Forall2_length.
  - destruct (decide (length h = 0)) as [->|Hne]; [lia|].
    destruct (lookup_lt_is_Some_2 h (pred (length h)) ltac:(lia)) as [o Ho].
    apply Hframe in Ho. apply lookup_lt_Some in Ho. lia.
Qed.

Lemma new_records_compose (R1 R2 R : Obs -> Obs -> Prop) (h1 h2 h3 : Store)
    (r1 r2 r3 : list nat) :
  (forall o1 o2 o3, R1 o1 o2 -> R2 o2 o3 -> R o1 o3) ->
  new_records R1 h1 r1 r2 h2 -> new_records R2 h2 r2 r3 h3 ->
  new_records R h1 r1 r3 h3.
Proof.
  intros Htrans H12 H23.
  destruct (new_records_length _ _ _ _ _ H12) as [Hlen12 Hle12].
  destruct (new_records_length _ _ _ _ _ H23) as [Hlen23 _].
  destruct H12 as (Hframe1 & _ & _ & Hpos1).
  destruct H23 as (Hframe2 & Hnew2 & Hdup2 & Hpos2).
  split; [intros a o Ha; by apply Hframe2, Hframe1|].
  split; [eapply Forall_impl; [exact Hnew2|]; simpl; intros; lia|].
  split; [done|].
  apply Forall2_same_length_lookup_2; [lia|].
  intros i a1 a3 Ha1 Ha3.
  destruct (Forall2_lookup_l _ _ _ _ _ Hpos1 Ha1)
    as (a2 & Ha2 & o1 & o2 & Ho1 & Ho2 & HR1).
  destruct (Forall2_lookup_lr _ _ _ _ _ _ Hpos2 Ha2 Ha3)
    as (o2' & o3 & Ho2' & Ho3 & HR2).
  rewrite Ho2 in Ho2'. injection Ho2' as <-.
  exists o1, o3. split; [done|]. split; [done|]. by eapply Htrans.
Qed.

(** C9.  Let the list [observations] hold live objects of the store.
    Each of [cluster_observations], [score_urgency] and [score_confidence]
    returns a list and a store in which every object of the input store
    is as it was; the addresses of the returned list are new and
    distinct; the returned list is as long as the input list; and the
    object at each position of the returned list has the area,
    description, issue type and source of the object at that position of
    the input list (and its cluster for [score_urgency], and its cluster
    and urgency for [score_confidence]).  Run one after the other, the
    list after confidence scoring has, position by position, the finding
    and the cluster of the list after clustering. *)
Theorem stages_return_new_records
    (h : Store) (observations : list nat) (objs : list Obs)
    (severity_mentions : list string)
    (temperature_analysis : option Temperature.TemperatureAnalysis)
    (conflicts : option (list Merger.Conflict)) :
  holds h observations objs ->
  (exists result clusters h',
      cluster_observations h observations = Some (result, clusters, h')
      /\ new_records same_finding h observations result h'
      /\ length result = length observations)
  /\ (exists result h',
         score_urgency h observations severity_mentions temperature_analysis
         = Some (result, h')
         /\ new_records same_clustered h observations result h'
         /\ length result = length observations)
  /\ (exists result h',
         score_confidence h observations conflicts = Some (result, h')
         /\ new_records same_scored h observations result h'
         /\ length result = length observations)
  /\ (exists r1 clusters h1 r2 h2 r3 h3,
         cluster_observations h observations = Some (r1, clusters, h1)
         /\ score_urgency h1 r1 severity_mentions temperature_analysis
            = Some (r2, h2)
         /\ score_confidence h2 r2 conflicts = Some (r3, h3)
         /\ new_records same_clustered h1 r1 r3 h3
         /\ length r3 = length r1).
Proof.
  intros Hholds.
  assert (forall (body : Obs -> Obs) (R : Obs -> Obs -> Prop) h0 obs0 objs0,
             (forall o, R o (body o)) -> holds h0 obs0 objs0 ->
             exists result h',
               annotate_copies body h0 obs0 [] = Some (result, h')
               /\ new_records R h0 obs0 result h'
               /\ length result = length obs0
               /\ holds h' result (map body objs0)) as Hannotate.
  { intros body R h0 obs0 objs0 Hbody Hh.
    eexists _, _. split; [by apply annotate_copies_spec|]. simpl.
    split; [apply (new_records_intro R h0 obs0 objs0); [done|]|].
    - apply Forall2_fmap_r, Forall_Forall2_diag, Forall_forall. intros; apply Hbody.
    - split; [by rewrite length_seq|].
      rewrite (Forall2_length _ _ _ Hh), <- (length_map body objs0).
      apply holds_new. }
  assert (exists result clusters h',
             cluster_observations h observations = Some (result, clusters, h')
             /\ new_records same_finding h observations result h'
             /\ length result = length observations
             /\ holds h' result (fst (Clustering.cluster_observations objs)))
    as (r1 & clusters & h1 & Hc & Hnew1 & Hlen1 & Hholds1).
  { eexists _, _, _. split; [by apply cluster_observations_spec|].
    split; [apply (new_records_intro _ h observations objs); [done|];
            apply cluster_keeps|].
    split; [by rewrite length_seq|].
    rewrite (Forall2_length _ _ _ Hholds),
      (Forall2_length _ _ _ (cluster_keeps objs)).
    apply holds_new. }
  split; [by exists r1, clusters, h1|].
  split.
  { destruct (Hannotate _ same_clustered h observations objs
                (urgency_keeps severity_mentions temperature_analysis) Hholds)
      as (r & h' & ? & ? & ? & _). by exists r, h'. }
  split.
  { destruct (Hannotate _ same_scored h observations objs
                (confidence_keeps (Confidence.conflict_obs conflicts)) Hholds)
      as (r & h' & ? & ? & ? & _). by exists r, h'. }
  destruct (Hannotate _ same_clustered h1 r1 _
              (urgency_keeps severity_mentions temperature_analysis) Hholds1)
    as (r2 & h2 & Hu & Hnew2 & Hlen2 & Hholds2).
  destruct (Hannotate _ same_scored h2 r2 _
              (confidence_keeps (Confidence.conflict_obs conflicts)) Hholds2)
    as (r3 & h3 & Hf & Hnew3 & Hlen3 & _).
  exists r1, clusters, h1, r2, h2, r3, h3.
  do 3 (split; [done|]). split; [|lia].
  eapply (new_records_compose same_clustered same_scored); [|done|done].
  intros o1 o2 o3 ((Ha1 & Hd1 & Hi1 & Hs1) & Hc1 & Hl1)
         (((Ha2 & Hd2 & Hi2 & Hs2) & Hc2 & Hl2) & _).
  repeat split; congruence.
Qed.

(** Two observations in a list that holds the first one twice. *)
Lemma stages_return_new_records_witness :
  let h := [finding "Kitchen" "leak under sink";
            finding "Bath" "Visible damp"] in
  let observations := [1; 0; 1] in
  (exists result clusters h',
      cluster_observations h observations = Some (result, clusters, h')
      /\ new_records same_finding h observations result h'
      /\ length result = length observations)
  /\ (exists result h',
         score_urgency h observations ["severe"] None = Some (result, h')
         /\ new_records same_clustered h observations result h'
         /\ length result = length observations)
  /\ (exists result h',
         score_confidence h observations None = Some (result, h')
         /\ new_records same_scored h observations result h'
         /\ length result = length observations)
  /\ (exists r1 clusters h1 r2 h2 r3 h3,
         cluster_observations h observations = Some (r1, clusters, h1)
         /\ score_urgency h1 r1 ["severe"] None = Some (r2, h2)
         /\ score_confidence h2 r2 None = Some (r3, h3)
         /\ new_records same_clustered h1 r1 r3 h3
         /\ length r3 = length r1).
Proof.
  apply (stages_return_new_records
           [finding "Kitchen" "leak under sink";
            finding "Bath" "Visible damp"]
           [1; 0; 1]
           [finding "Bath" "Visible damp";
            finding "Kitchen" "leak under sink";
            finding "Bath" "Visible damp"]
           ["severe"] None None).
  repeat constructor.
Defined.

End StoredFacts.

(** ** Clustering *)

Module ClusteringFacts.
Import Clustering.
Import ClusteringSpec.


Lemma keys_add_index (key : string) (i : nat) (d : list (string * list nat)) :
  map fst (add_index key i d)
  = if bool_decide (key ∈ map fst d) then map fst d else map fst d ++ [key].
Proof.
  induction d as [|[k indices] d IH]; simpl; [done|].
  - destruct (String.eqb_spec k key) as [->|Hne]; simpl.
    + rewrite bool_decide_eq_true_2; [done|]. left.
    + rewrite IH. destruct (bool_decide (key ∈ map fst d)) eqn:Hin.
      * apply bool_decide_eq_true in Hin.
        rewrite bool_decide_eq_true_2; [done|]. by right.
      * apply bool_decide_eq_false in Hin.
        rewrite bool_decide_eq_false_2; [done|].
        intros [->|H]%elem_of_cons; done.
Qed.

Lemma keys_index_keys (observations : list Obs) :
  forall (i : nat) (d : list (string * list nat)),
    map fst (index_keys i observations d)
    = first_seen (map fst d) (map key_of observations).
Proof.
  induction observations as [|obs rest IH]; intros i d; simpl; [done|].
  by rewrite IH, keys_add_index.
Qed.

Lemma first_seen_NoDup (keys : list string) :
  forall seen, NoDup seen -> NoDup (first_seen seen keys).
Proof.
  induction keys as [|k rest IH]; intros seen Hseen; simpl; [done|].
  apply IH. destruct (bool_decide (k ∈ seen)) eqn:Hin; [done|].
  apply bool_decide_eq_false in Hin.
  apply NoDup_app. split; [done|]. split; [|apply NoDup_singleton].
  intros x Hx ->%list_elem_of_singleton. done.
Qed.

(** *** The entries of [key_to_indices] *)

Lemma add_index_new (key : string) (i : nat) (d : list (string * list nat)) :
  exists indices, (key, indices) ∈ add_index key i d /\ i ∈ indices.
Proof.
  induction d as [|[k indices] d IH]; simpl.
  - exists [i]. split; left.
  - destruct (String.eqb_spec k key) as [->|Hne].
    + exists (indices ++ [i]). split; [left|]. apply elem_of_app. right. left.
    + destruct IH as (indices' & Hin & Hi). exists indices'.
      split; [by right|done].
Qed.

Lemma add_index_old (key : string) (i : nat) (d : list (string * list nat))
    (k : string) (indices : list nat) (j : nat) :
  (k, indices) ∈ d -> j ∈ indices ->
  exists indices', (k, indices') ∈ add_index key i d /\ j ∈ indices'.
Proof.
  induction d as [|[k0 indices0] d IH]; [by intros ?%elem_of_nil|].
  intros Hin Hj. simpl. destruct (String.eqb_spec k0 key) as [->|Hne].
  - apply elem_of_cons in Hin as [[= -> ->]|Hin].
    + exists (indices0 ++ [i]). split; [left|]. apply elem_of_app. by left.
    + exists indices. split; [by right|done].
  - apply elem_of_cons in Hin as [[= -> ->]|Hin].
    + exists indices0. split; [left|done].
    + destruct (IH Hin Hj) as (indices' & Hin' & Hj').
      exists indices'. split; [by right|done].
Qed.

Lemma add_index_inv (key : string) (i : nat) (d : list (string * list nat))
    (k : string) (indices : list nat) (j : nat) :
  (k, indices) ∈ add_index key i d -> j ∈ indices ->
  (exists indices', (k, indices') ∈ d /\ j ∈ indices') \/ (k = key /\ j = i).
Proof.
  induction d as [|[k0 indices0] d IH]; simpl.
  - intros [= -> ->]%list_elem_of_singleton Hj.
    apply list_elem_of_singleton in Hj. by right.
  - destruct (String.eqb_spec k0 key) as [->|Hne].
    + intros [[= -> ->]|Hin]%elem_of_cons Hj.
      * apply elem_of_app in Hj as [Hj|Hj%list_elem_of_singleton].
        -- left. exists indices0. split; [left|done].
        -- by right.
      * left. exists indices. split; [by right|done].
    + intros [[= -> ->]|Hin]%elem_of_cons Hj.
      * left. exists indices0. split; [left|done].
      * destruct (IH Hin Hj) as [(indices' & Hin' & Hj')|Hnew]; [|by right].
        left. exists indices'. split; [by right|done].
Qed.

Lemma index_keys_indexes (all : list Obs) (rest : list Obs) :
  forall (i : nat) (d : list (string * list nat)),
    drop i all = rest -> indexes all i d ->
    indexes all (length all) (index_keys i rest d).
Proof.
  induction rest as [|obs rest IH]; intros i d Hdrop [Hkeys Hcover]; simpl.
  - split; [done|]. intros j o Hj. apply Hcover.
    apply (f_equal length) in Hdrop. rewrite length_drop in Hdrop.
    simpl in Hdrop. lia.
  - assert (all !! i = Some obs) as Hi.
    { rewrite <- (Nat.add_0_r i), <- lookup_drop, Hdrop. done. }
    apply IH.
    + by rewrite <- (Nat.add_1_r i), <- drop_drop, Hdrop.
    + split.
      * intros k indices j Hin Hj.
        destruct (add_index_inv _ _ _ _ _ _ Hin Hj)
          as [(indices' & Hin' & Hj')|[-> ->]].
        -- by eapply Hkeys.
        -- by rewrite Hi.
      * intros j o Hj Ho. destruct (decide (j = i)) as [->|Hne].
        -- rewrite Hi in Ho. injection Ho as <-. apply add_index_new.
        -- destruct (Hcover j o ltac:(lia) Ho) as (indices & Hin & Hji).
           by eapply add_index_old.
Qed.

(** *** The numbering of the groups *)

Lemma number_groups_spec (observations : list Obs)
    (d : list (string * list nat)) :
  forall (c : nat) (cls : list Cluster) (m : gmap string string),
    let r := fold_left (number_group observations) d (c, cls, m) in
    map cl_cluster_id (snd (fst r))
    = map cl_cluster_id cls
      ++ map (fun n => cluster_name (S (c + n))) (seq 0 (length d))
    /\ (forall k, k ∉ map fst d -> snd r !! k = m !! k)
    /\ (NoDup (map fst d) ->
        forall k n, position k (map fst d) = Some n ->
                    snd r !! k = Some (cluster_name (S (c + n)))).
Proof.
  induction d as [|[k0 indices0] d IH]; intros c cls m; simpl.
  - split; [by rewrite app_nil_r|]. split; [done|]. intros _ k n. discriminate.
  - destruct (IH (S c)
                (cls ++ [mkCluster (cluster_name (S c))
                           (label_of observations indices0) indices0])
                (<[k0 := cluster_name (S c)]> m)) as (Hids & Hkeep & Hpos).
    split; [|split].
    + rewrite Hids, map_app, <- app_assoc. simpl. f_equal.
      rewrite Nat.add_0_r. f_equal.
      rewrite <- seq_shift, map_map. apply map_ext. intros n.
      by rewrite Nat.add_succ_r.
    + intros k Hk. rewrite Hkeep by (intros Hin; apply Hk; by right).
      apply lookup_insert_ne. intros ->. apply Hk. left.
    + intros [Hk0 Hdup]%NoDup_cons k n.
      destruct (String.eqb_spec k0 k) as [->|Hne].
      * intros [= <-]. rewrite Hkeep by done.
        by rewrite lookup_insert_eq, Nat.add_0_r.
      * destruct (position k (map fst d)) as [n'|] eqn:Hn'; [|discriminate].
        intros [= <-]. rewrite (Hpos Hdup k n' Hn'). by rewrite Nat.add_succ_r.
Qed.

(** *** The writes of the third loop *)




Lemma attach_indices_untouched (f : Obs -> Obs) (indices : list nat) :
  forall (res : list Obs) (j : nat),
    j ∉ indices ->
    fold_left (fun res i => alter f i res) indices res !! j = res !! j.
Proof.
  induction indices as [|i indices IH]; intros res j Hj; simpl; [done|].
  rewrite IH by (intros Hin; apply Hj; by right).
  apply list_lookup_alter_ne. intros ->. apply Hj. left.
Qed.



(** Five observations with three keys: the third has the key of the
    first, the fifth the key of the second. *)
Example cluster_ids_example :
  let observations :=
    [finding "Kitchen" "leak under sink";
     finding "Bath" "Visible damp";
     finding " kitchen" "Leak under sink";
     finding "" "";
     finding "bath" "visible damp "] in
  map cluster_id (fst (cluster_observations observations))
  = [Some "cluster_1"; Some "cluster_2"; Some "cluster_1"; Some "cluster_3";
     Some "cluster_2"]
  /\ map (fun c => (cl_cluster_id c, observation_indices c))
         (snd (cluster_observations observations))
     = [("cluster_1", [0; 2]); ("cluster_2", [1; 4]); ("cluster_3", [3])]
  /\ first_seen [] (map key_of observations)
     = ["kitchen|leak under sink"; "bath|visible damp";
        "unspecified|unspecified"].
Proof. vm_compute. repeat split; reflexivity. Qed.

End ClusteringFacts.

(** * Further properties *)

(** ** Text *)

Module PyStrMore.

Lemma append_assoc (a b c : string) : ((a ++ b) ++ c)%string = (a ++ (b ++ c))%string.
Proof.
  induction a as [|x a IH]; [reflexivity|].
  by rewrite !PyStrFacts.append_String, IH.
Qed.

Lemma append_nil_r (a : string) : (a ++ EmptyString)%string = a.
Proof.
  induction a as [|x a IH]; [reflexivity|].
  by rewrite PyStrFacts.append_String, IH.
Qed.

Lemma contains_refl (s : string) : PyStr.contains s s = true.
Proof.
  apply PyStrFacts.contains_spec. exists EmptyString, EmptyString.
  by rewrite append_nil_r.
Qed.

Lemma lstrip_suffix (s : string) : exists pre, s = (pre ++ PyStr.lstrip s)%string.
Proof.
  induction s as [|c s [pre IH]]; simpl; [by exists EmptyString|].
  destruct (PyStr.isspace c).
  - exists (String c pre). by rewrite PyStrFacts.append_String, <- IH.
  - by exists EmptyString.
Qed.

Lemma rstrip_prefix (s : string) : exists post, s = (PyStr.rstrip s ++ post)%string.
Proof.
  induction s as [|c s [post IH]]; simpl; [by exists EmptyString|].
  destruct (PyStr.isspace c && negb (PyStr.truthy (PyStr.rstrip s))) eqn:E.
  - by exists (String c s).
  - exists post. by rewrite PyStrFacts.append_String, <- IH.
Qed.

(** A text contains what [strip] leaves of it. *)
Lemma contains_strip (s : string) : PyStr.contains (PyStr.strip s) s = true.
Proof.
  apply PyStrFacts.contains_spec. unfold PyStr.strip.
  destruct (lstrip_suffix s) as [pre Hpre].
  destruct (rstrip_prefix (PyStr.lstrip s)) as [post Hpost].
  exists pre, post. by rewrite <- Hpost.
Qed.

Lemma contains_app_l (sub a b : string) :
  PyStr.contains sub a = true -> PyStr.contains sub (a ++ b) = true.
Proof.
  rewrite !PyStrFacts.contains_spec. intros (pre & post & ->).
  exists pre, (post ++ b)%string. by rewrite !append_assoc.
Qed.

Lemma contains_app_r (sub a b : string) :
  PyStr.contains sub b = true -> PyStr.contains sub (a ++ b) = true.
Proof.
  rewrite !PyStrFacts.contains_spec. intros (pre & post & ->).
  exists (a ++ pre)%string, post. by rewrite !append_assoc.
Qed.

Lemma contains_trans (a b c : string) :
  PyStr.contains a b = true -> PyStr.contains b c = true ->
  PyStr.contains a c = true.
Proof.
  rewrite !PyStrFacts.contains_spec.
  intros (p1 & q1 & ->) (p2 & q2 & ->).
  exists (p2 ++ p1)%string, (q1 ++ q2)%string.
  by rewrite !append_assoc.
Qed.


Lemma truthy_true (s : string) : PyStr.truthy s = true <-> s <> EmptyString.
Proof. destruct s; simpl; split; try done. Qed.

End PyStrMore.

(** ** Merger, further *)

Module MergerMore.
Import Merger.
Import MergerSpec.
Import MergerMoreSpec.

(** X1.  The conflict test does not depend on the order of its two
    observations. *)
Theorem has_conflict_symmetric (a b : Obs) :
  _has_conflict a b = _has_conflict b a.
Proof.
  unfold _has_conflict.
  rewrite (orb_comm (negb (PyStr.truthy (PyStr.strip (get description a))))).
  destruct (_ || _); [reflexivity|].
  rewrite String.eqb_sym. f_equal. f_equal. f_equal. apply (comm_L (∩)).
Qed.

Lemma overlap_symmetric (w1 w2 : gset string) :
  overlap_gt_03 w1 w2 = overlap_gt_03 w2 w1.
Proof.
  unfold overlap_gt_03.
  rewrite (andb_comm (negb (Nat.eqb (size w1) 0))).
  by rewrite (comm_L (∩) w1 w2), Nat.max_comm.
Qed.

(** X2.  The similarity test does not depend on the order of its two
    observations, and every observation is similar to itself. *)
Theorem observations_similar_symmetric_reflexive (obs1 obs2 : Obs) :
  observations_similar obs1 obs2 = observations_similar obs2 obs1
  /\ observations_similar obs1 obs1 = true.
Proof.
  unfold observations_similar. split.
  - rewrite (String.eqb_sym (normalize_area (get area obs1))).
    destruct (String.eqb _ _); simpl; [|reflexivity].
    rewrite (orb_comm (negb (PyStr.truthy (prefix_text obs1)))).
    destruct (_ || _); [reflexivity|].
    rewrite overlap_symmetric, <- !orb_assoc. f_equal. apply orb_comm.
  - rewrite String.eqb_refl. simpl.
    destruct (PyStr.truthy (prefix_text obs1)); simpl; [|reflexivity].
    rewrite PyStrMore.contains_refl. apply orb_true_r.
Qed.






(** *** What the fold of [add_observation] keeps *)

Lemma first_similar_empty_store (obs : Obs) (seen : list nat) :
  first_similar [] obs seen = None.
Proof. induction seen as [|a seen IH]; simpl; [done|exact IH]. Qed.

Lemma area_merged (seen new : Obs) :
  area (_merge_observations seen new) = area seen.
Proof.
  unfold _merge_observations, merge_source, merge_issue_type, merge_description.
  repeat match goal with
         | |- context [if ?b then _ else _] => destruct b
         end; reflexivity.
Qed.

Lemma description_merged (seen new : Obs) :
  description (_merge_observations seen new)
  = description (merge_description seen new).
Proof.
  unfold _merge_observations, merge_source, merge_issue_type.
  repeat match goal with
         | |- context [if ?b then _ else _] => destruct b
         end; reflexivity.
Qed.

Lemma add_observation_lists (label : string) (ms : MergeState) (obs0 : Obs) :
  lists_the_store ms -> lists_the_store (add_observation label ms obs0).
Proof.
  intros [Hseen Hmerged]. unfold add_observation, lists_the_store.
  destruct (first_similar _ _ _) as [[a seen]|].
  - destruct (_has_conflict _ _); simpl; rewrite ?length_insert; done.
  - simpl. rewrite length_app, Hseen, Hmerged. simpl.
    by rewrite seq_app.
Qed.

Lemma add_observations_lists (data : option Extraction) (label : string)
    (ms : MergeState) :
  lists_the_store ms -> lists_the_store (add_observations data label ms).
Proof.
  destruct data as [d|]; [|done]. simpl.
  generalize (observations d). intros l. revert ms.
  induction l as [|o l IH]; intros ms Hms; simpl; [done|].
  by apply IH, add_observation_lists.
Qed.

Lemma omap_lookup_from (pre l : list Obs) :
  omap (fun a => (pre ++ l) !! a) (seq (length pre) (length l)) = l.
Proof.
  revert pre. induction l as [|x l IH]; intros pre; simpl; [done|].
  rewrite list_lookup_middle by done. f_equal.
  specialize (IH (pre ++ [x])). rewrite length_app, Nat.add_1_r in IH.
  by rewrite <- app_assoc in IH.
Qed.

(** The observations returned are the objects of the store, in order. *)
Lemma merged_is_store (i t : option Extraction) :
  merged_of (merge_extractions i t)
  = store (add_observations t "Thermal Report"
             (add_observations i "Inspection Report" initial_state)).
Proof.
  unfold merged_of, merge_extractions. simpl.
  destruct (add_observations_lists t "Thermal Report" _
              (add_observations_lists i "Inspection Report" initial_state
                 ltac:(by split))) as [_ ->].
  apply (omap_lookup_from []).
Qed.

(** One step: the store keeps its areas and gains at most the area of
    the incoming observation; an entry or a conflict is added, or
    neither; a conflict added is between the incoming observation and
    a similar seen one that conflicts with it. *)
Lemma add_observation_step (label : string) (ms : MergeState) (obs0 : Obs) :
  let ms' := add_observation label ms obs0 in
  (map area (store ms') = map area (store ms) /\ store ms <> []
   \/ map area (store ms') = map area (store ms) ++ [area obs0])
  /\ length (store ms') + length (conflicts ms')
     <= length (store ms) + length (conflicts ms) + 1
  /\ (conflicts ms' = conflicts ms
      \/ exists seen,
           conflicts ms'
           = conflicts ms
             ++ [mkConflict "observation" seen (set_source label obs0)
                   conflict_message]
           /\ observations_similar (set_source label obs0) seen = true
           /\ _has_conflict (set_source label obs0) seen = true).
Proof.
  intros ms'. subst ms'. unfold add_observation.
  destruct (first_similar _ _ _) as [[a seen]|] eqn:Hfirst.
  - apply MergerFacts.first_similar_sound in Hfirst as (Hlook & Hsim & _).
    assert (store ms <> []) as Hne by (intros E; by rewrite E in Hlook).
    destruct (_has_conflict _ _) eqn:Hconf; simpl.
    + split; [by left|]. split; [rewrite length_app; simpl; lia|].
      right. by exists seen.
    + split; [|split; [rewrite length_insert; lia|by left]].
      left. split; [|done].
      change (map area (<[a:=_merge_observations seen (set_source label obs0)]>
                          (store ms)))
        with (area <$> <[a:=_merge_observations seen (set_source label obs0)]>
                         (store ms)).
      rewrite list_fmap_insert, area_merged.
      apply list_insert_id. by rewrite list_lookup_fmap, Hlook.
  - simpl. split; [right; by rewrite map_app|].
    split; [rewrite length_app; simpl; lia|by left].
Qed.

Lemma add_observations_steps (label : string) (l : list Obs) :
  forall ms : MergeState,
    let ms' := fold_left (add_observation label) l ms in
    (exists k, map area (store ms') = map area (store ms) ++ k
               /\ k `sublist_of` map area l)
    /\ length (store ms') + length (conflicts ms')
       <= length (store ms) + length (conflicts ms) + length l
    /\ (l <> [] -> store ms' <> [])
    /\ (store ms <> [] -> store ms' <> [])
    /\ (Forall well_formed_conflict (conflicts ms) ->
        Forall well_formed_conflict (conflicts ms')).
Proof.
  induction l as [|o l IH]; intros ms; simpl.
  - split; [exists []; by rewrite app_nil_r|]. split; [lia|done].
  - destruct (IH (add_observation label ms o))
      as ((k & Hk & Hsub) & Hlen & _ & Hkeep & Hwf).
    destruct (add_observation_step label ms o) as (Harea & Hstep & Hconf).
    assert (store (add_observation label ms o) <> []) as Hne.
    { destruct Harea as [[Hsame Hne]|Happ].
      - intros E. rewrite E in Hsame. by destruct (store ms).
      - intros E. rewrite E in Happ. by destruct (map area (store ms)). }
    split; [|split; [lia|split; [auto|split; [auto|]]]].
    + destruct Harea as [[Hsame _]|Happ].
      * exists k. split; [by rewrite Hk, Hsame|by apply sublist_cons].
      * exists (area o :: k). split; [by rewrite Hk, Happ, <- app_assoc|].
        by apply sublist_skip.
    + intros Hall. apply Hwf.
      destruct Hconf as [->|(seen & -> & Hsim & Hc)]; [done|].
      apply Forall_app. split; [done|]. constructor; [|constructor].
      unfold well_formed_conflict. simpl.
      unfold observations_similar in Hsim. unfold _has_conflict in Hc.
      destruct (String.eqb_spec
                  (normalize_area (get area (set_source label o)))
                  (normalize_area (get area seen))) as [Ha|Ha];
        [|discriminate].
      destruct (PyStr.truthy (PyStr.strip (get description (set_source label o))))
        eqn:T1; [|discriminate].
      destruct (PyStr.truthy (PyStr.strip (get description seen)))
        eqn:T2; [|discriminate].
      simpl in Hc. apply andb_true_iff in Hc as [Hd Hw].
      apply negb_true_iff in Hd. apply String.eqb_neq in Hd.
      apply Nat.ltb_lt in Hw.
      apply PyStrMore.truthy_true in T1, T2.
      repeat split; try done.
      by rewrite (comm_L (∩)).
Qed.

Lemma add_observations_fold (data : option Extraction) (label : string)
    (ms : MergeState) :
  add_observations data label ms
  = fold_left (add_observation label) (observations_of data) ms.
Proof. by destruct data. Qed.

Lemma merge_invariants (i t : option Extraction) :
  let final := add_observations t "Thermal Report"
                 (add_observations i "Inspection Report" initial_state) in
  let n := length (observations_of i) + length (observations_of t) in
  length (store final) + length (conflicts final) <= n
  /\ (store final = [] <-> n = 0)
  /\ map area (store final)
     `sublist_of` map area (observations_of i ++ observations_of t)
  /\ Forall well_formed_conflict (conflicts final).
Proof.
  intros final n. subst final n. rewrite !add_observations_fold.
  destruct (add_observations_steps "Inspection Report" (observations_of i)
              initial_state) as ((k1 & Hk1 & Hs1) & Hl1 & Hn1 & _ & Hw1).
  set (ms1 := fold_left (add_observation "Inspection Report")
                        (observations_of i) initial_state) in *.
  destruct (add_observations_steps "Thermal Report" (observations_of t) ms1)
    as ((k2 & Hk2 & Hs2) & Hl2 & Hn2 & Hkeep2 & Hw2).
  set (ms2 := fold_left (add_observation "Thermal Report")
                        (observations_of t) ms1) in *.
  simpl in Hl1, Hk1. split; [lia|]. split; [split|split].
  - intros E. destruct (observations_of i) as [|oi li] eqn:Ei.
    + destruct (observations_of t) as [|ot lt] eqn:Et; [done|].
      exfalso. by apply Hn2.
    + exfalso. apply Hkeep2; [|done]. by apply Hn1.
  - intros Hn. destruct (store ms2) as [|x st] eqn:E; [done|]. simpl in Hl2. lia.
  - rewrite Hk2, Hk1, map_app. by apply sublist_app.
  - apply Hw2, Hw1. constructor.
Qed.

(** X4.  Every input observation opens an entry, is recorded as a
    conflict, or is folded into an entry: the observations and the
    conflicts returned are together at most as many as the observations
    received, and no observation is returned exactly when none is
    received. *)
Theorem merge_counts (i t : option Extraction) :
  let r := merge_extractions i t in
  let n := length (observations_of i) + length (observations_of t) in
  length (merged_of r) + length (conflicts_of r) <= n
  /\ (merged_of r = [] <-> n = 0).
Proof.
  intros r n. subst r n. rewrite merged_is_store.
  destruct (merge_invariants i t) as (Hlen & Hnil & _ & _).
  split; [exact Hlen|exact Hnil].
Qed.

(** X5.  The merge never rewrites an area: the areas of the observations
    returned are, in order, areas of the observations received
    (inspection first, then thermal), as they were written. *)
Theorem merge_keeps_areas (i t : option Extraction) :
  map area (merged_of (merge_extractions i t))
  `sublist_of` map area (observations_of i ++ observations_of t).
Proof.
  rewrite merged_is_store.
  by destruct (merge_invariants i t) as (_ & _ & Hsub & _).
Qed.

(** X6.  Every conflict returned is between two observations of the
    same normalized area whose trimmed descriptions are both non-empty,
    differ, and share fewer than three words; its type is "observation"
    and its message the fixed one. *)
Theorem conflicts_are_well_formed (i t : option Extraction) :
  Forall well_formed_conflict (conflicts_of (merge_extractions i t)).
Proof. by destruct (merge_invariants i t) as (_ & _ & _ & Hwf). Qed.

(** *** What a fold keeps of the texts *)

Lemma get_description_merged (seen new : Obs) :
  get description (_merge_observations seen new)
  = let desc_seen := PyStr.strip (get description seen) in
    let desc_new := PyStr.strip (get description new) in
    if PyStr.truthy desc_new && negb (String.eqb desc_new desc_seen)
    then (if PyStr.truthy desc_seen
          then desc_seen ++ ". Thermal/Inspection: " ++ desc_new
          else desc_new)%string
    else get description seen.
Proof.
  unfold get at 1. rewrite description_merged. unfold merge_description.
  cbv zeta. destruct (_ && _); [|reflexivity].
  by destruct (PyStr.truthy _).
Qed.

Lemma get_source_merged (seen new : Obs) :
  get source (_merge_observations seen new)
  = let src_seen := PyStr.strip (get source seen) in
    let src_new := PyStr.strip (get source new) in
    if PyStr.truthy src_new && negb (PyStr.contains src_new src_seen)
    then (if PyStr.truthy src_seen
          then src_seen ++ "; " ++ src_new
          else src_new)%string
    else get source seen.
Proof.
  unfold _merge_observations, merge_source. cbv zeta.
  assert (get source (merge_issue_type (merge_description seen new) new)
          = get source seen) as ->
      by (unfold get; by rewrite MergerFacts.source_merge_fields).
  destruct (_ && _); [reflexivity|].
  unfold get. by rewrite MergerFacts.source_merge_fields.
Qed.

(** X7.  Folding an observation into a seen one loses neither
    description nor source: the description of the result contains the
    trimmed description of each of the two, and its source contains the
    trimmed source of each; its area is that of the seen one. *)
Theorem merge_observations_keeps_texts (seen new : Obs) :
  let merged := _merge_observations seen new in
  area merged = area seen
  /\ PyStr.contains (PyStr.strip (get description seen)) (get description merged)
     = true
  /\ PyStr.contains (PyStr.strip (get description new)) (get description merged)
     = true
  /\ PyStr.contains (PyStr.strip (get source seen)) (get source merged) = true
  /\ PyStr.contains (PyStr.strip (get source new)) (get source merged) = true.
Proof.
  intros merged. subst merged. split; [apply area_merged|].
  assert (forall x, PyStr.truthy x = false ->
                    forall y, PyStr.contains x y = true) as Hempty.
  { intros x Hx y. destruct x; [apply MergerFacts.contains_empty|discriminate]. }
  rewrite get_description_merged, get_source_merged. cbv zeta.
  split; [|split; [|split]].
  - destruct (_ && _); [|apply PyStrMore.contains_strip].
    destruct (PyStr.truthy (PyStr.strip (get description seen))) eqn:Hs.
    + apply PyStrMore.contains_app_l, PyStrMore.contains_refl.
    + by apply Hempty.
  - destruct (PyStr.truthy (PyStr.strip (get description new))) eqn:Hn;
      [|by apply Hempty].
    destruct (String.eqb_spec (PyStr.strip (get description new))
                              (PyStr.strip (get description seen))) as [->|Hne];
      simpl; [apply PyStrMore.contains_strip|].
    destruct (PyStr.truthy (PyStr.strip (get description seen))).
    + do 2 apply PyStrMore.contains_app_r. apply PyStrMore.contains_refl.
    + apply PyStrMore.contains_refl.
  - destruct (_ && _); [|apply PyStrMore.contains_strip].
    destruct (PyStr.truthy (PyStr.strip (get source seen))) eqn:Hs.
    + apply PyStrMore.contains_app_l, PyStrMore.contains_refl.
    + by apply Hempty.
  - destruct (PyStr.truthy (PyStr.strip (get source new))) eqn:Hn;
      [|by apply Hempty].
    destruct (PyStr.contains (PyStr.strip (get source new))
                             (PyStr.strip (get source seen))) eqn:Hin; simpl.
    + eapply PyStrMore.contains_trans; [exact Hin|apply PyStrMore.contains_strip].
    + destruct (PyStr.truthy (PyStr.strip (get source seen))).
      * do 2 apply PyStrMore.contains_app_r. apply PyStrMore.contains_refl.
      * apply PyStrMore.contains_refl.
Qed.

(** *** Severity mentions and the missing list *)

Lemma add_severity_spec (l : list string) :
  forall acc : list string,
    NoDup acc -> Forall (fun x => x <> EmptyString) acc ->
    let out := fold_left add_severity l acc in
    NoDup out
    /\ Forall (fun x => x <> EmptyString) out
    /\ (forall x, x ∈ out <-> x ∈ acc
                              \/ (x <> EmptyString
                                  /\ exists s, s ∈ l /\ x = PyStr.strip s)).
Proof.
  induction l as [|s l IH]; intros acc Hdup Hne; simpl.
  - split; [done|]. split; [done|]. intros x. split; [by left|].
    intros [H|(_ & s & Hs & _)]; [done|by apply elem_of_nil in Hs].
  - assert (NoDup (add_severity acc s)
            /\ Forall (fun x => x <> EmptyString) (add_severity acc s)
            /\ (forall x, x ∈ add_severity acc s
                          <-> x ∈ acc \/ (x <> EmptyString /\ x = PyStr.strip s)))
      as (Hdup' & Hne' & Hmem).
    { unfold add_severity.
      destruct (PyStr.truthy (PyStr.strip s)) eqn:Ht; simpl.
      - apply PyStrMore.truthy_true in Ht.
        destruct (bool_decide (PyStr.strip s ∈ acc)) eqn:Hin; simpl.
        + apply bool_decide_eq_true in Hin.
          split; [done|]. split; [done|]. intros x. split; [by left|].
          intros [H|[_ ->]]; done.
        + apply bool_decide_eq_false in Hin.
          split; [|split].
          * apply NoDup_app. split; [done|]. split; [|apply NoDup_singleton].
            intros x Hx ->%list_elem_of_singleton. done.
          * apply Forall_app. split; [done|]. by constructor.
          * intros x. rewrite elem_of_app, list_elem_of_singleton.
            split; [intros [H| ->]; [by left|by right]|].
            intros [H|[_ H]]; [by left|by right].
      - split; [done|]. split; [done|]. intros x. split; [by left|].
        intros [H|[Hx ->]]; [done|].
        exfalso. apply Hx. by destruct (PyStr.strip s). }
    destruct (IH _ Hdup' Hne') as (Hd & Hn & Hm).
    split; [done|]. split; [done|]. intros x. rewrite Hm, Hmem. split.
    + intros [[H|[Hx ->]]|(Hx & s' & Hs' & ->)]; [by left| |].
      * right. split; [done|]. exists s. split; [left|done].
      * right. split; [done|]. exists s'. split; [by right|done].
    + intros [H|(Hx & s' & [->|Hs']%elem_of_cons & ->)].
      * by left; left.
      * left. by right.
      * right. split; [done|]. by exists s'.
Qed.

Lemma dedup_truthy_spec (l : list string) :
  NoDup (dedup_truthy l)
  /\ (forall x, x ∈ dedup_truthy l <-> x ∈ l /\ x <> EmptyString).
Proof.
  unfold dedup_truthy.
  assert (forall (k acc : list string),
             NoDup acc ->
             NoDup (fold_left (fun acc x => if bool_decide (x ∈ acc) then acc
                                            else acc ++ [x]) k acc)
             /\ (forall x, x ∈ fold_left (fun acc x => if bool_decide (x ∈ acc)
                                                       then acc else acc ++ [x])
                                         k acc
                           <-> x ∈ acc \/ x ∈ k)) as Hfold.
  { induction k as [|y k IH]; intros acc Hacc; simpl.
    - split; [done|]. intros x. split; [by left|].
      intros [H|H]; [done|by apply elem_of_nil in H].
    - destruct (bool_decide (y ∈ acc)) eqn:Hin.
      + apply bool_decide_eq_true in Hin. destruct (IH acc Hacc) as [Hd Hm].
        split; [done|]. intros x. rewrite Hm, elem_of_cons.
        split; [intros [H|H]; auto|].
        intros [H|[->|H]]; auto.
      + apply bool_decide_eq_false in Hin.
        destruct (IH (acc ++ [y])) as [Hd Hm].
        { apply NoDup_app. split; [done|]. split; [|apply NoDup_singleton].
          intros x Hx ->%list_elem_of_singleton. done. }
        split; [done|]. intros x.
        rewrite Hm, elem_of_app, list_elem_of_singleton, elem_of_cons. tauto. }
  destruct (Hfold (filter (fun x => PyStr.truthy x = true) l) [])
    as [Hd Hm]; [constructor|].
  split; [done|]. intros x. rewrite Hm, list_elem_of_filter.
  rewrite PyStrMore.truthy_true. split.
  - intros [H|[H1 H2]]; [by apply elem_of_nil in H|done].
  - intros [H1 H2]. by right.
Qed.

(** X8.  The severity mentions returned are trimmed, non-empty and
    without repetition, and they are exactly the non-empty trimmed
    mentions of the two documents. *)
Theorem severity_mentions_deduplicated (i t : option Extraction) :
  let out := severity_mentions (fst (fst (merge_extractions i t))) in
  NoDup out
  /\ Forall (fun x => x <> EmptyString) out
  /\ (forall x, x ∈ out
                <-> x <> EmptyString
                    /\ exists s, s ∈ both severity_mentions i t
                                 /\ x = PyStr.strip s).
Proof.
  intros out. subst out. unfold merge_extractions. simpl.
  destruct (add_severity_spec (both severity_mentions i t) [])
    as (Hd & Hn & Hm); [constructor|constructor|].
  split; [done|]. split; [done|]. intros x. rewrite Hm. split.
  - intros [H|H]; [by apply elem_of_nil in H|done].
  - by right.
Qed.

(** X9.  The ambiguous and the missing items returned are each without
    repetition and are exactly the non-empty items of the two documents;
    the missing list returned with them holds an item exactly when one
    of the two does. *)
Theorem ambiguous_and_missing_deduplicated (i t : option Extraction) :
  let r := merge_extractions i t in
  NoDup (ambiguous (fst (fst r)))
  /\ NoDup (missing (fst (fst r)))
  /\ (forall x, x ∈ ambiguous (fst (fst r))
                <-> x ∈ both ambiguous i t /\ x <> EmptyString)
  /\ (forall x, x ∈ missing (fst (fst r))
                <-> x ∈ both missing i t /\ x <> EmptyString)
  /\ (forall x, x ∈ snd r
                <-> (x ∈ both ambiguous i t \/ x ∈ both missing i t)
                    /\ x <> EmptyString).
Proof.
  intros r. subst r. unfold merge_extractions. simpl.
  destruct (dedup_truthy_spec (both ambiguous i t)) as [Hda Hma].
  destruct (dedup_truthy_spec (both missing i t)) as [Hdm Hmm].
  split; [done|]. split; [done|]. split; [done|]. split; [done|].
  intros x. rewrite elem_of_app, Hma, Hmm. tauto.
Qed.

End MergerMore.

(** ** Temperature analysis, further *)

Module TemperatureMore.
Import Temperature TemperatureMoreSpec.

Lemma any_char_lstrip (p : ascii -> bool) (s : string) :
  (forall c, PyStr.isspace c = true -> p c = false) ->
  any_char p (PyStr.lstrip s) = any_char p s.
Proof.
  intros Hp. induction s as [|c s IH]; simpl; [done|].
  destruct (PyStr.isspace c) eqn:Hc; [|done].
  by rewrite IH, (Hp c Hc).
Qed.

Lemma any_char_rstrip (p : ascii -> bool) (s : string) :
  (forall c, PyStr.isspace c = true -> p c = false) ->
  any_char p (PyStr.rstrip s) = any_char p s.
Proof.
  intros Hp. induction s as [|c s IH]; simpl; [done|].
  destruct (PyStr.isspace c) eqn:Hc; simpl.
  - destruct (PyStr.rstrip s) eqn:Hr; simpl in *.
    + by rewrite <- IH, (Hp c Hc).
    + by rewrite <- IH.
  - by rewrite IH.
Qed.

Lemma any_char_strip (p : ascii -> bool) (s : string) :
  (forall c, PyStr.isspace c = true -> p c = false) ->
  any_char p (PyStr.strip s) = any_char p s.
Proof.
  intros Hp. unfold PyStr.strip.
  by rewrite any_char_rstrip, any_char_lstrip.
Qed.






















Lemma omap_parse_reading (temperatures : list Reading) :
  map (fun p => (p_location p, p_unit p, Some (p_value p)))
      (omap parse_reading temperatures)
  = map (fun t => (default EmptyString (r_location t), unit_of t,
                   _parse_value (r_value t)))
        (kept temperatures).
Proof.
  unfold kept. induction temperatures as [|t l IH]; [done|].
  change (omap parse_reading (t :: l))
    with (match parse_reading t with
          | Some p => p :: omap parse_reading l
          | None => omap parse_reading l
          end).
  cbn [List.filter].
  assert (parse_reading t
          = option_map (fun val => mkParsed (default EmptyString (r_location t)) val
                                     (unit_of t)
                                     (_normalize_to_celsius val (unit_of t)))
                       (_parse_value (r_value t))) as ->
      by (unfold parse_reading; by destruct (_parse_value (r_value t))).
  assert (parses t = bool_decide (is_Some (_parse_value (r_value t)))) as ->.
  { unfold parses. destruct (_parse_value (r_value t)); [|done].
    symmetry. by apply bool_decide_eq_true. }
  destruct (_parse_value (r_value t)) as [v|] eqn:Hv; [|exact IH].
  rewrite bool_decide_eq_true_2 by done.
  cbn [option_map map p_location p_unit p_value]. by rewrite IH, Hv.
Qed.

Lemma unit_of_nonempty (t : Reading) : unit_of t <> EmptyString.
Proof.
  unfold unit_of. cbv zeta.
  destruct (PyStr.truthy (PyStr.strip _)) eqn:H; [|done].
  by apply PyStrMore.truthy_true.
Qed.

(** X12.  The analysis has one reading for each input reading whose
    value parses, in the input order, with its location, its unit (never
    empty) and its parsed value; the others are dropped.  The reference
    unit is the unit of the first of them, and there is no reference
    exactly when none parses. *)
Theorem unparsed_readings_are_dropped (temperatures : list Reading)
    (anomaly_threshold_c : float) :
  let r := compute_temperature_analysis temperatures anomaly_threshold_c in
  map (fun o => (location o, out_unit o, Some (value o))) (readings r)
  = map (fun t => (default EmptyString (r_location t), unit_of t,
                   _parse_value (r_value t)))
        (kept temperatures)
  /\ reference_unit r = unit_of <$> head (kept temperatures)
  /\ (reference_value r = None <-> kept temperatures = [])
  /\ Forall (fun o => out_unit o <> EmptyString) (readings r).
Proof.
  intros r.
  pose proof (omap_parse_reading temperatures) as Hmap.
  assert (r = match omap parse_reading temperatures with
              | [] => no_analysis
              | _ =>
                  mkAnalysis
                    (Some (PyFloat.round2
                             (reference_display (omap parse_reading temperatures))))
                    (Some (first_unit (omap parse_reading temperatures)))
                    (map (reading_out (reference_c (omap parse_reading temperatures))
                                      anomaly_threshold_c)
                         (omap parse_reading temperatures))
              end) as ->.
  { subst r. unfold compute_temperature_analysis. by destruct temperatures. }
  destruct (omap parse_reading temperatures) as [|p ps] eqn:Hp.
  - destruct (kept temperatures); [|done]. repeat split; try done.
  - cbn [readings reference_unit reference_value].
    rewrite map_map. cbn [reading_out location out_unit value].
    split; [exact Hmap|].
    destruct (kept temperatures) as [|t ts]; [done|].
    injection Hmap as Hloc Hunit Hval Htail.
    split; [cbn; by rewrite Hunit|]. split; [split; done|].
    apply Forall_map, Forall_forall. intros q Hq. cbn [out_unit reading_out].
    assert (p_unit q ∈ map p_unit (p :: ps)) as Hin
        by (apply list_elem_of_fmap; by exists q).
    assert (map p_unit (p :: ps) = map unit_of (t :: ts)) as Hunits.
    { cbn [map]. rewrite Hunit. f_equal.
      apply (f_equal (map (fun x => snd (fst x)))) in Htail.
      by rewrite !map_map in Htail. }
    rewrite Hunits in Hin. apply list_elem_of_fmap in Hin as (t' & -> & _).
    apply unit_of_nonempty.
Qed.

End TemperatureMore.

(** ** Clustering, further *)

Module ClusteringMore.
Import Clustering ClusteringSpec ClusteringMoreSpec.

Lemma cluster_name_inj (n m : nat) : cluster_name n = cluster_name m -> n = m.
Proof.
  unfold cluster_name. intros H.
  assert (NilEmpty.string_of_uint (Nat.to_uint n)
          = NilEmpty.string_of_uint (Nat.to_uint m)) as Hs by (by injection H).
  apply (f_equal NilEmpty.uint_of_string) in Hs.
  rewrite !NilEmpty.usu in Hs. injection Hs as Hu.
  apply (f_equal Nat.of_uint) in Hu. by rewrite !DecimalNat.Unsigned.of_to in Hu.
Qed.

(** *** The entries of [key_to_indices] *)

Lemma sorted_snoc (l : list nat) (i : nat) :
  StronglySorted lt l -> Forall (fun j => j < i) l -> StronglySorted lt (l ++ [i]).
Proof.
  induction 1 as [|x l Hl IH Hx]; intros Hi; simpl.
  - repeat constructor.
  - apply Forall_cons in Hi as [Hxi Hi]. constructor; [by apply IH|].
    apply Forall_app. split; [done|]. by constructor.
Qed.

Lemma add_index_entries (key : string) (i : nat) (d : list (string * list nat)) :
  entries_below i d -> entries_below (S i) (add_index key i d).
Proof.
  unfold entries_below. induction d as [|[k indices] d IH]; simpl.
  - intros _. constructor; [|constructor]. simpl.
    split; [done|]. split; [repeat constructor|].
    constructor; [lia|constructor].
  - intros [(Hne & Hs & Hlt) Hd]%Forall_cons.
    assert (Forall (fun j => j < S i) indices) as Hlt'
      by (eapply Forall_impl; [exact Hlt|]; simpl; lia).
    destruct (String.eqb k key).
    + constructor; simpl.
      * split; [by destruct indices|]. split; [by apply sorted_snoc|].
        apply Forall_app. split; [done|]. constructor; [lia|constructor].
      * eapply Forall_impl; [exact Hd|]. intros item (H1 & H2 & H3).
        split; [done|]. split; [done|].
        eapply Forall_impl; [exact H3|]. simpl. lia.
    + constructor; [done|]. by apply IH.
Qed.

Lemma add_index_concat (key : string) (i : nat) (d : list (string * list nat)) :
  concat (map snd (add_index key i d)) ≡ₚ concat (map snd d) ++ [i].
Proof.
  induction d as [|[k indices] d IH]; simpl; [done|].
  destruct (String.eqb k key); simpl.
  - rewrite <- !app_assoc. f_equiv. apply Permutation_app_comm.
  - by rewrite IH, app_assoc.
Qed.

Lemma index_keys_entries (rest : list Obs) :
  forall (i : nat) (d : list (string * list nat)),
    entries_below i d ->
    entries_below (i + length rest) (index_keys i rest d)
    /\ concat (map snd (index_keys i rest d))
       ≡ₚ concat (map snd d) ++ seq i (length rest).
Proof.
  induction rest as [|obs rest IH]; intros i d Hd; simpl.
  - by rewrite Nat.add_0_r, app_nil_r.
  - destruct (IH (S i) (add_index (key_of obs) i d)) as [He Hc];
      [by apply add_index_entries|].
    split; [by rewrite Nat.add_succ_r|].
    rewrite Hc, add_index_concat, <- app_assoc. done.
Qed.

(** *** The clusters of the second loop *)

Lemma number_groups_clusters (observations : list Obs)
    (d : list (string * list nat)) :
  forall (c : nat) (cls : list Cluster) (m : gmap string string),
    snd (fst (fold_left (number_group observations) d (c, cls, m)))
    = cls ++ imap (cluster_at observations c) d.
Proof.
  induction d as [|[k indices] d IH]; intros c cls m; simpl.
  - by rewrite app_nil_r.
  - rewrite IH, <- app_assoc. f_equal. simpl. unfold cluster_at at 2.
    rewrite Nat.add_0_r. f_equal. apply imap_ext. intros n item _.
    unfold cluster_at. simpl. by rewrite Nat.add_succ_r.
Qed.

Lemma position_lookup (l : list string) (n : nat) (k : string) :
  NoDup l -> l !! n = Some k -> position k l = Some n.
Proof.
  revert n. induction l as [|x l IH]; intros n Hdup Hn; [done|].
  apply NoDup_cons in Hdup as [Hx Hdup]. simpl.
  destruct n as [|n]; simpl in Hn.
  - injection Hn as ->. by rewrite String.eqb_refl.
  - destruct (String.eqb_spec x k) as [->|Hne].
    + destruct Hx. by eapply list_elem_of_lookup_2.
    + by rewrite (IH n Hdup Hn).
Qed.

Lemma label_for_cluster_at (observations : list Obs)
    (d : list (string * list nat)) (n : nat) (item : string * list nat) :
  d !! n = Some item ->
  label_for (imap (cluster_at observations 0) d) (cluster_name (S n))
  = label_of observations (snd item).
Proof.
  unfold label_for.
  assert (forall c0 (d : list (string * list nat)) n item,
             d !! n = Some item ->
             List.find (fun c => String.eqb (cl_cluster_id c) (cluster_name (S (c0 + n))))
                       (imap (cluster_at observations c0) d)
             = Some (cluster_at observations c0 n item)) as Hfind.
  { clear. intros c0 d. revert c0.
    induction d as [|x d IH]; intros c0 n item Hn; [done|].
    rewrite imap_cons. cbn [List.find]. destruct n as [|n]; simpl in Hn.
    - injection Hn as ->. cbn [cluster_at cl_cluster_id].
      by rewrite String.eqb_refl.
    - cbn [cluster_at cl_cluster_id].
      destruct (String.eqb_spec (cluster_name (S (c0 + 0)))
                                (cluster_name (S (c0 + S n)))) as [Heq|_].
      + apply cluster_name_inj in Heq. lia.
      + rewrite (imap_ext _ (cluster_at observations (S c0))).
        * rewrite <- Nat.add_succ_comm. rewrite (IH (S c0) n item Hn).
          f_equal. unfold cluster_at. by rewrite <- Nat.add_succ_comm.
        * intros i y _. unfold cluster_at. simpl. by rewrite Nat.add_succ_r. }
  intros Hn. pose proof (Hfind 0 d n item Hn) as H.
  change (0 + n) with n in H. by rewrite H.
Qed.

(** *** The writes of the third loop, with the label *)

Lemma alter_keeps_cluster (c : Cluster) (res : list Obs) (i j : nat) :
  carries c res j ->
  carries c (alter (set_cluster (cl_cluster_id c) (cl_label c)) i res) j.
Proof.
  intros (r & Hr & Hcid & Hlabel). destruct (decide (i = j)) as [->|Hne].
  - exists (set_cluster (cl_cluster_id c) (cl_label c) r).
    rewrite list_lookup_alter_eq, Hr. by repeat split.
  - exists r. by rewrite list_lookup_alter_ne.
Qed.

Lemma attach_indices_cluster (c : Cluster) (indices : list nat) :
  forall (res : list Obs) (j : nat),
    carries c res j \/ j ∈ indices -> j < length res ->
    carries c
      (fold_left (fun res i => alter (set_cluster (cl_cluster_id c) (cl_label c)) i res)
                 indices res) j.
Proof.
  induction indices as [|i indices IH]; intros res j Hj Hlen; simpl.
  - destruct Hj as [Hj|Hj]; [done|by apply elem_of_nil in Hj].
  - apply IH; [|by rewrite length_alter].
    destruct Hj as [Hj|[->|Hj]%elem_of_cons].
    + left. by apply alter_keeps_cluster.
    + left. destruct (lookup_lt_is_Some_2 res i Hlen) as [r Hr].
      exists (set_cluster (cl_cluster_id c) (cl_label c) r).
      rewrite list_lookup_alter_eq, Hr. by repeat split.
    + by right.
Qed.

Lemma attach_groups_cluster (clusters : list Cluster)
    (key_to_cluster_id : gmap string string)
    (c : Cluster) (j : nat) (d : list (string * list nat)) :
  forall res : list Obs,
    (forall item, item ∈ d -> j ∈ snd item ->
                  key_to_cluster_id !!! fst item = cl_cluster_id c
                  /\ label_for clusters (cl_cluster_id c) = cl_label c) ->
    carries c res j \/ (exists item, item ∈ d /\ j ∈ snd item) ->
    j < length res ->
    carries c (fold_left (attach_group clusters key_to_cluster_id) d res) j.
Proof.
  induction d as [|item d IH]; intros res Hcid Hj Hlen; simpl.
  - destruct Hj as [Hj|(item & Hin & _)]; [done|by apply elem_of_nil in Hin].
  - apply IH.
    + intros item' Hin. apply Hcid. by right.
    + destruct (decide (j ∈ snd item)) as [Hmem|Hmem].
      * left. unfold attach_group.
        destruct (Hcid item ltac:(left) Hmem) as [-> ->].
        apply attach_indices_cluster; [by right|done].
      * destruct Hj as [(r & Hr & Hrest)|(item' & Hin & Hmem')].
        -- left. exists r. split; [|done]. unfold attach_group.
           by rewrite ClusteringFacts.attach_indices_untouched.
        -- right. exists item'. split; [|done].
           apply elem_of_cons in Hin as [->|Hin]; done.
    + by rewrite StoredFacts.length_attach_group.
Qed.

(** *** The three loops together *)

Lemma cluster_observations_unfold (observations : list Obs) :
  let d := index_keys 0 observations [] in
  cluster_observations observations
  = (fold_left (attach_group (imap (cluster_at observations 0) d)
                  (snd (fold_left (number_group observations) d (0, [], ∅))))
               d observations,
     imap (cluster_at observations 0) d).
Proof.
  intros d. unfold cluster_observations. fold d.
  destruct observations as [|o l]; [done|].
  pose proof (number_groups_clusters (o :: l) d 0 [] ∅) as Hcl.
  destruct (fold_left _ d _) as [[? cls] m]. simpl in Hcl. by subst cls.
Qed.

Lemma index_keys_shape (observations : list Obs) :
  let d := index_keys 0 observations [] in
  NoDup (map fst d)
  /\ indexes observations (length observations) d
  /\ entries_below (length observations) d
  /\ concat (map snd d) ≡ₚ seq 0 (length observations).
Proof.
  intros d. split; [|split].
  - subst d. rewrite ClusteringFacts.keys_index_keys.
    apply ClusteringFacts.first_seen_NoDup. constructor.
  - apply ClusteringFacts.index_keys_indexes; [done|]. split.
    + intros k indices j Hin. by apply elem_of_nil in Hin.
    + intros j o Hj. lia.
  - destruct (index_keys_entries observations 0 []) as [He Hc]; [constructor|].
    done.
Qed.

Lemma entry_key (observations : list Obs) (n : nat) (item : string * list nat) :
  index_keys 0 observations [] !! n = Some item ->
  group_key observations (cluster_at observations 0 n item) = Some (fst item)
  /\ Forall (fun j => key_of <$> observations !! j = Some (fst item)) (snd item).
Proof.
  intros Hn. destruct (index_keys_shape observations) as (_ & [Hkey _] & He & _).
  destruct item as [k indices]. simpl.
  assert ((k, indices) ∈ index_keys 0 observations []) as Hin
      by (by eapply list_elem_of_lookup_2).
  assert (Forall (fun j => key_of <$> observations !! j = Some k) indices) as Hall.
  { apply Forall_forall. intros j Hj. by eapply Hkey. }
  split; [|done].
  unfold entries_below in He. rewrite Forall_forall in He.
  destruct (He _ Hin) as (Hne & _). simpl in Hne.
  unfold group_key. simpl. destruct indices as [|j0 indices]; [done|].
  simpl. by apply Forall_cons in Hall as [? _].
Qed.

Lemma result_carries (observations : list Obs) (i : nat) (n : nat)
    (item : string * list nat) :
  index_keys 0 observations [] !! n = Some item -> i ∈ snd item ->
  carries (cluster_at observations 0 n item)
          (fst (cluster_observations observations)) i.
Proof.
  intros Hn Hi. rewrite cluster_observations_unfold. cbn [fst].
  set (d := index_keys 0 observations []) in *.
  destruct (index_keys_shape observations) as (Hdup & [Hkey Hcover] & _ & _).
  fold d in Hdup, Hkey, Hcover.
  destruct (entry_key observations n item Hn) as [_ Hitem].
  rewrite Forall_forall in Hitem. pose proof (Hitem i Hi) as Hki.
  pose proof (ClusteringFacts.number_groups_spec observations d 0 [] ∅)
    as (_ & _ & Hpos).
  apply attach_groups_cluster.
  - intros item' Hin' Hi'. destruct item' as [k' indices'].
    pose proof (Hkey k' indices' i Hin' Hi') as Hk'. rewrite Hki in Hk'.
    injection Hk' as <-. cbn [fst cluster_at cl_cluster_id cl_label]. split.
    + apply lookup_total_correct.
      rewrite (Hpos Hdup (fst item) n); [done|].
      apply position_lookup; [done|]. by rewrite list_lookup_fmap, Hn.
    + change (0 + n) with n. by apply label_for_cluster_at.
  - right. exists item. split; [by eapply list_elem_of_lookup_2|done].
  - destruct (observations !! i) eqn:Ho; [by eapply lookup_lt_Some|done].
Qed.

Lemma covered (observations : list Obs) (i : nat) (o : Obs) :
  observations !! i = Some o ->
  exists n indices, index_keys 0 observations [] !! n = Some (key_of o, indices)
                    /\ i ∈ indices.
Proof.
  intros Ho. destruct (index_keys_shape observations) as (_ & [_ Hcover] & _ & _).
  destruct (Hcover i o ltac:(by eapply lookup_lt_Some) Ho) as (indices & Hin & Hi).
  apply list_elem_of_lookup_1 in Hin as [n Hn]. by exists n, indices.
Qed.

(** X13.  The clusters partition the observations: every position of
    the input is in the indices of exactly one cluster; the indices of a
    cluster are not empty, increase strictly, and are positions of
    observations with one grouping key; different clusters have
    different keys and different ids. *)
Theorem clusters_partition_the_observations (observations : list Obs) :
  let clusters := snd (cluster_observations observations) in
  concat (map observation_indices clusters) ≡ₚ seq 0 (length observations)
  /\ Forall (fun c => observation_indices c <> []
                      /\ StronglySorted lt (observation_indices c)
                      /\ Forall (fun j => key_of <$> observations !! j
                                          = group_key observations c)
                                (observation_indices c))
            clusters
  /\ NoDup (map (group_key observations) clusters)
  /\ NoDup (map cl_cluster_id clusters).
Proof.
  intros clusters. subst clusters. rewrite cluster_observations_unfold. cbn [snd].
  set (d := index_keys 0 observations []).
  destruct (index_keys_shape observations) as (Hdup & _ & He & Hperm).
  fold d in Hdup, He, Hperm.
  assert (map observation_indices (imap (cluster_at observations 0) d)
          = map snd d) as Hind.
  { apply list_eq. intros n.
    rewrite !list_lookup_fmap, list_lookup_imap. by destruct (d !! n). }
  split; [by rewrite Hind|]. split; [|split].
  - apply Forall_forall. intros c (n & item & -> & Hn)%elem_of_lookup_imap.
    unfold entries_below in He. rewrite Forall_forall in He.
    destruct (He item) as (Hne & Hs & _); [by eapply list_elem_of_lookup_2|].
    destruct (entry_key observations n item Hn) as [Hg Hall].
    rewrite Hg. done.
  - assert (map (group_key observations) (imap (cluster_at observations 0) d)
            = map Some (map fst d)) as ->.
    { apply list_eq. intros n.
      rewrite !list_lookup_fmap, list_lookup_imap.
      destruct (d !! n) as [item|] eqn:Hn; [|done]. simpl.
      by destruct (entry_key observations n item Hn) as [-> _]. }
    apply NoDup_fmap_2; [|done]. by intros ? ? [= ->].
  - apply NoDup_alt. intros n1 n2 cid.
    rewrite !list_lookup_fmap, !list_lookup_imap.
    destruct (d !! n1) as [item1|]; [|done].
    destruct (d !! n2) as [item2|]; [|done].
    change (Some (cluster_name (S (0 + n1))) = Some cid ->
            Some (cluster_name (S (0 + n2))) = Some cid -> n1 = n2).
    intros H1 H2. rewrite <- H2 in H1. apply (inj Some) in H1.
    apply cluster_name_inj in H1. lia.
Qed.

(** X14.  The two results agree: every observation listed in the
    indices of a cluster carries the id and the label of that cluster,
    and every observation returned carries the id and the label of one
    of the clusters returned. *)
Theorem observations_carry_their_cluster (observations : list Obs) :
  let result := fst (cluster_observations observations) in
  let clusters := snd (cluster_observations observations) in
  Forall (fun c => Forall (carries c result) (observation_indices c)) clusters
  /\ Forall (fun r => exists c, c ∈ clusters /\ cluster_id r = Some (cl_cluster_id c)
                                /\ cluster_label r = Some (cl_label c))
            result.
Proof.
  intros result clusters.
  assert (clusters = imap (cluster_at observations 0)
                          (index_keys 0 observations [])) as Hcl
      by (subst clusters; by rewrite cluster_observations_unfold).
  split.
  - rewrite Hcl. apply Forall_forall.
    intros c (n & item & -> & Hn)%elem_of_lookup_imap.
    apply Forall_forall. intros j Hj. by apply result_carries.
  - apply Forall_forall. intros r [i Hr]%list_elem_of_lookup_1.
    assert (length result = length observations) as Hlen.
    { pose proof (StoredFacts.cluster_keeps observations) as H.
      symmetry. by eapply Forall2_length. }
    destruct (lookup_lt_is_Some_2 observations i) as [o Ho];
      [rewrite <- Hlen; by eapply lookup_lt_Some|].
    destruct (covered observations i o Ho) as (n & indices & Hn & Hi).
    destruct (result_carries observations i n _ Hn Hi) as (r' & Hr' & Hid & Hlab).
    fold result in Hr'. rewrite Hr in Hr'. injection Hr' as <-.
    exists (cluster_at observations 0 n (key_of o, indices)).
    split; [|done]. rewrite Hcl. by apply elem_of_lookup_imap_2.
Qed.

(** X15.  Two observations are given the same cluster id exactly when
    they have the same grouping key. *)
Theorem same_cluster_iff_same_key (observations : list Obs) (i j : nat)
    (oi oj ri rj : Obs) :
  observations !! i = Some oi -> observations !! j = Some oj ->
  fst (cluster_observations observations) !! i = Some ri ->
  fst (cluster_observations observations) !! j = Some rj ->
  cluster_id ri = cluster_id rj <-> key_of oi = key_of oj.
Proof.
  intros Hoi Hoj Hri Hrj.
  destruct (covered observations i oi Hoi) as (n & ind & Hn & Hi).
  destruct (covered observations j oj Hoj) as (m & ind' & Hm & Hj).
  destruct (result_carries observations i n _ Hn Hi) as (r & Hr & Hid & _).
  rewrite Hri in Hr. injection Hr as <-.
  destruct (result_carries observations j m _ Hm Hj) as (r & Hr & Hid' & _).
  rewrite Hrj in Hr. injection Hr as <-.
  rewrite Hid, Hid'. cbn [cluster_at cl_cluster_id].
  destruct (index_keys_shape observations) as (Hdup & _).
  split.
  - intros Heq. apply (inj Some), cluster_name_inj in Heq.
    assert (n = m) as -> by lia. rewrite Hn in Hm. by injection Hm.
  - intros Hk. assert (n = m) as ->; [|done].
    eapply NoDup_lookup; [exact Hdup| |].
    + by rewrite list_lookup_fmap, Hn.
    + by rewrite list_lookup_fmap, Hm, Hk.
Qed.

Lemma same_cluster_iff_same_key_witness :
  let observations := [finding "Kitchen" "leak under sink";
                       finding "Bath" "Visible damp";
                       finding " kitchen" "Leak under sink"] in
  let result := fst (cluster_observations observations) in
  cluster_id (nth 0 result empty_obs) = cluster_id (nth 2 result empty_obs)
  <-> key_of (nth 0 observations empty_obs) = key_of (nth 2 observations empty_obs).
Proof.
  intros observations result.
  apply (same_cluster_iff_same_key observations 0 2); reflexivity.
Defined.

(** *** The separator of the key *)

Lemma normalize_no_bar (s : string) : no_bar s -> no_bar (_normalize s).
Proof.
  unfold no_bar, _normalize. intros Hs.
  destruct (negb (PyStr.truthy s) || negb (PyStr.truthy (PyStr.strip s)));
    [done|].
  assert (TemperatureMoreSpec.any_char (Ascii.eqb "|") (PyStr.strip s) = false)
    as Hstrip.
  { rewrite TemperatureMore.any_char_strip; [done|].
    intros c Hc. destruct (Ascii.eqb_spec "|" c) as [<-|]; [|done].
    by vm_compute in Hc. }
  revert Hstrip. unfold PyStr.lower.
  induction (PyStr.strip s) as [|c t IH]; [done|].
  cbn [PyStr.map_chars TemperatureMoreSpec.any_char].
  intros [Hc Ht]%orb_false_iff. rewrite (IH Ht), orb_false_r.
  revert Hc. destruct c as [[] [] [] [] [] [] [] []]; vm_compute; congruence.
Qed.

Lemma app_bar_inj (a1 a2 t1 t2 : string) :
  no_bar a1 -> no_bar a2 ->
  (a1 ++ "|" ++ t1)%string = (a2 ++ "|" ++ t2)%string -> a1 = a2 /\ t1 = t2.
Proof.
  unfold no_bar. revert a2.
  induction a1 as [|x a1 IH]; intros [|y a2] H1 H2;
    repeat first [rewrite PyStrFacts.append_empty
                 |rewrite PyStrFacts.append_String];
    cbn [TemperatureMoreSpec.any_char] in H1, H2.
  - by intros [= ->].
  - intros [= <- _]. by rewrite Ascii.eqb_refl in H2.
  - intros [= -> _]. by rewrite Ascii.eqb_refl in H1.
  - apply orb_false_iff in H1 as [_ H1]. apply orb_false_iff in H2 as [_ H2].
    intros [= -> Heq]. destruct (IH a2 H1 H2 Heq) as [-> ->]. done.
Qed.

(** X26.  For areas without a vertical bar, two observations have the
    same grouping key exactly when their normalised areas are equal and
    their normalised issue texts are equal. *)
Theorem same_key_iff_same_area_and_issue (o1 o2 : Obs) :
  no_bar (get area o1) -> no_bar (get area o2) ->
  key_of o1 = key_of o2
  <-> _normalize (get area o1) = _normalize (get area o2)
      /\ _normalize (issue_text o1) = _normalize (issue_text o2).
Proof.
  intros H1 H2.
  change (key_of o1)
    with (_normalize (get area o1) ++ "|" ++ _normalize (issue_text o1))%string.
  change (key_of o2)
    with (_normalize (get area o2) ++ "|" ++ _normalize (issue_text o2))%string.
  split.
  - apply app_bar_inj; by apply normalize_no_bar.
  - by intros [-> ->].
Qed.

Lemma same_key_iff_same_area_and_issue_witness :
  key_of (finding " Kitchen" "Leak under sink")
  = key_of (finding "kitchen" "leak under sink ")
  <-> _normalize " Kitchen" = _normalize "kitchen"
      /\ _normalize "Leak under sink" = _normalize "leak under sink ".
Proof.
  apply (same_key_iff_same_area_and_issue
           (finding " Kitchen" "Leak under sink")
           (finding "kitchen" "leak under sink ")); reflexivity.
Defined.

End ClusteringMore.

(** ** Urgency, further *)

Module UrgencyMore.
Import Urgency UrgencyMoreSpec.

Local Open Scope Z_scope.

Lemma scan_severity_level (text : string) (score : Z) :
  0 <= score -> scan_severity text score = Z.max score (severity_level [text]).
Proof.
  intros Hs. unfold scan_severity, severity_level, mentions, SEVERITY_KEYWORDS.
  cbn [fold_left existsb].
  destruct (PyStr.contains "critical" text), (PyStr.contains "severe" text),
    (PyStr.contains "immediate" text), (PyStr.contains "urgent" text),
    (PyStr.contains "high" text), (PyStr.contains "significant" text),
    (PyStr.contains "moderate" text), (PyStr.contains "low" text),
    (PyStr.contains "minor" text), (PyStr.contains "cosmetic" text);
    cbv [orb]; cbv iota; lia.
Qed.

Lemma mentions_cons (kws : list string) (t : string) (texts : list string) :
  mentions kws (t :: texts) = mentions kws [t] || mentions kws texts.
Proof. unfold mentions. cbn [existsb]. by rewrite orb_false_r. Qed.

Lemma severity_level_bounds (texts : list string) : 0 <= severity_level texts <= 2.
Proof. unfold severity_level. repeat destruct (mentions _ _); lia. Qed.

Lemma severity_level_cons (t : string) (texts : list string) :
  severity_level (t :: texts) = Z.max (severity_level [t]) (severity_level texts).
Proof.
  unfold severity_level.
  rewrite (mentions_cons _ t texts), (mentions_cons ["urgent"; _; _] t texts).
  repeat destruct (mentions _ _); cbn [orb]; lia.
Qed.

Lemma scan_mentions (l : list string) :
  forall score, 0 <= score ->
    fold_left (fun sc s => scan_severity (_normalize s) sc) l score
    = Z.max score (severity_level (map _normalize l)).
Proof.
  induction l as [|s l IH]; intros score Hs; cbn [fold_left map].
  - unfold severity_level, mentions. cbn. lia.
  - rewrite scan_severity_level by done.
    pose proof (severity_level_bounds [_normalize s]).
    rewrite IH by lia.
    rewrite (severity_level_cons (_normalize s) (map _normalize l)). lia.
Qed.

(** X16.  The severity boost is 2 when the description or a severity
    mention contains critical, severe or immediate, else 1 when one
    contains urgent, high or significant, else 0: the entries of the
    table with a boost of 0 or less never change it. *)
Theorem severity_boost_by_keywords (obs : Obs) (severity_mentions : list string) :
  _observation_urgency_from_severity obs severity_mentions
  = severity_level (texts_of obs severity_mentions).
Proof.
  unfold _observation_urgency_from_severity, texts_of. cbv zeta.
  rewrite scan_severity_level by done.
  pose proof (severity_level_bounds [_normalize (get description obs)]).
  rewrite scan_mentions by lia. cbn [map].
  rewrite (severity_level_cons (_normalize (get description obs))
                               (map _normalize severity_mentions)).
  pose proof (severity_level_bounds (map _normalize severity_mentions)). lia.
Qed.

Lemma mentions_mono (kws texts texts' : list string) :
  texts ⊆ texts' -> mentions kws texts = true -> mentions kws texts' = true.
Proof.
  unfold mentions. rewrite !existsb_exists. intros Hsub (t & Hin & Ht).
  exists t. split; [|done]. apply list_elem_of_In, Hsub, list_elem_of_In, Hin.
Qed.

Lemma severity_level_mono (texts texts' : list string) :
  texts ⊆ texts' -> severity_level texts <= severity_level texts'.
Proof.
  intros Hsub. unfold severity_level.
  pose proof (mentions_mono ["critical"; "severe"; "immediate"] _ _ Hsub).
  pose proof (mentions_mono ["urgent"; "high"; "significant"] _ _ Hsub).
  repeat destruct (mentions _ _); try lia; naive_solver.
Qed.

(** X17.  Severity mentions only raise a score: with every mention of
    one list among those of another, in any order and number, the
    urgency score with the first list is at most that with the second. *)
Theorem more_mentions_never_lower (obs : Obs) (mentions1 mentions2 : list string)
    (temperature_analysis : option Temperature.TemperatureAnalysis) :
  mentions1 ⊆ mentions2 ->
  exists s1 s2,
    urgency_score (scored mentions1 temperature_analysis obs) = Some s1
    /\ urgency_score (scored mentions2 temperature_analysis obs) = Some s2
    /\ s1 <= s2.
Proof.
  intros Hsub. rewrite !UrgencyFacts.urgency_score_scored.
  eexists _, _. split; [done|]. split; [done|].
  rewrite !severity_boost_by_keywords.
  assert (texts_of obs mentions1 ⊆ texts_of obs mentions2) as Ht.
  { unfold texts_of. intros t (x & -> & Hx)%list_elem_of_fmap.
    apply list_elem_of_fmap. exists x. split; [done|].
    apply elem_of_cons in Hx as [->|Hx]; [left|right; by apply Hsub]. }
  pose proof (severity_level_mono _ _ Ht). unfold UrgencySpec.clamp. lia.
Qed.

Lemma more_mentions_never_lower_witness :
  ["minor"] ⊆ ["minor"; "severe"]
  /\ exists s1 s2,
       urgency_score (scored ["minor"] None (finding "Hall" "crack")) = Some s1
       /\ urgency_score (scored ["minor"; "severe"] None (finding "Hall" "crack"))
          = Some s2
       /\ s1 <= s2.
Proof.
  assert (["minor"] ⊆ ["minor"; "severe"]) as H
      by (intros x ->%list_elem_of_singleton; left).
  split; [exact H|]. exact (more_mentions_never_lower _ _ _ None H).
Defined.

(** X18.  The score is the sum of the three components capped at 5, so
    never below the base of the issue type; and the reason is routine
    finding exactly when there is no severity boost, no thermal boost
    and a base of at most 3. *)
Theorem routine_finding_iff (obs : Obs) (severity_mentions : list string)
    (temperature_analysis : option Temperature.TemperatureAnalysis) :
  let base := _observation_urgency_from_issue_type obs in
  let sev := _observation_urgency_from_severity obs severity_mentions in
  let thermal := _thermal_anomaly_boost obs temperature_analysis in
  let r := scored severity_mentions temperature_analysis obs in
  urgency_score r = Some (Z.min 5 (base + sev + thermal))
  /\ base <= Z.min 5 (base + sev + thermal)
  /\ (urgency_reason r = Some "routine finding"
      <-> sev = 0 /\ thermal = 0 /\ base <= 3).
Proof.
  intros base sev thermal r.
  pose proof (UrgencyFacts.issue_type_base_bounds obs) as Hb.
  pose proof (UrgencyFacts.severity_boost_bounds obs severity_mentions) as Hs.
  pose proof (UrgencyFacts.thermal_boost_bounds obs temperature_analysis) as Ht.
  fold base in Hb. fold sev in Hs. fold thermal in Ht.
  split; [|split; [lia|]].
  - subst r. rewrite UrgencyFacts.urgency_score_scored.
    fold base sev thermal. unfold UrgencySpec.clamp. f_equal. lia.
  - subst r. unfold scored. fold base sev thermal. cbv zeta.
    cbn [urgency_reason set_urgency].
    destruct (Z.ltb_spec 0 sev), (Z.ltb_spec 0 thermal), (Z.leb_spec 4 base);
      cbn [app join];
      (split; [intros Heq; first [discriminate Heq|lia]
              |intros (? & ? & ?); first [lia|reflexivity]]).
Qed.

(** *** Normalising twice *)

Lemma isspace_lower (c : ascii) : PyStr.isspace (PyStr.lower_char c) = PyStr.isspace c.
Proof. destruct c as [[] [] [] [] [] [] [] []]; reflexivity. Qed.

Lemma lower_lower (c : ascii) :
  PyStr.lower_char (PyStr.lower_char c) = PyStr.lower_char c.
Proof. destruct c as [[] [] [] [] [] [] [] []]; reflexivity. Qed.

Lemma lstrip_lower (s : string) :
  PyStr.lstrip (PyStr.lower s) = PyStr.lower (PyStr.lstrip s).
Proof.
  unfold PyStr.lower. induction s as [|c s IH]; [done|].
  cbn [PyStr.map_chars PyStr.lstrip]. rewrite isspace_lower.
  by destruct (PyStr.isspace c).
Qed.

Lemma rstrip_lower (s : string) :
  PyStr.rstrip (PyStr.lower s) = PyStr.lower (PyStr.rstrip s).
Proof.
  unfold PyStr.lower. induction s as [|c s IH]; [done|].
  cbn [PyStr.map_chars PyStr.rstrip]. rewrite isspace_lower, IH.
  assert (PyStr.truthy (PyStr.map_chars PyStr.lower_char (PyStr.rstrip s))
          = PyStr.truthy (PyStr.rstrip s)) as -> by (by destruct (PyStr.rstrip s)).
  by destruct (PyStr.isspace c && negb (PyStr.truthy (PyStr.rstrip s))).
Qed.

Lemma rstrip_rstrip (s : string) : PyStr.rstrip (PyStr.rstrip s) = PyStr.rstrip s.
Proof.
  induction s as [|c s IH]; [done|]. cbn [PyStr.rstrip].
  destruct (PyStr.isspace c && negb (PyStr.truthy (PyStr.rstrip s))) eqn:E; [done|].
  cbn [PyStr.rstrip]. by rewrite IH, E.
Qed.

Lemma lstrip_head (s : string) :
  PyStr.lstrip s = EmptyString
  \/ exists c t, PyStr.lstrip s = String c t /\ PyStr.isspace c = false.
Proof.
  induction s as [|c s IH]; [by left|]. cbn [PyStr.lstrip].
  destruct (PyStr.isspace c) eqn:E; [done|]. right. by exists c, s.
Qed.

Lemma strip_strip (s : string) : PyStr.strip (PyStr.strip s) = PyStr.strip s.
Proof.
  unfold PyStr.strip.
  assert (PyStr.lstrip (PyStr.rstrip (PyStr.lstrip s))
          = PyStr.rstrip (PyStr.lstrip s)) as ->; [|apply rstrip_rstrip].
  destruct (lstrip_head s) as [->|(c & t & -> & Hc)]; [done|].
  cbn [PyStr.rstrip]. rewrite Hc. cbn [andb PyStr.lstrip]. by rewrite Hc.
Qed.

Lemma normalize_normalize (s : string) : _normalize (_normalize s) = _normalize s.
Proof.
  unfold _normalize, PyStr.strip.
  rewrite lstrip_lower, rstrip_lower.
  fold (PyStr.strip s). fold (PyStr.strip (PyStr.strip s)). rewrite strip_strip.
  unfold PyStr.lower. induction (PyStr.strip s) as [|c t IH]; [done|].
  cbn [PyStr.map_chars]. by rewrite lower_lower, IH.
Qed.

(** X19.  The thermal boost is 1 exactly when the analysis has an
    anomalous reading whose location matches the area of the
    observation, and 0 exactly when it has none; normalising the area a
    second time, as the code does, changes nothing. *)
Theorem thermal_boost_iff (obs : Obs)
    (temperature_analysis : option Temperature.TemperatureAnalysis) :
  (_thermal_anomaly_boost obs temperature_analysis = 1
   <-> exists ta r, temperature_analysis = Some ta
                    /\ r ∈ Temperature.readings ta /\ anomaly_in_area obs r)
  /\ (_thermal_anomaly_boost obs temperature_analysis = 0
      <-> ~ exists ta r, temperature_analysis = Some ta
                         /\ r ∈ Temperature.readings ta
                         /\ anomaly_in_area obs r).
Proof.
  set (matches := anomaly_in_area obs).
  assert (forall s, PyStr.truthy (_normalize s) = true
                    <-> PyStr.strip s <> EmptyString) as Htruthy.
  { intros s. unfold _normalize, PyStr.lower.
    destruct (PyStr.strip s); cbn; split; done. }
  assert (forall r, Temperature.anomaly r
                    && _location_matches_reading (Temperature.location r)
                         (_normalize (get area obs)) = true
                    <-> matches r) as Hmatch.
  { intros r. subst matches. unfold anomaly_in_area.
    unfold _location_matches_reading. rewrite normalize_normalize. cbv zeta.
    rewrite andb_true_iff, <- !Htruthy.
    destruct (PyStr.truthy (_normalize (Temperature.location r)));
      destruct (PyStr.truthy (_normalize (get area obs))); cbn [negb orb];
      rewrite ?orb_true_iff; naive_solver. }
  assert (_thermal_anomaly_boost obs temperature_analysis = 1
          <-> exists ta r, temperature_analysis = Some ta
                           /\ r ∈ Temperature.readings ta /\ matches r) as H1.
  { unfold _thermal_anomaly_boost. destruct temperature_analysis as [ta|].
    - cbv zeta. destruct (existsb _ _) eqn:E.
      + split; [intros _|done]. apply existsb_exists in E as (r & Hin & Hr).
        exists ta, r. split; [done|]. split; [by apply list_elem_of_In|].
        by apply Hmatch.
      + split; [done|]. intros (ta' & r & [= <-] & Hin & Hr).
        assert (existsb (fun r => Temperature.anomaly r
                   && _location_matches_reading (Temperature.location r)
                        (_normalize (get area obs)))
                  (Temperature.readings ta) = true) as E'.
        { apply existsb_exists. exists r. split; [by apply list_elem_of_In|].
          by apply Hmatch. }
        congruence.
    - split; [done|]. by intros (ta & r & Hta & _). }
  split; [exact H1|].
  pose proof (UrgencyFacts.thermal_boost_bounds obs temperature_analysis).
  rewrite <- H1. lia.
Qed.

End UrgencyMore.

(** ** The stages of src/pipeline.py, composed *)

Module PipelineMore.
Import PipelineMoreSpec.

Lemma urgency_beside_clustering (severity_mentions : list string)
    (temperature_analysis : option Temperature.TemperatureAnalysis) :
  beside_clustering (Urgency.scored severity_mentions temperature_analysis).
Proof. split; [by intros o|]. by intros cid label o. Qed.

Lemma confidence_beside_clustering (conflict_set : gset (string * string)) :
  beside_clustering (Confidence.scored conflict_set).
Proof.
  split.
  - intros o. unfold Confidence.scored. by destruct (Confidence.rate _ o).
  - intros cid label o. unfold Confidence.scored.
    change (Confidence.rate conflict_set (set_cluster cid label o))
      with (Confidence.rate conflict_set o).
    by destruct (Confidence.rate _ o).
Qed.

Lemma scored_commute (severity_mentions : list string)
    (temperature_analysis : option Temperature.TemperatureAnalysis)
    (conflict_set : gset (string * string)) (o : Obs) :
  Confidence.scored conflict_set
    (Urgency.scored severity_mentions temperature_analysis o)
  = Urgency.scored severity_mentions temperature_analysis
      (Confidence.scored conflict_set o).
Proof.
  unfold Confidence.scored.
  change (Confidence.rate conflict_set
            (Urgency.scored severity_mentions temperature_analysis o))
    with (Confidence.rate conflict_set o).
  by destruct (Confidence.rate _ o).
Qed.

(** X20.  Urgency scoring and confidence scoring do not depend on each
    other: scoring urgency and then confidence gives the observations
    that scoring confidence and then urgency gives. *)
Theorem scoring_stages_commute (observations : list Obs)
    (severity_mentions : list string)
    (temperature_analysis : option Temperature.TemperatureAnalysis)
    (conflicts : option (list Merger.Conflict)) :
  Confidence.score_confidence
    (Urgency.score_urgency observations severity_mentions temperature_analysis)
    conflicts
  = Urgency.score_urgency (Confidence.score_confidence observations conflicts)
      severity_mentions temperature_analysis.
Proof.
  unfold Confidence.score_confidence, Urgency.score_urgency.
  rewrite !map_map. apply map_ext. intros o. apply scored_commute.
Qed.

Section Beside.
Import Clustering ClusteringMoreSpec.
Variable f : Obs -> Obs.
Hypothesis Hf : beside_clustering f.

Lemma key_of_beside (o : Obs) : key_of (f o) = key_of o.
Proof.
  destruct Hf as [Hfields _]. destruct (Hfields o) as (Ha & Hd & Hi).
  unfold key_of, get. by rewrite Ha, Hd, Hi.
Qed.

Lemma index_keys_beside (observations : list Obs) :
  forall i d, index_keys i (map f observations) d = index_keys i observations d.
Proof.
  induction observations as [|o l IH]; intros i d; [done|].
  cbn [map index_keys]. by rewrite key_of_beside, IH.
Qed.

Lemma label_of_beside (observations : list Obs) (indices : list nat) :
  label_of (map f observations) indices = label_of observations indices.
Proof.
  destruct Hf as [Hfields _]. unfold label_of. cbv zeta.
  rewrite !nth_lookup, list_lookup_fmap.
  destruct (observations !! hd 0 indices) as [o|]; [|done].
  cbn [fmap option_fmap option_map default from_option id].
  destruct (Hfields o) as (Ha & _ & Hi). unfold get. by rewrite Ha, Hi.
Qed.

Lemma number_groups_beside (observations : list Obs)
    (d : list (string * list nat)) :
  forall st, fold_left (number_group (map f observations)) d st
             = fold_left (number_group observations) d st.
Proof.
  induction d as [|item d IH]; intros st; [done|]. cbn [fold_left].
  rewrite IH. f_equal. destruct st as [[c cls] m], item as [k indices].
  unfold number_group. by rewrite label_of_beside.
Qed.

Lemma attach_groups_beside (clusters : list Cluster) (m : gmap string string)
    (d : list (string * list nat)) :
  forall res, fold_left (attach_group clusters m) d (map f res)
              = map f (fold_left (attach_group clusters m) d res).
Proof.
  destruct Hf as [_ Hset].
  induction d as [|item d IH]; intros res; [done|]. cbn [fold_left].
  rewrite <- IH. f_equal. unfold attach_group.
  generalize (m !!! fst item) as cid. intros cid.
  generalize (label_for clusters cid) as label. intros label.
  generalize (snd item) as indices. intros indices. revert res.
  induction indices as [|i indices IHi]; intros res; [done|]. cbn [fold_left].
  rewrite <- IHi. f_equal. symmetry. apply list_fmap_alter.
  apply Forall_forall. intros o _. apply Hset.
Qed.

Lemma cluster_observations_beside (observations : list Obs) :
  cluster_observations (map f observations)
  = (map f (fst (cluster_observations observations)),
     snd (cluster_observations observations)).
Proof.
  rewrite !ClusteringMore.cluster_observations_unfold. cbn [fst snd].
  rewrite index_keys_beside, number_groups_beside.
  assert (imap (cluster_at (map f observations) 0) (index_keys 0 observations [])
          = imap (cluster_at observations 0) (index_keys 0 observations []))
    as ->.
  { apply imap_ext. intros n item _. unfold cluster_at.
    by rewrite label_of_beside. }
  by rewrite attach_groups_beside.
Qed.

End Beside.

(** X21.  Clustering and scoring do not depend on each other: the
    clusters of scored observations are the clusters of the unscored
    ones, and clustering scored observations gives the observations
    that scoring the clustered ones gives, for urgency and for
    confidence. *)
Theorem clustering_commutes_with_scoring (observations : list Obs)
    (severity_mentions : list string)
    (temperature_analysis : option Temperature.TemperatureAnalysis)
    (conflicts : option (list Merger.Conflict)) :
  Clustering.cluster_observations
    (Urgency.score_urgency observations severity_mentions temperature_analysis)
  = (Urgency.score_urgency (fst (Clustering.cluster_observations observations))
       severity_mentions temperature_analysis,
     snd (Clustering.cluster_observations observations))
  /\ Clustering.cluster_observations
       (Confidence.score_confidence observations conflicts)
     = (Confidence.score_confidence
          (fst (Clustering.cluster_observations observations)) conflicts,
        snd (Clustering.cluster_observations observations)).
Proof.
  split.
  - apply (cluster_observations_beside _ (urgency_beside_clustering _ _)).
  - apply (cluster_observations_beside _ (confidence_beside_clustering _)).
Qed.

End PipelineMore.

(** ** Root causes *)

Module RootCauseFacts.
Import RootCause RootCauseSpec.

Lemma index_inferences_lookup (k : Z) (inferences : list Inference) :
  forall (i : nat) (m : gmap Z Inference),
    index_inferences i inferences m !! k
    = match inference_for k i inferences with
      | Some inf => Some inf
      | None => m !! k
      end.
Proof.
  induction inferences as [|inf rest IH]; intros i m; [done|].
  cbn [index_inferences inference_for]. rewrite IH.
  destruct (inference_for k (S i) rest); [done|].
  unfold key_at. destruct (decide (default (Z.of_nat i) (inf_index inf) = k)) as [<-|Hne].
  - by rewrite bool_decide_eq_true_2, lookup_insert_eq.
  - by rewrite bool_decide_eq_false_2, lookup_insert_ne.
Qed.


Lemma infer_root_causes_imap (observations : list Obs)
    (inferences : option (list Inference)) :
  infer_root_causes observations inferences
  = imap (attach (index_inferences 0 (default [] inferences) ∅)) observations.
Proof. by destruct observations. Qed.


(** X23.  The observation at position [i] is given the last inference
    of the reply stored under [i], an inference without an index being
    stored under its own position: its evidence is that inference's, or
    none, and its root cause is the one that inference states, or the
    default text when it states none or one that is not determinable.
    The comparison with the text Not determinable from data adds
    nothing to the test on the lowered text. *)
Theorem last_inference_for_an_index_wins (observations : list Obs)
    (inferences : option (list Inference)) (i : nat) (obs : Obs) :
  observations !! i = Some obs ->
  exists r,
    infer_root_causes observations inferences !! i = Some r
    /\ let inf := inference_for (Z.of_nat i) 0 (default [] inferences) in
       evidence r = default [] (inf ≫= inf_evidence)
       /\ root_cause r
          = if PyStr.contains "not determinable" (PyStr.lower (stated inf))
            then DEFAULT_ROOT_CAUSE else stated inf.
Proof.
  intros Ho. rewrite infer_root_causes_imap, list_lookup_imap, Ho.
  eexists. split; [done|]. cbv zeta. unfold attach. cbv zeta.
  cbn [evidence root_cause].
  rewrite index_inferences_lookup, lookup_empty.
  destruct (inference_for (Z.of_nat i) 0 (default [] inferences)) as [inf|];
    cbn [default from_option id mbind option_bind stated].
  - split; [done|].
    assert ((if PyStr.truthy (default EmptyString (inf_root_cause inf))
             then default EmptyString (inf_root_cause inf)
             else DEFAULT_ROOT_CAUSE)
            = match inf_root_cause inf with
              | Some rc => if PyStr.truthy rc then rc else DEFAULT_ROOT_CAUSE
              | None => DEFAULT_ROOT_CAUSE
              end) as -> by (by destruct (inf_root_cause inf)).
    set (rc := match inf_root_cause inf with Some _ => _ | None => _ end).
    destruct (PyStr.contains "not determinable" (PyStr.lower rc)) eqn:E; [done|].
    cbn [orb].
    destruct (String.eqb_spec rc "Not determinable from data") as [Heq|_]; [|done].
    rewrite Heq in E. by vm_compute in E.
  - split; [done|]. by vm_compute.
Qed.

Lemma last_inference_for_an_index_wins_witness :
  let observations := [finding "Hall" "crack"; finding "Bath" "damp"] in
  let inferences :=
    Some [mkInference None (Some "settlement") None;
          mkInference (Some 0%Z) (Some "Not determinable yet") (Some ["photo 3"]);
          mkInference (Some 7%Z) (Some "condensation") None] in
  exists r,
    infer_root_causes observations inferences !! 0 = Some r
    /\ evidence r = ["photo 3"] /\ root_cause r = DEFAULT_ROOT_CAUSE.
Proof.
  intros observations inferences.
  destruct (last_inference_for_an_index_wins observations inferences 0
              (finding "Hall" "crack") eq_refl) as (r & Hr & He & Hrc).
  exists r. split; [exact Hr|]. split; [exact He|exact Hrc].
Defined.

End RootCauseFacts.

(** ** Text normalisation *)

Module ParserFacts.
Import Parser ParserSpec TemperatureMoreSpec.

Lemma prefix_cons (a b : ascii) (p s : string) :
  String.prefix (String a p) (String b s) = Ascii.eqb a b && String.prefix p s.
Proof.
  cbn [String.prefix]. destruct (Ascii.eqb_spec a b) as [->|Hne].
  - by destruct (ascii_dec b b).
  - by destruct (ascii_dec a b).
Qed.

Lemma contains_cons (q : string) (a : ascii) (s : string) :
  PyStr.contains q (String a s)
  = String.prefix q (String a s) || PyStr.contains q s.
Proof. reflexivity. Qed.

Lemma prefix_rep (c : ascii) (n : nat) :
  forall s, String.prefix (rep c n) s = (n <=? lead c s)%nat.
Proof.
  induction n as [|n IH]; intros s.
  - by destruct s.
  - destruct s as [|a s]; [done|]. cbn [rep lead]. rewrite prefix_cons, IH.
    rewrite (Ascii.eqb_sym c a). by destruct (Ascii.eqb a c).
Qed.

Lemma lead_rep_app (c : ascii) (k : nat) (s : string) :
  lead c (rep c k ++ s) = k + lead c s.
Proof.
  induction k as [|k IH]; [done|].
  cbn [rep]. rewrite PyStrFacts.append_String. cbn [lead].
  by rewrite Ascii.eqb_refl, IH.
Qed.

Section Runs.
Variable c : ascii.
Variables n k : nat.
Hypothesis Hkn : k < n.

Lemma sub_run_cons (b : bool) (a : ascii) (s : string) :
  sub_run c (rep c n) (rep c k) b (String a s)
  = if b && Ascii.eqb a c then sub_run c (rep c n) (rep c k) true s
    else if (n <=? lead c (String a s))%nat
         then (rep c k ++ sub_run c (rep c n) (rep c k) true s)%string
         else String a (sub_run c (rep c n) (rep c k) false s).
Proof. cbn [sub_run]. by rewrite prefix_rep. Qed.

Lemma lead_sub_true (s : string) :
  lead c (sub_run c (rep c n) (rep c k) true s) = 0.
Proof.
  induction s as [|a s IH]; [done|]. rewrite sub_run_cons. cbn [andb lead].
  destruct (Ascii.eqb a c) eqn:E; [done|].
  destruct (Nat.leb_spec n 0); [lia|]. cbn [lead]. by rewrite E.
Qed.

Lemma lead_sub_false (s : string) :
  lead c (sub_run c (rep c n) (rep c k) false s)
  = if (n <=? lead c s)%nat then k else lead c s.
Proof.
  induction s as [|a s IH].
  - cbn. destruct (Nat.leb_spec n 0); [lia|done].
  - rewrite sub_run_cons. cbn [andb].
    destruct (Nat.leb_spec n (lead c (String a s))) as [Hle|Hlt].
    + by rewrite lead_rep_app, lead_sub_true, Nat.add_0_r.
    + cbn [lead] in *. destruct (Ascii.eqb a c); [|done].
      rewrite IH. destruct (Nat.leb_spec n (lead c s)); [lia|done].
Qed.

Lemma contains_rep_app (j : nat) (s : string) :
  j < n -> lead c s = 0 ->
  PyStr.contains (rep c n) (rep c j ++ s) = PyStr.contains (rep c n) s.
Proof.
  intros Hj Hs. induction j as [|j IH]; [done|].
  cbn [rep]. rewrite PyStrFacts.append_String, contains_cons, prefix_rep.
  change (String c (rep c j ++ s)) with (rep c (S j) ++ s)%string.
  rewrite lead_rep_app, Hs.
  destruct (Nat.leb_spec n (S j + 0)); [lia|]. cbn [orb]. apply IH. lia.
Qed.

(** The result has no run of [n]. *)
Lemma no_run_sub (s : string) :
  forall b, PyStr.contains (rep c n) (sub_run c (rep c n) (rep c k) b s) = false.
Proof.
  assert (PyStr.contains (rep c n) EmptyString = false) as Hnil.
  { cbn [PyStr.contains]. rewrite prefix_rep. cbn [lead].
    destruct (Nat.leb_spec n 0); [lia|done]. }
  induction s as [|a s IH]; intros b; [exact Hnil|].
  rewrite sub_run_cons. destruct (b && Ascii.eqb a c) eqn:Hb; [apply IH|].
  destruct (Nat.leb_spec n (lead c (String a s))) as [Hle|Hlt].
  - rewrite contains_rep_app; [apply IH|done|apply lead_sub_true].
  - rewrite contains_cons, IH, orb_false_r, prefix_rep.
    cbn [lead] in *. destruct (Ascii.eqb a c).
    + rewrite lead_sub_false. destruct (Nat.leb_spec n (lead c s)); [lia|].
      destruct (Nat.leb_spec n (S (lead c s))); [lia|done].
    + destruct (Nat.leb_spec n 0); [lia|done].
Qed.

(** A text without a run of [n] is left as it is. *)
Lemma sub_run_fixed (s : string) :
  PyStr.contains (rep c n) s = false ->
  sub_run c (rep c n) (rep c k) false s = s.
Proof.
  induction s as [|a s IH]; [done|].
  rewrite contains_cons, prefix_rep, sub_run_cons. cbn [andb].
  intros [Hp Hc]%orb_false_iff. rewrite Hp. by rewrite IH.
Qed.

Lemma any_char_rep_app (p : ascii -> bool) (j : nat) (s : string) :
  p c = false -> any_char p (rep c j ++ s) = any_char p s.
Proof.
  intros Hp. induction j as [|j IH]; [done|].
  cbn [rep]. rewrite PyStrFacts.append_String. cbn [any_char]. by rewrite Hp, IH.
Qed.

(** The characters other than [c] are those of the text. *)
Lemma any_char_sub (p : ascii -> bool) (s : string) :
  p c = false ->
  forall b, any_char p (sub_run c (rep c n) (rep c k) b s) = any_char p s.
Proof.
  intros Hp. induction s as [|a s IH]; intros b; [done|].
  rewrite sub_run_cons. cbn [any_char].
  destruct (Ascii.eqb_spec a c) as [->|Hne].
  - rewrite Hp. cbn [orb]. destruct b; cbn [andb]; [apply IH|].
    destruct (n <=? lead c (String c s))%nat.
    + by rewrite any_char_rep_app, IH.
    + cbn [any_char]. by rewrite Hp, IH.
  - rewrite andb_false_r.
    assert (lead c (String a s) = 0) as ->.
    { cbn [lead]. by destruct (Ascii.eqb_spec a c). }
    destruct (Nat.leb_spec n 0); [lia|]. cbn [any_char]. by rewrite IH.
Qed.

Hypothesis Hk : 0 < k.

(** A text [q] without [c] that starts the result starts the text. *)
Lemma prefix_sub (q : string) :
  any_char (Ascii.eqb c) q = false ->
  forall s, String.prefix q (sub_run c (rep c n) (rep c k) false s) = true ->
            String.prefix q s = true.
Proof.
  induction q as [|x q IH]; intros Hq s; [by destruct s|].
  cbn [any_char] in Hq. apply orb_false_iff in Hq as [Hx Hq].
  destruct s as [|a s]; [done|]. rewrite sub_run_cons. cbn [andb].
  destruct (n <=? lead c (String a s))%nat.
  - destruct k as [|k']; [lia|]. cbn [rep].
    rewrite PyStrFacts.append_String, prefix_cons.
    rewrite (Ascii.eqb_sym x c), Hx. done.
  - rewrite !prefix_cons. intros [Ha Hp]%andb_true_iff. rewrite Ha.
    by apply IH.
Qed.

Lemma contains_sub (q : string) :
  q <> EmptyString -> any_char (Ascii.eqb c) q = false ->
  forall s b, PyStr.contains q (sub_run c (rep c n) (rep c k) b s) = true ->
              PyStr.contains q s = true.
Proof.
  intros Hne Hq.
  assert (forall j s, PyStr.contains q (rep c j ++ s) = true ->
                      PyStr.contains q s = true) as Hrep.
  { induction j as [|j IHj]; intros s; [done|].
    cbn [rep]. rewrite PyStrFacts.append_String, contains_cons.
    destruct q as [|x q']; [done|]. rewrite prefix_cons.
    cbn [any_char] in Hq. apply orb_false_iff in Hq as [Hx _].
    rewrite (Ascii.eqb_sym x c), Hx. cbn [andb orb]. apply IHj. }
  induction s as [|a s IH]; intros b; [done|].
  rewrite sub_run_cons, (contains_cons q a s).
  destruct (b && Ascii.eqb a c).
  - intros H%IH. rewrite H. apply orb_true_r.
  - destruct (n <=? lead c (String a s))%nat eqn:Hrun.
    + intros H%Hrep%IH. rewrite H. apply orb_true_r.
    + rewrite contains_cons. intros [Hp|Hc]%orb_true_iff.
      * assert (String.prefix q (String a s) = true) as ->; [|done].
        apply prefix_sub; [done|]. rewrite sub_run_cons. cbn [andb].
        by rewrite Hrun.
      * rewrite (IH _ Hc). apply orb_true_r.
Qed.

End Runs.

Lemma contains_of_strip (q s : string) :
  PyStr.contains q (PyStr.strip s) = true -> PyStr.contains q s = true.
Proof.
  intros H. eapply PyStrMore.contains_trans; [exact H|apply PyStrMore.contains_strip].
Qed.

Lemma strip_blank (s : string) :
  PyStr.strip s = EmptyString
  <-> any_char (fun c => negb (PyStr.isspace c)) s = false.
Proof.
  rewrite <- (TemperatureMore.any_char_strip (fun c => negb (PyStr.isspace c)) s)
    by (by intros c ->).
  unfold PyStr.strip.
  destruct (UrgencyMore.lstrip_head s) as [->|(c & t & -> & Hc)]; [done|].
  cbn [PyStr.rstrip]. rewrite Hc. cbn [andb any_char]. by rewrite Hc.
Qed.

Lemma newline_text (text : string) :
  sub_run newline three_newlines two_newlines false text
  = sub_run newline (rep newline 3) (rep newline 2) false text.
Proof. reflexivity. Qed.

Lemma space_text (text : string) :
  sub_run " " "  " " " false text = sub_run " " (rep " " 2) (rep " " 1) false text.
Proof. reflexivity. Qed.

Lemma normalize_is_normal (text : string) : normal (_normalize_text text).
Proof.
  unfold _normalize_text.
  destruct (negb (PyStr.truthy text) || negb (PyStr.truthy (PyStr.strip text)));
    [done|].
  cbv zeta. rewrite newline_text, space_text. split; [|split].
  - destruct (PyStr.contains three_newlines (PyStr.strip _)) eqn:E; [|done].
    apply contains_of_strip in E.
    apply (contains_sub " " 2 1 ltac:(lia) ltac:(lia) three_newlines) in E;
      [|done|done].
    change three_newlines with (rep newline 3) in E.
    by rewrite no_run_sub in E by lia.
  - destruct (PyStr.contains "  " (PyStr.strip _)) eqn:E; [|done].
    apply contains_of_strip in E.
    change "  "%string with (rep " " 2) in E.
    by rewrite no_run_sub in E by lia.
  - apply UrgencyMore.strip_strip.
Qed.

Lemma normal_is_fixed (text : string) : normal text -> _normalize_text text = text.
Proof.
  intros (Hn & Hs & Ht). unfold _normalize_text. rewrite Ht.
  destruct text as [|a text]; [done|]. cbn [PyStr.truthy negb orb]. cbv zeta.
  rewrite newline_text, sub_run_fixed by (lia || done).
  rewrite space_text, sub_run_fixed by (lia || done). exact Ht.
Qed.

(** X24.  The text [_normalize_text] returns has no three newlines in
    a row, no two blanks in a row and no blank at either end, and it is
    empty exactly when the text given is blank. *)
Theorem normalize_text_is_normal (text : string) :
  PyStr.contains three_newlines (_normalize_text text) = false
  /\ PyStr.contains "  " (_normalize_text text) = false
  /\ PyStr.strip (_normalize_text text) = _normalize_text text
  /\ (_normalize_text text = EmptyString <-> PyStr.strip text = EmptyString).
Proof.
  destruct (normalize_is_normal text) as (Hn & Hs & Ht).
  split; [done|]. split; [done|]. split; [done|].
  unfold _normalize_text.
  destruct (PyStr.strip text) eqn:Hstrip.
  - cbn [PyStr.truthy negb]. by rewrite orb_true_r.
  - assert (PyStr.truthy text = true) as ->
        by (destruct text; [by vm_compute in Hstrip|done]).
    cbn [PyStr.truthy negb orb]. cbv zeta. split; [|done].
    rewrite strip_blank, newline_text, space_text.
    rewrite (any_char_sub " " 2 1) by (lia || done).
    rewrite (any_char_sub newline 3 2) by (lia || done).
    rewrite <- strip_blank, Hstrip. done.
Qed.

(** X25.  [_normalize_text] is idempotent, and the texts it leaves as
    they are are exactly the texts without three newlines in a row,
    without two blanks in a row and without a blank at either end. *)
Theorem normalize_text_idempotent (text : string) :
  _normalize_text (_normalize_text text) = _normalize_text text
  /\ (_normalize_text text = text <-> normal text).
Proof.
  split; [apply normal_is_fixed, normalize_is_normal|].
  split; [intros <-; apply normalize_is_normal|apply normal_is_fixed].
Qed.

End ParserFacts.
